(** * Hands-free application: call / voice-channel coordination

    Shallow embedding of [handsfree_main.c]: the profile event callback
    ([handsfree_event_callback] and the handlers it dispatches to), the
    voice-channel callback ([hf_sco_management_callback]), the race-guard
    timer handler ([hfp_timer_expiry_handler]), the outward event
    serialiser ([hci_control_send_hf_event]) and the volume mapping
    ([handsfree_utils_hfp_volume_to_am_volume]).

    The C globals become one explicit [world] record threaded through a
    state-and-fault monad.  Every request to an external collaborator
    (Bluetooth stack, host transport, timer, audio manager) is appended to
    the [calls] history of the world, oldest first.  A run that would
    dereference a null control block or index a fixed-size array out of
    range ends in [Fault].

    A second layer embeds start-up and the management callback
    ([handsfree_management_callback], [handsfree_post_bt_init],
    [handsfree_write_eir], [handsfree_hfp_init], [handsfree_write_nvram],
    [handsfree_read_nvram]) over the same globals, with one history of all
    requests. *)

From Stdlib Require Import ZArith List String Bool Lia RelationClasses.
Import ListNotations.
Open Scope Z_scope.

(** ** Machine integers *)

Definition uint8 (z : Z) : Z := z mod 2 ^ 8.
Definition uint16 (z : Z) : Z := z mod 2 ^ 16.
Definition uint32 (z : Z) : Z := z mod 2 ^ 32.
Definition int32 (z : Z) : Z := (z + 2 ^ 31) mod 2 ^ 32 - 2 ^ 31.

(** ** Types of the profile library and of [handsfree.h]

    The headers are not part of the sources; the records below list the
    fields that [handsfree_main.c] reads or writes. *)

Definition BD_ADDR_LEN : nat := 6.
Definition wiced_bt_device_address_t := list Z.

Inductive wiced_bt_hfp_hf_connection_state_t :=
| WICED_BT_HFP_HF_STATE_DISCONNECTED
| WICED_BT_HFP_HF_STATE_CONNECTED
| WICED_BT_HFP_HF_STATE_SLC_CONNECTED.

(** Service control block of the profile library, as far as it is read. *)
Record wiced_bt_hfp_hf_scb_t := {
  rfcomm_handle : Z;
  feature_mask : Z
}.

Record wiced_bt_hfp_hf_call_data_t := {
  active_call_present : Z;
  held_call_present : Z;
  setup_state : Z
}.

Record wiced_bt_hfp_hf_active_call_t := {
  ac_idx : Z;
  ac_dir : Z;
  ac_status : Z;
  ac_mode : Z;
  ac_is_conference : Z;
  ac_num : list Z;
  ac_type : Z
}.

Record wiced_bt_sco_params_t := {
  max_latency : Z;
  packet_types : Z;
  retrans_effort : Z;
  use_wbs : bool
}.

Record audio_config_t := {
  sr : Z;
  channels : Z;
  bits_per_sample : Z;
  volume : Z;
  mic_gain : Z
}.

(** [bluetooth_hfp_context_t], the single per-link context. *)
Record bluetooth_hfp_context_t := {
  connection_status : wiced_bt_hfp_hf_connection_state_t;
  peer_bd_addr : wiced_bt_device_address_t;
  ctxt_rfcomm_handle : Z;
  call_active : Z;
  call_held : Z;
  call_setup : Z;
  spkr_volume : Z;
  mic_volume : Z;
  sco_index : Z;
  init_sco_conn : bool;
  is_sco_connected : bool;
  inband_ring_status : Z
}.

(** [hci_control_hf_connect_t] and the application globals. *)
Record hci_control_hf_connect_t := {
  peer_features : Z;
  profile_selected : Z
}.

Record hci_control_hf_open_t := {
  bd_addr : wiced_bt_device_address_t;
  status : Z
}.

Record hci_control_hf_value_t := {
  num : Z;
  str : list Z
}.

(** [hci_control_hf_event_t] is a union of the three records above.  No
    path of the program reads a member other than the one it wrote, so the
    members are kept side by side. *)
Record hci_control_hf_event_t := {
  open : hci_control_hf_open_t;
  conn : hci_control_hf_connect_t;
  val : hci_control_hf_value_t
}.

Record handsfrees_app_globals := {
  connect : hci_control_hf_connect_t;
  pairing_allowed : bool
}.

(** Outward event opcodes.  [HCI_CONTROL_HF_AT_EVENT sub] stands for
    [HCI_CONTROL_HF_AT_EVENT_BASE + sub]. *)
Inductive hci_control_hf_at_event :=
| HCI_CONTROL_HF_AT_EVENT_OK
| HCI_CONTROL_HF_AT_EVENT_ERROR
| HCI_CONTROL_HF_AT_EVENT_CMEE
| HCI_CONTROL_HF_AT_EVENT_RING
| HCI_CONTROL_HF_AT_EVENT_VGS
| HCI_CONTROL_HF_AT_EVENT_VGM
| HCI_CONTROL_HF_AT_EVENT_CIEV
| HCI_CONTROL_HF_AT_EVENT_CLIP
| HCI_CONTROL_HF_AT_EVENT_BINP
| HCI_CONTROL_HF_AT_EVENT_BCS
| HCI_CONTROL_HF_AT_EVENT_CLCC
| HCI_CONTROL_HF_AT_EVENT_CNUM
| HCI_CONTROL_HF_AT_EVENT_BIND.

Inductive hci_control_hf_evt :=
| HCI_CONTROL_HF_EVENT_OPEN
| HCI_CONTROL_HF_EVENT_CLOSE
| HCI_CONTROL_HF_EVENT_AUDIO_OPEN
| HCI_CONTROL_HF_EVENT_AUDIO_CLOSE
| HCI_CONTROL_HF_EVENT_CONNECTED
| HCI_CONTROL_HF_EVENT_PROFILE_TYPE
| HCI_CONTROL_HF_AT_EVENT (sub : hci_control_hf_at_event).

(** Parameters of [wiced_am_stream_set_param]. *)
Inductive am_param :=
| AM_AUDIO_CONFIG (cfg : audio_config_t)
| AM_SPEAKER_VOL_LEVEL (level : Z)
| AM_MIC_GAIN_LEVEL (level : Z).

(** Requests issued to the external collaborators. *)
Inductive call :=
| wiced_transport_send_data (evt : hci_control_hf_evt) (data : list Z)
| wiced_bt_sco_create_as_acceptor
| wiced_bt_sco_remove (idx : Z)
| wiced_bt_sco_create_as_initiator
    (bda : wiced_bt_device_address_t) (params : wiced_bt_sco_params_t)
| wiced_bt_sco_accept_connection
    (idx : Z) (hci_status : Z) (params : wiced_bt_sco_params_t)
| wiced_start_timer (timeout : Z)
| wiced_stop_timer
| wiced_am_stream_open
| wiced_am_stream_set_param (id : Z) (p : am_param)
| wiced_am_stream_start (id : Z).

(** ** The globals of [handsfree_main.c] *)

Record world := {
  handsfree_ctxt_data : bluetooth_hfp_context_t;
  handsfree_app_states : handsfrees_app_globals;
  handsfree_esco_params : wiced_bt_sco_params_t;
  headset_sco_params : wiced_bt_sco_params_t;
  stream_id : Z;
  audio_config : audio_config_t;
  calls : list call;
  log : list string
}.

(** ** Environment: header constants, build flags, collaborator answers

    Constants and macros come from headers that are not in the sources, so
    they are parameters.  The answers of the stack within one callback
    invocation are functions of the request. *)

Record hf_env := {
  (* handsfree.h *)
  BT_AUDIO_INVALID_SCO_INDEX : Z;
  SCO_CONNECTION_WAIT_TIMEOUT : Z;
  HCI_CONTROL_HF_VALUE_STR_SIZE : nat;
  (* hci_control_api.h *)
  hf_evt_code : hci_control_hf_evt -> Z;
  HCI_CONTROL_HF_AT_EVENT_BASE : Z;
  HCI_CONTROL_HF_AT_EVENT_MAX : Z;
  (* wiced_bt_hfp_hf.h *)
  WICED_BT_HFP_PROFILE : Z;
  WICED_BT_HSP_PROFILE : Z;
  WICED_BT_HFP_HF_CALLSETUP_STATE_IDLE : Z;
  WICED_BT_HFP_HF_CALLSETUP_STATE_INCOMING : Z;
  WICED_BT_HFP_HF_CALLSETUP_STATE_DIALING : Z;
  WICED_BT_HFP_HF_CALLSETUP_STATE_ALERTING : Z;
  WICED_BT_HFP_HF_SERVICE_IND : Z;
  WICED_BT_HFP_HF_CALL_IND : Z;
  WICED_BT_HFP_HF_CALL_SETUP_IND : Z;
  WICED_BT_HFP_HF_CALL_HELD_IND : Z;
  WICED_BT_HFP_HF_SIGNAL_IND : Z;
  WICED_BT_HFP_HF_ROAM_IND : Z;
  WICED_BT_HFP_HF_BATTERY_IND : Z;
  WICED_BT_HFP_AG_FEATURE_INBAND_RING_TONE_CAPABILITY : Z;
  WICED_BT_HFP_AG_FEATURE_CODEC_NEGOTIATION : Z;
  WICED_BT_HFP_HF_FEATURE_CODEC_NEGOTIATION : Z;
  WICED_BT_HFP_HF_INBAND_RING_ENABLED : Z;
  WICED_BT_HFP_HF_INBAND_RING_DISABLED : Z;
  WICED_BT_HFP_HF_MSBC_CODEC : Z;
  WICED_BT_HFP_HF_MIC : Z;
  (* wiced_audio_manager.h *)
  AM_VOL_LEVEL_HIGH : Z;
  AM_PLAYBACK_SR_16K : Z;
  AM_PLAYBACK_SR_8K : Z;
  DEFAULT_BITSPSAM : Z;
  WICED_AUDIO_MANAGER_STREAM_ID_INVALID : Z;
  (* build flags *)
  WICED_BT_HFP_HF_WBS_INCLUDED : bool;
  WICED_ENABLE_BT_HSP_PROFILE : bool;
  AUDIO_MANAGER_PLATFORM : bool;
  (* answers of the collaborators *)
  wiced_bt_hfp_hf_get_scb_by_bd_addr :
    wiced_bt_device_address_t -> option wiced_bt_hfp_hf_scb_t;
  wiced_bt_hfp_hf_get_scb_by_handle : Z -> option wiced_bt_hfp_hf_scb_t;
  sco_index_as_acceptor : Z -> Z;
  sco_index_as_initiator : wiced_bt_device_address_t -> Z -> Z;
  wiced_is_timer_in_use : bool;
  am_stream_open_id : Z;
  am_stream_set_param_ok : Z -> am_param -> bool;
  am_stream_start_ok : Z -> bool;
  utl_itoa : Z -> list Z
}.

(** ** State-and-fault monad *)

Inductive fault :=
| NULL_DEREFERENCE
| STR_WRITE_OUT_OF_BOUNDS
| STR_READ_OUT_OF_BOUNDS
| TX_BUF_OUT_OF_BOUNDS.

Inductive result (A : Type) :=
| Ok (a : A)
| Fault (f : fault).
Arguments Ok {A} a.
Arguments Fault {A} f.

Definition M (A : Type) : Type := world -> result (A * world).

Definition ret {A} (a : A) : M A := fun w => Ok (a, w).
Definition fail {A} (f : fault) : M A := fun _ => Fault f.
Definition bind {A B} (m : M A) (k : A -> M B) : M B :=
  fun w => match m w with
           | Ok (a, w') => k a w'
           | Fault f => Fault f
           end.

Declare Scope hf_scope.
Delimit Scope hf_scope with hf.
Notation "x <- m ;; k" := (bind m (fun x => k))
  (at level 61, m at next level, right associativity) : hf_scope.
Notation "m ;; k" := (bind m (fun _ => k))
  (at level 61, right associativity) : hf_scope.
Open Scope hf_scope.

Definition gets {A} (f : world -> A) : M A := fun w => Ok (f w, w).
Definition modify (f : world -> world) : M unit := fun w => Ok (tt, f w).
Definition when (b : bool) (m : M unit) : M unit := if b then m else ret tt.

(** Final world of a run, when it does not fault. *)
Definition exec {A} (m : M A) (w : world) : option world :=
  match m w with
  | Ok (_, w') => Some w'
  | Fault _ => None
  end.

(** Dereference of a pointer that may be null. *)
Definition deref {A} (p : option A) : M A :=
  match p with
  | Some a => ret a
  | None => fail NULL_DEREFERENCE
  end.

(** ** Field updates *)

Definition upd_ctxt (f : bluetooth_hfp_context_t -> bluetooth_hfp_context_t)
    (w : world) : world :=
  {| handsfree_ctxt_data := f (handsfree_ctxt_data w);
     handsfree_app_states := handsfree_app_states w;
     handsfree_esco_params := handsfree_esco_params w;
     headset_sco_params := headset_sco_params w;
     stream_id := stream_id w;
     audio_config := audio_config w;
     calls := calls w;
     log := log w |}.

Definition upd_app (f : handsfrees_app_globals -> handsfrees_app_globals)
    (w : world) : world :=
  {| handsfree_ctxt_data := handsfree_ctxt_data w;
     handsfree_app_states := f (handsfree_app_states w);
     handsfree_esco_params := handsfree_esco_params w;
     headset_sco_params := headset_sco_params w;
     stream_id := stream_id w;
     audio_config := audio_config w;
     calls := calls w;
     log := log w |}.

Definition upd_esco (f : wiced_bt_sco_params_t -> wiced_bt_sco_params_t)
    (w : world) : world :=
  {| handsfree_ctxt_data := handsfree_ctxt_data w;
     handsfree_app_states := handsfree_app_states w;
     handsfree_esco_params := f (handsfree_esco_params w);
     headset_sco_params := headset_sco_params w;
     stream_id := stream_id w;
     audio_config := audio_config w;
     calls := calls w;
     log := log w |}.

Definition set_stream_id (v : Z) (w : world) : world :=
  {| handsfree_ctxt_data := handsfree_ctxt_data w;
     handsfree_app_states := handsfree_app_states w;
     handsfree_esco_params := handsfree_esco_params w;
     headset_sco_params := headset_sco_params w;
     stream_id := v;
     audio_config := audio_config w;
     calls := calls w;
     log := log w |}.

Definition upd_audio (f : audio_config_t -> audio_config_t) (w : world) : world :=
  {| handsfree_ctxt_data := handsfree_ctxt_data w;
     handsfree_app_states := handsfree_app_states w;
     handsfree_esco_params := handsfree_esco_params w;
     headset_sco_params := headset_sco_params w;
     stream_id := stream_id w;
     audio_config := f (audio_config w);
     calls := calls w;
     log := log w |}.

Definition add_call (c : call) (w : world) : world :=
  {| handsfree_ctxt_data := handsfree_ctxt_data w;
     handsfree_app_states := handsfree_app_states w;
     handsfree_esco_params := handsfree_esco_params w;
     headset_sco_params := headset_sco_params w;
     stream_id := stream_id w;
     audio_config := audio_config w;
     calls := calls w ++ [c];
     log := log w |}.

Definition add_log (s : string) (w : world) : world :=
  {| handsfree_ctxt_data := handsfree_ctxt_data w;
     handsfree_app_states := handsfree_app_states w;
     handsfree_esco_params := handsfree_esco_params w;
     headset_sco_params := headset_sco_params w;
     stream_id := stream_id w;
     audio_config := audio_config w;
     calls := calls w;
     log := log w ++ [s] |}.

Definition set_peer_bd_addr (v : wiced_bt_device_address_t)
    (c : bluetooth_hfp_context_t) : bluetooth_hfp_context_t :=
  {| connection_status := connection_status c; peer_bd_addr := v;
     ctxt_rfcomm_handle := ctxt_rfcomm_handle c; call_active := call_active c;
     call_held := call_held c; call_setup := call_setup c;
     spkr_volume := spkr_volume c; mic_volume := mic_volume c;
     sco_index := sco_index c; init_sco_conn := init_sco_conn c;
     is_sco_connected := is_sco_connected c;
     inband_ring_status := inband_ring_status c |}.

Definition set_rfcomm_handle (v : Z)
    (c : bluetooth_hfp_context_t) : bluetooth_hfp_context_t :=
  {| connection_status := connection_status c; peer_bd_addr := peer_bd_addr c;
     ctxt_rfcomm_handle := v; call_active := call_active c;
     call_held := call_held c; call_setup := call_setup c;
     spkr_volume := spkr_volume c; mic_volume := mic_volume c;
     sco_index := sco_index c; init_sco_conn := init_sco_conn c;
     is_sco_connected := is_sco_connected c;
     inband_ring_status := inband_ring_status c |}.

Definition set_call_indicators (active held setup : Z)
    (c : bluetooth_hfp_context_t) : bluetooth_hfp_context_t :=
  {| connection_status := connection_status c; peer_bd_addr := peer_bd_addr c;
     ctxt_rfcomm_handle := ctxt_rfcomm_handle c; call_active := active;
     call_held := held; call_setup := setup;
     spkr_volume := spkr_volume c; mic_volume := mic_volume c;
     sco_index := sco_index c; init_sco_conn := init_sco_conn c;
     is_sco_connected := is_sco_connected c;
     inband_ring_status := inband_ring_status c |}.

Definition set_sco_index (v : Z)
    (c : bluetooth_hfp_context_t) : bluetooth_hfp_context_t :=
  {| connection_status := connection_status c; peer_bd_addr := peer_bd_addr c;
     ctxt_rfcomm_handle := ctxt_rfcomm_handle c; call_active := call_active c;
     call_held := call_held c; call_setup := call_setup c;
     spkr_volume := spkr_volume c; mic_volume := mic_volume c;
     sco_index := v; init_sco_conn := init_sco_conn c;
     is_sco_connected := is_sco_connected c;
     inband_ring_status := inband_ring_status c |}.

Definition set_init_sco_conn (v : bool)
    (c : bluetooth_hfp_context_t) : bluetooth_hfp_context_t :=
  {| connection_status := connection_status c; peer_bd_addr := peer_bd_addr c;
     ctxt_rfcomm_handle := ctxt_rfcomm_handle c; call_active := call_active c;
     call_held := call_held c; call_setup := call_setup c;
     spkr_volume := spkr_volume c; mic_volume := mic_volume c;
     sco_index := sco_index c; init_sco_conn := v;
     is_sco_connected := is_sco_connected c;
     inband_ring_status := inband_ring_status c |}.

Definition set_is_sco_connected (v : bool)
    (c : bluetooth_hfp_context_t) : bluetooth_hfp_context_t :=
  {| connection_status := connection_status c; peer_bd_addr := peer_bd_addr c;
     ctxt_rfcomm_handle := ctxt_rfcomm_handle c; call_active := call_active c;
     call_held := call_held c; call_setup := call_setup c;
     spkr_volume := spkr_volume c; mic_volume := mic_volume c;
     sco_index := sco_index c; init_sco_conn := init_sco_conn c;
     is_sco_connected := v;
     inband_ring_status := inband_ring_status c |}.

Definition set_inband_ring_status (v : Z)
    (c : bluetooth_hfp_context_t) : bluetooth_hfp_context_t :=
  {| connection_status := connection_status c; peer_bd_addr := peer_bd_addr c;
     ctxt_rfcomm_handle := ctxt_rfcomm_handle c; call_active := call_active c;
     call_held := call_held c; call_setup := call_setup c;
     spkr_volume := spkr_volume c; mic_volume := mic_volume c;
     sco_index := sco_index c; init_sco_conn := init_sco_conn c;
     is_sco_connected := is_sco_connected c;
     inband_ring_status := v |}.

Definition set_profile_selected (v : Z)
    (a : handsfrees_app_globals) : handsfrees_app_globals :=
  {| connect := {| peer_features := peer_features (connect a);
                   profile_selected := v |};
     pairing_allowed := pairing_allowed a |}.

Definition set_use_wbs (v : bool)
    (p : wiced_bt_sco_params_t) : wiced_bt_sco_params_t :=
  {| max_latency := max_latency p; packet_types := packet_types p;
     retrans_effort := retrans_effort p; use_wbs := v |}.

Definition set_sr (v : Z) (a : audio_config_t) : audio_config_t :=
  {| sr := v; channels := channels a; bits_per_sample := bits_per_sample a;
     volume := volume a; mic_gain := mic_gain a |}.

Definition set_channels (v : Z) (a : audio_config_t) : audio_config_t :=
  {| sr := sr a; channels := v; bits_per_sample := bits_per_sample a;
     volume := volume a; mic_gain := mic_gain a |}.

Definition set_bits_per_sample (v : Z) (a : audio_config_t) : audio_config_t :=
  {| sr := sr a; channels := channels a; bits_per_sample := v;
     volume := volume a; mic_gain := mic_gain a |}.

Definition set_volume (v : Z) (a : audio_config_t) : audio_config_t :=
  {| sr := sr a; channels := channels a; bits_per_sample := bits_per_sample a;
     volume := v; mic_gain := mic_gain a |}.

Definition set_mic_gain (v : Z) (a : audio_config_t) : audio_config_t :=
  {| sr := sr a; channels := channels a; bits_per_sample := bits_per_sample a;
     volume := volume a; mic_gain := v |}.

(** ** Effects *)

Definition emit (c : call) : M unit := modify (add_call c).
Definition WICED_BT_TRACE (s : string) : M unit := modify (add_log s).

Definition WICED_BT_SUCCESS : Z := 0.
Definition HCI_SUCCESS : Z := 0.

(** ** C strings and fixed-size character arrays

    A text received from the profile library is the list of its
    characters; as in C it ends at the first NUL. *)

Fixpoint c_str (l : list Z) : list Z :=
  match l with
  | [] => []
  | c :: l' => if c =? 0 then [] else c :: c_str l'
  end.

Definition strlen (l : list Z) : nat := List.length (c_str l).

(** [strlen] on a fixed-size array: [None] when the array holds no NUL, so
    that the scan leaves the array. *)
Fixpoint array_strlen (buf : list Z) : option nat :=
  match buf with
  | [] => None
  | c :: buf' =>
      if c =? 0 then Some O
      else match array_strlen buf' with
           | Some n => Some (S n)
           | None => None
           end
  end.

(** Store [data] at offset [off] of the array [buf]; [None] when the store
    leaves the array. *)
Definition array_store (off : nat) (data : list Z) (buf : list Z)
    : option (list Z) :=
  if (off + List.length data <=? List.length buf)%nat
  then Some (firstn off buf ++ data ++ skipn (off + List.length data) buf)
  else None.

Definition str_store (off : nat) (data : list Z) (v : hci_control_hf_value_t)
    : M hci_control_hf_value_t :=
  match array_store off data (str v) with
  | Some s => ret {| num := num v; str := s |}
  | None => fail STR_WRITE_OUT_OF_BOUNDS
  end.

(** [strncpy (dst, src, n)] with [n] the size of [dst]: at most [n]
    characters of [src], padded with NUL up to [n]. *)
Definition strncpy (n : nat) (src : list Z) : list Z :=
  firstn n (c_str src ++ repeat 0 n).

Definition set_num (n : Z) (v : hci_control_hf_value_t) : hci_control_hf_value_t :=
  {| num := uint16 n; str := str v |}.

(** ** [hci_control_send_hf_event] *)

Definition TX_BUF_SIZE : nat := 300.

Definition UINT32_TO_STREAM (v : Z) : list Z :=
  [uint8 v; uint8 (Z.shiftr v 8); uint8 (Z.shiftr v 16); uint8 (Z.shiftr v 24)].

Definition reversed_bd_addr (a : wiced_bt_device_address_t) : list Z :=
  map (fun i => nth (BD_ADDR_LEN - 1 - i) a 0) (seq 0 BD_ADDR_LEN).

Definition zero_open : hci_control_hf_open_t :=
  {| bd_addr := repeat 0 BD_ADDR_LEN; status := 0 |}.
Definition zero_conn : hci_control_hf_connect_t :=
  {| peer_features := 0; profile_selected := 0 |}.

(** The casts of [&open], [&connect] and [p_val] to the union type. *)
Definition open_event (o : hci_control_hf_open_t) : hci_control_hf_event_t :=
  {| open := o; conn := zero_conn; val := {| num := 0; str := [] |} |}.
Definition conn_event (c : hci_control_hf_connect_t) : hci_control_hf_event_t :=
  {| open := zero_open; conn := c; val := {| num := 0; str := [] |} |}.
Definition val_event (v : hci_control_hf_value_t) : hci_control_hf_event_t :=
  {| open := zero_open; conn := zero_conn; val := v |}.

Definition hf_event_payload (evt : hci_control_hf_evt)
    (p_data : option hci_control_hf_event_t) : M (list Z) :=
  match evt with
  | HCI_CONTROL_HF_EVENT_OPEN =>
      d <- deref p_data ;;
      ret (reversed_bd_addr (bd_addr (open d)) ++ [uint8 (status (open d))])
  | HCI_CONTROL_HF_EVENT_CLOSE => ret []
  | HCI_CONTROL_HF_EVENT_AUDIO_OPEN => ret []
  | HCI_CONTROL_HF_EVENT_AUDIO_CLOSE => ret []
  | HCI_CONTROL_HF_EVENT_CONNECTED =>
      d <- deref p_data ;;
      ret (UINT32_TO_STREAM (peer_features (conn d)))
  | HCI_CONTROL_HF_EVENT_PROFILE_TYPE =>
      d <- deref p_data ;;
      ret [uint8 (profile_selected (conn d))]
  | HCI_CONTROL_HF_AT_EVENT _ =>
      match p_data with
      | Some d =>
          match array_strlen (str (val d)) with
          | Some n =>
              ret ([uint8 (num (val d)); uint8 (Z.shiftr (num (val d)) 8)]
                     ++ firstn n (str (val d)) ++ [0])
          | None => fail STR_READ_OUT_OF_BOUNDS
          end
      | None => ret [0; 0; 0]
      end
  end.

Definition hci_control_send_hf_event (evt : hci_control_hf_evt) (handle : Z)
    (p_data : option hci_control_hf_event_t) : M unit :=
  WICED_BT_TRACE "[%u]hci_control_send_hf_event: Sending Event: %u  to UART" ;;
  payload <- hf_event_payload evt p_data ;;
  let tx_buf := [uint8 (uint16 handle); uint8 (Z.shiftr (uint16 handle) 8)]
                  ++ payload in
  if (List.length tx_buf <=? TX_BUF_SIZE)%nat
  then emit (wiced_transport_send_data evt tx_buf)
  else fail TX_BUF_OUT_OF_BOUNDS.

(** ** Stack requests that write the channel index back *)

Definition sco_create_as_acceptor (E : hf_env) : M unit :=
  emit wiced_bt_sco_create_as_acceptor ;;
  modify (upd_ctxt (fun c => set_sco_index (sco_index_as_acceptor E (sco_index c)) c)).

Definition sco_create_as_initiator (E : hf_env) : M unit :=
  bda <- gets (fun w => peer_bd_addr (handsfree_ctxt_data w)) ;;
  params <- gets handsfree_esco_params ;;
  emit (wiced_bt_sco_create_as_initiator bda params) ;;
  modify (upd_ctxt (fun c =>
    set_sco_index (sco_index_as_initiator E bda (sco_index c)) c)).

(** ** [handsfree_connection_event_handler] *)

Definition handsfree_connection_event_handler (E : hf_env)
    (conn_state : wiced_bt_hfp_hf_connection_state_t)
    (remote_address : wiced_bt_device_address_t)
    (connected_profile : Z) : M unit :=
  match conn_state with
  | WICED_BT_HFP_HF_STATE_CONNECTED =>
      let opn := {| bd_addr := firstn BD_ADDR_LEN remote_address;
                    status := WICED_BT_SUCCESS |} in
      p_scb <- deref (wiced_bt_hfp_hf_get_scb_by_bd_addr E remote_address) ;;
      modify (upd_ctxt (set_rfcomm_handle (rfcomm_handle p_scb))) ;;
      hci_control_send_hf_event HCI_CONTROL_HF_EVENT_OPEN (rfcomm_handle p_scb)
        (Some (open_event opn)) ;;
      (if connected_profile =? WICED_BT_HFP_PROFILE E
       then
         modify (upd_app (set_profile_selected (WICED_BT_HFP_PROFILE E))) ;;
         cn <- gets (fun w => connect (handsfree_app_states w)) ;;
         hci_control_send_hf_event HCI_CONTROL_HF_EVENT_PROFILE_TYPE
           (rfcomm_handle p_scb) (Some (conn_event cn))
       else
         modify (upd_app (set_profile_selected (WICED_BT_HSP_PROFILE E))) ;;
         modify (upd_ctxt (set_peer_bd_addr (firstn BD_ADDR_LEN remote_address))) ;;
         cn <- gets (fun w => connect (handsfree_app_states w)) ;;
         hci_control_send_hf_event HCI_CONTROL_HF_EVENT_PROFILE_TYPE
           (rfcomm_handle p_scb) (Some (conn_event cn))) ;;
      sco_create_as_acceptor E ;;
      WICED_BT_TRACE "%s: status [%d] SCO INDEX [%d] "
  | WICED_BT_HFP_HF_STATE_SLC_CONNECTED =>
      WICED_BT_TRACE "%s: Peer BD Addr [%B]" ;;
      modify (upd_ctxt (set_peer_bd_addr (firstn BD_ADDR_LEN remote_address)))
  | WICED_BT_HFP_HF_STATE_DISCONNECTED =>
      modify (upd_ctxt (set_peer_bd_addr (repeat 0 BD_ADDR_LEN))) ;;
      idx <- gets (fun w => sco_index (handsfree_ctxt_data w)) ;;
      when (negb (idx =? BT_AUDIO_INVALID_SCO_INDEX E))
        (emit (wiced_bt_sco_remove idx) ;;
         modify (upd_ctxt (set_sco_index (BT_AUDIO_INVALID_SCO_INDEX E))) ;;
         WICED_BT_TRACE "%s: remove sco status [%d] ") ;;
      h <- gets (fun w => ctxt_rfcomm_handle (handsfree_ctxt_data w)) ;;
      hci_control_send_hf_event HCI_CONTROL_HF_EVENT_CLOSE h None
  end.

(** ** [handsfree_call_setup_event_handler]

    The [switch] only selects a trace message; the three assignments after
    it are reached on every path. *)

Definition handsfree_call_setup_event_handler (E : hf_env)
    (call_data : wiced_bt_hfp_hf_call_data_t) : M unit :=
  c <- gets handsfree_ctxt_data ;;
  (if setup_state call_data =? WICED_BT_HFP_HF_CALLSETUP_STATE_INCOMING E then
     WICED_BT_TRACE "%s: Call(incoming) setting-up"
   else if setup_state call_data =? WICED_BT_HFP_HF_CALLSETUP_STATE_IDLE E then
     if active_call_present call_data =? 0 then
       if (call_setup c =? WICED_BT_HFP_HF_CALLSETUP_STATE_INCOMING E)
          || (call_setup c =? WICED_BT_HFP_HF_CALLSETUP_STATE_DIALING E)
          || (call_setup c =? WICED_BT_HFP_HF_CALLSETUP_STATE_ALERTING E)
       then WICED_BT_TRACE "Call: Inactive; Call Set-up: IDLE"
       else if call_active c =? 1
       then WICED_BT_TRACE "Call Terminated"
       else ret tt
     else if active_call_present call_data =? 1 then
       WICED_BT_TRACE "Call: Active; Call-setup: DONE"
     else ret tt
   else if setup_state call_data =? WICED_BT_HFP_HF_CALLSETUP_STATE_DIALING E then
     WICED_BT_TRACE "Call(outgoing) setting-up"
   else if setup_state call_data =? WICED_BT_HFP_HF_CALLSETUP_STATE_ALERTING E then
     WICED_BT_TRACE "Remote(outgoing) ringing"
   else ret tt) ;;
  modify (upd_ctxt (set_call_indicators
                      (active_call_present call_data)
                      (held_call_present call_data)
                      (setup_state call_data))).

(** ** [handsfree_send_ciev_cmd] and [handsfree_send_clcc_evt] *)

Definition handsfree_send_ciev_cmd (E : hf_env) (handle ind_id ind_val : Z)
    (p_val : hci_control_hf_value_t) : M hci_control_hf_value_t :=
  let p_scb := wiced_bt_hfp_hf_get_scb_by_handle E handle in
  v <- str_store 0 [uint8 (48 + uint8 ind_id)] p_val ;;
  v <- str_store 1 [44] v ;;
  v <- str_store 2 [uint8 (48 + uint8 ind_val)] v ;;
  v <- str_store 3 [0] v ;;
  scb <- deref p_scb ;;
  hci_control_send_hf_event
    (HCI_CONTROL_HF_AT_EVENT HCI_CONTROL_HF_AT_EVENT_CIEV)
    (rfcomm_handle scb) (Some (val_event v)) ;;
  ret v.

Definition handsfree_send_clcc_evt (E : hf_env) (handle : Z)
    (active_call : wiced_bt_hfp_hf_active_call_t)
    (p_val : hci_control_hf_value_t) : M hci_control_hf_value_t :=
  let p_scb := wiced_bt_hfp_hf_get_scb_by_handle E handle in
  v <- str_store 0 [uint8 (48 + ac_idx active_call)] p_val ;;
  v <- str_store 1 [44] v ;;
  v <- str_store 2 [uint8 (48 + ac_dir active_call)] v ;;
  v <- str_store 3 [44] v ;;
  v <- str_store 4 [uint8 (48 + ac_status active_call)] v ;;
  v <- str_store 5 [44] v ;;
  v <- str_store 6 [uint8 (48 + ac_mode active_call)] v ;;
  v <- str_store 7 [44] v ;;
  v <- str_store 8 [uint8 (48 + ac_is_conference active_call)] v ;;
  vi <- (if ac_type active_call =? 0 then ret (v, 9%nat)
         else
           let n := c_str (ac_num active_call) in
           let t := utl_itoa E (ac_type active_call) in
           v <- str_store 9 [44] v ;;
           v <- str_store 10 n v ;;
           v <- str_store (10 + List.length n) [44] v ;;
           v <- str_store (11 + List.length n) t v ;;
           ret (v, (11 + List.length n + List.length t)%nat)) ;;
  v <- str_store (snd vi) [0] (fst vi) ;;
  scb <- deref p_scb ;;
  hci_control_send_hf_event
    (HCI_CONTROL_HF_AT_EVENT HCI_CONTROL_HF_AT_EVENT_CLCC)
    (rfcomm_handle scb) (Some (val_event v)) ;;
  ret v.

(** ** [handsfree_event_callback] *)

(** An event of the profile library together with the member of the event
    data union that belongs to it. *)
Inductive wiced_bt_hfp_hf_event_t :=
| WICED_BT_HFP_HF_CONNECTION_STATE_EVT
    (conn_state : wiced_bt_hfp_hf_connection_state_t)
    (remote_address : wiced_bt_device_address_t) (connected_profile : Z)
| WICED_BT_HFP_HF_AG_FEATURE_SUPPORT_EVT (ag_feature_flags : Z)
| WICED_BT_HFP_HF_SERVICE_STATE_EVT (service_state : Z)
| WICED_BT_HFP_HF_CALL_SETUP_EVT (call_data : wiced_bt_hfp_hf_call_data_t)
| WICED_BT_HFP_HF_RSSI_IND_EVT (rssi : Z)
| WICED_BT_HFP_HF_SERVICE_TYPE_EVT (service_type : Z)
| WICED_BT_HFP_HF_BATTERY_STATUS_IND_EVT (battery_level : Z)
| WICED_BT_HFP_HF_RING_EVT
| WICED_BT_HFP_HF_INBAND_RING_STATE_EVT (inband_ring : Z)
| WICED_BT_HFP_HF_OK_EVT
| WICED_BT_HFP_HF_ERROR_EVT
| WICED_BT_HFP_HF_CME_ERROR_EVT (error_code : Z)
| WICED_BT_HFP_HF_CLIP_IND_EVT (clip_type : Z) (caller_num : list Z)
| WICED_BT_HFP_HF_BINP_EVT (binp_type : Z) (caller_num : list Z)
| WICED_BT_HFP_HF_VOLUME_CHANGE_EVT (volume_type level : Z)
| WICED_BT_HFP_HFP_CODEC_SET_EVT (selected_codec : Z)
| WICED_BT_HFP_HFP_ACTIVE_CALL_EVT (active_call : wiced_bt_hfp_hf_active_call_t)
| WICED_BT_HFP_HF_CNUM_EVT (cnum_data : list Z)
| WICED_BT_HFP_HF_BIND_EVT (ind_id ind_value : Z)
| WICED_BT_HFP_HF_UNHANDLED_EVT.

(** [memset (&p_val, 0, sizeof p_val)]. *)
Definition zero_val (E : hf_env) : hci_control_hf_value_t :=
  {| num := 0; str := repeat 0 (HCI_CONTROL_HF_VALUE_STR_SIZE E) |}.

Definition AT (sub : hci_control_hf_at_event) : option hci_control_hf_evt :=
  Some (HCI_CONTROL_HF_AT_EVENT sub).

(** [res && res <= HCI_CONTROL_HF_AT_EVENT_BASE + HCI_CONTROL_HF_AT_EVENT_MAX];
    [None] is [res = 0]. *)
Definition res_in_range (E : hf_env) (res : option hci_control_hf_evt) : bool :=
  match res with
  | None => false
  | Some r =>
      negb (hf_evt_code E r =? 0)
      && (hf_evt_code E r
            <=? HCI_CONTROL_HF_AT_EVENT_BASE E + HCI_CONTROL_HF_AT_EVENT_MAX E)
  end.

(** The audio-manager block of the codec-set case. *)
Definition codec_set_audio_manager (E : hf_env) (selected_codec : Z) : M unit :=
  WICED_BT_TRACE "%s - CODEC_SET: %d" ;;
  (if selected_codec =? WICED_BT_HFP_HF_MSBC_CODEC E
   then modify (upd_esco (set_use_wbs true)) ;; modify (upd_audio (set_sr 16000))
   else modify (upd_esco (set_use_wbs false)) ;; modify (upd_audio (set_sr 8000))) ;;
  modify (upd_audio (set_channels 1)) ;;
  modify (upd_audio (set_bits_per_sample (DEFAULT_BITSPSAM E))) ;;
  modify (upd_audio (set_volume (AM_VOL_LEVEL_HIGH E - 2))) ;;
  id <- gets stream_id ;;
  when (id =? WICED_AUDIO_MANAGER_STREAM_ID_INVALID E)
    (emit wiced_am_stream_open ;; modify (set_stream_id (am_stream_open_id E))) ;;
  id <- gets stream_id ;;
  cfg <- gets audio_config ;;
  emit (wiced_am_stream_set_param id (AM_AUDIO_CONFIG cfg)) ;;
  when (negb (am_stream_set_param_ok E id (AM_AUDIO_CONFIG cfg)))
    (WICED_BT_TRACE "wiced_am_set_param failed").

(** The body of the [switch]: the new value of the local [p_val] (its
    [conn.peer_features] and [val] members) and of [res]. *)
Definition handsfree_event_switch (E : hf_env) (handle : Z)
    (event : wiced_bt_hfp_hf_event_t)
    : M (Z * hci_control_hf_value_t * option hci_control_hf_evt) :=
  let v0 := zero_val E in
  match event with
  | WICED_BT_HFP_HF_CONNECTION_STATE_EVT conn_state remote_address connected_profile =>
      handsfree_connection_event_handler E conn_state remote_address connected_profile ;;
      ret (0, v0, None)
  | WICED_BT_HFP_HF_AG_FEATURE_SUPPORT_EVT ag_feature_flags =>
      (if negb (Z.land ag_feature_flags
                  (WICED_BT_HFP_AG_FEATURE_INBAND_RING_TONE_CAPABILITY E) =? 0)
       then modify (upd_ctxt (set_inband_ring_status
                                (WICED_BT_HFP_HF_INBAND_RING_ENABLED E)))
       else modify (upd_ctxt (set_inband_ring_status
                                (WICED_BT_HFP_HF_INBAND_RING_DISABLED E)))) ;;
      when (WICED_BT_HFP_HF_WBS_INCLUDED E)
        (let p_scb := wiced_bt_hfp_hf_get_scb_by_handle E handle in
         if negb (Z.land ag_feature_flags
                    (WICED_BT_HFP_AG_FEATURE_CODEC_NEGOTIATION E) =? 0)
         then
           scb <- deref p_scb ;;
           if negb (Z.land (feature_mask scb)
                      (WICED_BT_HFP_HF_FEATURE_CODEC_NEGOTIATION E) =? 0)
           then modify (upd_esco (set_use_wbs true))
           else modify (upd_esco (set_use_wbs false))
         else modify (upd_esco (set_use_wbs false))) ;;
      ret (uint32 ag_feature_flags, v0, Some HCI_CONTROL_HF_EVENT_CONNECTED)
  | WICED_BT_HFP_HF_SERVICE_STATE_EVT service_state =>
      v <- handsfree_send_ciev_cmd E handle (WICED_BT_HFP_HF_SERVICE_IND E)
             service_state v0 ;;
      ret (0, v, None)
  | WICED_BT_HFP_HF_CALL_SETUP_EVT call_data =>
      c <- gets handsfree_ctxt_data ;;
      v <- (if negb (call_active c =? active_call_present call_data)
            then handsfree_send_ciev_cmd E handle (WICED_BT_HFP_HF_CALL_IND E)
                   (active_call_present call_data) v0
            else ret v0) ;;
      v <- (if negb (call_held c =? held_call_present call_data)
            then handsfree_send_ciev_cmd E handle (WICED_BT_HFP_HF_CALL_HELD_IND E)
                   (held_call_present call_data) v
            else ret v) ;;
      v <- (if negb (call_setup c =? setup_state call_data)
            then handsfree_send_ciev_cmd E handle (WICED_BT_HFP_HF_CALL_SETUP_IND E)
                   (setup_state call_data) v
            else ret v) ;;
      handsfree_call_setup_event_handler E call_data ;;
      ret (0, v, None)
  | WICED_BT_HFP_HF_RSSI_IND_EVT rssi =>
      v <- handsfree_send_ciev_cmd E handle (WICED_BT_HFP_HF_SIGNAL_IND E) rssi v0 ;;
      ret (0, v, None)
  | WICED_BT_HFP_HF_SERVICE_TYPE_EVT service_type =>
      v <- handsfree_send_ciev_cmd E handle (WICED_BT_HFP_HF_ROAM_IND E)
             service_type v0 ;;
      ret (0, v, None)
  | WICED_BT_HFP_HF_BATTERY_STATUS_IND_EVT battery_level =>
      v <- handsfree_send_ciev_cmd E handle (WICED_BT_HFP_HF_BATTERY_IND E)
             battery_level v0 ;;
      ret (0, v, None)
  | WICED_BT_HFP_HF_RING_EVT =>
      WICED_BT_TRACE "%s: RING " ;;
      ret (0, v0, AT HCI_CONTROL_HF_AT_EVENT_RING)
  | WICED_BT_HFP_HF_INBAND_RING_STATE_EVT inband_ring =>
      modify (upd_ctxt (set_inband_ring_status inband_ring)) ;;
      ret (0, v0, None)
  | WICED_BT_HFP_HF_OK_EVT =>
      WICED_BT_TRACE "%s: OK " ;;
      ret (0, v0, AT HCI_CONTROL_HF_AT_EVENT_OK)
  | WICED_BT_HFP_HF_ERROR_EVT =>
      WICED_BT_TRACE "%s: Error " ;;
      ret (0, v0, AT HCI_CONTROL_HF_AT_EVENT_ERROR)
  | WICED_BT_HFP_HF_CME_ERROR_EVT error_code =>
      WICED_BT_TRACE "%s: CME Error " ;;
      ret (0, set_num error_code v0, AT HCI_CONTROL_HF_AT_EVENT_CMEE)
  | WICED_BT_HFP_HF_CLIP_IND_EVT clip_type caller_num =>
      let v := {| num := uint16 clip_type;
                  str := strncpy (HCI_CONTROL_HF_VALUE_STR_SIZE E) caller_num |} in
      WICED_BT_TRACE "%s: CLIP - number %s, type %d" ;;
      ret (0, v, AT HCI_CONTROL_HF_AT_EVENT_CLIP)
  | WICED_BT_HFP_HF_BINP_EVT binp_type caller_num =>
      let v := {| num := uint16 binp_type;
                  str := strncpy (HCI_CONTROL_HF_VALUE_STR_SIZE E) caller_num |} in
      WICED_BT_TRACE "%s: BINP - number %s, type %d" ;;
      ret (0, v, AT HCI_CONTROL_HF_AT_EVENT_BINP)
  | WICED_BT_HFP_HF_VOLUME_CHANGE_EVT volume_type level =>
      WICED_BT_TRACE "%s: %s VOLUME - %d " ;;
      ret (0, set_num level v0,
           if volume_type =? WICED_BT_HFP_HF_MIC E
           then AT HCI_CONTROL_HF_AT_EVENT_VGM
           else AT HCI_CONTROL_HF_AT_EVENT_VGS)
  | WICED_BT_HFP_HFP_CODEC_SET_EVT selected_codec =>
      (if selected_codec =? WICED_BT_HFP_HF_MSBC_CODEC E
       then modify (upd_esco (set_use_wbs true))
       else modify (upd_esco (set_use_wbs false))) ;;
      init <- gets (fun w => init_sco_conn (handsfree_ctxt_data w)) ;;
      when init
        (emit (wiced_start_timer (SCO_CONNECTION_WAIT_TIMEOUT E)) ;;
         modify (upd_ctxt (set_init_sco_conn false))) ;;
      when (AUDIO_MANAGER_PLATFORM E) (codec_set_audio_manager E selected_codec) ;;
      ret (0, set_num selected_codec v0, AT HCI_CONTROL_HF_AT_EVENT_BCS)
  | WICED_BT_HFP_HFP_ACTIVE_CALL_EVT active_call =>
      v <- handsfree_send_clcc_evt E handle active_call v0 ;;
      ret (0, v, None)
  | WICED_BT_HFP_HF_CNUM_EVT cnum_data =>
      v <- str_store 0 (c_str cnum_data) v0 ;;
      ret (0, v, AT HCI_CONTROL_HF_AT_EVENT_CNUM)
  | WICED_BT_HFP_HF_BIND_EVT ind_id ind_value =>
      v <- str_store 0 [uint8 (ind_id + 48)] v0 ;;
      v <- str_store 1 [44] v ;;
      v <- str_store 2 [uint8 (ind_value + 48)] v ;;
      ret (0, v, AT HCI_CONTROL_HF_AT_EVENT_BIND)
  | WICED_BT_HFP_HF_UNHANDLED_EVT => ret (0, v0, None)
  end.

Definition handsfree_event_callback (E : hf_env) (handle : Z)
    (event : wiced_bt_hfp_hf_event_t) : M unit :=
  r <- handsfree_event_switch E handle event ;;
  let '(features, v, res) := r in
  match res with
  | Some evt =>
      if res_in_range E res then
        p_scb <- deref (wiced_bt_hfp_hf_get_scb_by_handle E handle) ;;
        hci_control_send_hf_event evt (rfcomm_handle p_scb)
          (Some {| open := zero_open;
                   conn := {| peer_features := features; profile_selected := 0 |};
                   val := v |})
      else ret tt
  | None => ret tt
  end.

(** ** [handsfree_init_context_data] *)

Definition handsfree_init_context_data (E : hf_env) : M unit :=
  modify (upd_ctxt (fun c =>
    {| connection_status := WICED_BT_HFP_HF_STATE_DISCONNECTED;
       peer_bd_addr := peer_bd_addr c;
       ctxt_rfcomm_handle := ctxt_rfcomm_handle c;
       call_active := 0;
       call_held := 0;
       call_setup := WICED_BT_HFP_HF_CALLSETUP_STATE_IDLE E;
       spkr_volume := 8;
       mic_volume := 8;
       sco_index := BT_AUDIO_INVALID_SCO_INDEX E;
       init_sco_conn := false;
       is_sco_connected := is_sco_connected c;
       inband_ring_status := inband_ring_status c |})).

(** ** [handsfree_utils_hfp_volume_to_am_volume]

    [am_level] is an [int32_t], [remainder] a [uint32_t]; the comparison
    with the macro is made at unsigned type.  The two macros are the
    arguments of the generic form. *)

Definition hfp_volume_to_am_volume (hfp_volume_high am_vol_level_high vol : Z) : Z :=
  let am_level := int32 (Z.quot (int32 (vol * am_vol_level_high)) hfp_volume_high) in
  let remainder := uint32 (Z.rem (int32 (vol * am_vol_level_high)) hfp_volume_high) in
  if uint32 am_vol_level_high <=? remainder then int32 (am_level + 1) else am_level.

Definition HFP_VOLUME_HIGH : Z := 15.

Definition handsfree_utils_hfp_volume_to_am_volume (E : hf_env) (vol : Z) : Z :=
  hfp_volume_to_am_volume HFP_VOLUME_HIGH (AM_VOL_LEVEL_HIGH E) vol.

(** ** [hf_sco_management_callback] *)

Inductive wiced_bt_management_evt_t :=
| BTM_SCO_CONNECTED_EVT (idx : Z)
| BTM_SCO_DISCONNECTED_EVT (idx : Z)
| BTM_SCO_CONNECTION_REQUEST_EVT (idx : Z)
| BTM_SCO_CONNECTION_CHANGE_EVT (idx : Z)
| BTM_OTHER_EVT.

(** The audio-manager block of the connected case. *)
Definition sco_connected_audio_manager (E : hf_env) : M unit :=
  id <- gets stream_id ;;
  when (id =? WICED_AUDIO_MANAGER_STREAM_ID_INVALID E)
    (emit wiced_am_stream_open ;;
     modify (set_stream_id (am_stream_open_id E)) ;;
     WICED_BT_TRACE "wiced_am_stream_open completed stream_id: %d") ;;
  wbs <- gets (fun w => use_wbs (handsfree_esco_params w)) ;;
  modify (upd_audio (set_sr (if wbs then AM_PLAYBACK_SR_16K E
                             else AM_PLAYBACK_SR_8K E))) ;;
  modify (upd_audio (set_volume
    (handsfree_utils_hfp_volume_to_am_volume E (AM_VOL_LEVEL_HIGH E - 2)))) ;;
  modify (upd_audio (set_mic_gain
    (handsfree_utils_hfp_volume_to_am_volume E (AM_VOL_LEVEL_HIGH E - 2)))) ;;
  id <- gets stream_id ;;
  cfg <- gets audio_config ;;
  emit (wiced_am_stream_set_param id (AM_AUDIO_CONFIG cfg)) ;;
  when (negb (am_stream_set_param_ok E id (AM_AUDIO_CONFIG cfg)))
    (WICED_BT_TRACE "wiced_am_set_param failed") ;;
  emit (wiced_am_stream_start id) ;;
  when (negb (am_stream_start_ok E id))
    (WICED_BT_TRACE "wiced_am_stream_start failed stream_id : %d ") ;;
  emit (wiced_am_stream_set_param id (AM_SPEAKER_VOL_LEVEL (volume cfg))) ;;
  when (negb (am_stream_set_param_ok E id (AM_SPEAKER_VOL_LEVEL (volume cfg))))
    (WICED_BT_TRACE "wiced_am_set_param failed") ;;
  emit (wiced_am_stream_set_param id (AM_MIC_GAIN_LEVEL (mic_gain cfg))) ;;
  when (negb (am_stream_set_param_ok E id (AM_MIC_GAIN_LEVEL (mic_gain cfg))))
    (WICED_BT_TRACE "wiced_am_set_param failed").

Definition hf_sco_management_callback (E : hf_env)
    (event : wiced_bt_management_evt_t) : M unit :=
  bda <- gets (fun w => peer_bd_addr (handsfree_ctxt_data w)) ;;
  let p_scb := wiced_bt_hfp_hf_get_scb_by_bd_addr E bda in
  WICED_BT_TRACE "hf_sco_management_callback: event=%d" ;;
  match event with
  | BTM_SCO_CONNECTED_EVT _ =>
      when (AUDIO_MANAGER_PLATFORM E) (sco_connected_audio_manager E) ;;
      scb <- deref p_scb ;;
      hci_control_send_hf_event HCI_CONTROL_HF_EVENT_AUDIO_OPEN
        (rfcomm_handle scb) None ;;
      WICED_BT_TRACE
        "%s: SCO Audio connected, sco_index = %d [in context sco index=%d]" ;;
      modify (upd_ctxt (set_is_sco_connected true))
  | BTM_SCO_DISCONNECTED_EVT _ =>
      scb <- deref p_scb ;;
      hci_control_send_hf_event HCI_CONTROL_HF_EVENT_AUDIO_CLOSE
        (rfcomm_handle scb) None ;;
      WICED_BT_TRACE "%s: SCO disconnection change event handler" ;;
      sco_create_as_acceptor E ;;
      WICED_BT_TRACE "%s: status [%d] SCO INDEX [%d] " ;;
      modify (upd_ctxt (set_is_sco_connected false))
  | BTM_SCO_CONNECTION_REQUEST_EVT idx =>
      WICED_BT_TRACE "%s: SCO connection request event handler " ;;
      when (wiced_is_timer_in_use E) (emit wiced_stop_timer) ;;
      sel <- gets (fun w => profile_selected (connect (handsfree_app_states w))) ;;
      if sel =? WICED_BT_HFP_PROFILE E then
        params <- gets handsfree_esco_params ;;
        emit (wiced_bt_sco_accept_connection idx HCI_SUCCESS params)
      else
        when (WICED_ENABLE_BT_HSP_PROFILE E)
          (params <- gets headset_sco_params ;;
           emit (wiced_bt_sco_accept_connection idx HCI_SUCCESS params))
  | BTM_SCO_CONNECTION_CHANGE_EVT _ =>
      WICED_BT_TRACE "%s: SCO connection change event handler"
  | BTM_OTHER_EVT => ret tt
  end.

(** ** [hfp_timer_expiry_handler] *)

Definition hfp_timer_expiry_handler (E : hf_env) : M unit :=
  c <- gets handsfree_ctxt_data ;;
  when (negb (call_active c =? 0) && negb (is_sco_connected c))
    (emit (wiced_bt_sco_remove (sco_index c)) ;;
     sco_create_as_initiator E).

(** ** A sample environment and sample worlds

    Sample values for the header constants, one registered control block
    (handle 1, peer address 11:22:33:44:55:66) and a stack that hands out
    channel index [old + 1 mod 2^16]. *)

Definition sample_bd_addr : wiced_bt_device_address_t :=
  [0x11; 0x22; 0x33; 0x44; 0x55; 0x66].

Definition sample_scb : wiced_bt_hfp_hf_scb_t :=
  {| rfcomm_handle := 1; feature_mask := 0xBF |}.

Definition sample_at_code (sub : hci_control_hf_at_event) : Z :=
  match sub with
  | HCI_CONTROL_HF_AT_EVENT_OK => 0x00
  | HCI_CONTROL_HF_AT_EVENT_ERROR => 0x01
  | HCI_CONTROL_HF_AT_EVENT_CMEE => 0x02
  | HCI_CONTROL_HF_AT_EVENT_RING => 0x03
  | HCI_CONTROL_HF_AT_EVENT_VGS => 0x04
  | HCI_CONTROL_HF_AT_EVENT_VGM => 0x05
  | HCI_CONTROL_HF_AT_EVENT_CIEV => 0x08
  | HCI_CONTROL_HF_AT_EVENT_CLIP => 0x09
  | HCI_CONTROL_HF_AT_EVENT_BINP => 0x0e
  | HCI_CONTROL_HF_AT_EVENT_BCS => 0x12
  | HCI_CONTROL_HF_AT_EVENT_CLCC => 0x10
  | HCI_CONTROL_HF_AT_EVENT_CNUM => 0x0d
  | HCI_CONTROL_HF_AT_EVENT_BIND => 0x11
  end.

Definition sample_evt_code (evt : hci_control_hf_evt) : Z :=
  match evt with
  | HCI_CONTROL_HF_EVENT_OPEN => 0x0301
  | HCI_CONTROL_HF_EVENT_CLOSE => 0x0302
  | HCI_CONTROL_HF_EVENT_CONNECTED => 0x0303
  | HCI_CONTROL_HF_EVENT_AUDIO_OPEN => 0x0304
  | HCI_CONTROL_HF_EVENT_AUDIO_CLOSE => 0x0305
  | HCI_CONTROL_HF_EVENT_PROFILE_TYPE => 0x0307
  | HCI_CONTROL_HF_AT_EVENT sub => 0x0320 + sample_at_code sub
  end.

Definition bd_addr_eqb (a b : wiced_bt_device_address_t) : bool :=
  (List.length a =? List.length b)%nat
  && forallb (fun p => fst p =? snd p) (combine a b).

Definition sample_env : hf_env :=
  {| BT_AUDIO_INVALID_SCO_INDEX := 0xFFFF;
     SCO_CONNECTION_WAIT_TIMEOUT := 2000;
     HCI_CONTROL_HF_VALUE_STR_SIZE := 32;
     hf_evt_code := sample_evt_code;
     HCI_CONTROL_HF_AT_EVENT_BASE := 0x0320;
     HCI_CONTROL_HF_AT_EVENT_MAX := 0x14;
     WICED_BT_HFP_PROFILE := 1;
     WICED_BT_HSP_PROFILE := 2;
     WICED_BT_HFP_HF_CALLSETUP_STATE_IDLE := 0;
     WICED_BT_HFP_HF_CALLSETUP_STATE_INCOMING := 1;
     WICED_BT_HFP_HF_CALLSETUP_STATE_DIALING := 2;
     WICED_BT_HFP_HF_CALLSETUP_STATE_ALERTING := 3;
     WICED_BT_HFP_HF_SERVICE_IND := 1;
     WICED_BT_HFP_HF_CALL_IND := 2;
     WICED_BT_HFP_HF_CALL_SETUP_IND := 3;
     WICED_BT_HFP_HF_CALL_HELD_IND := 4;
     WICED_BT_HFP_HF_SIGNAL_IND := 5;
     WICED_BT_HFP_HF_ROAM_IND := 6;
     WICED_BT_HFP_HF_BATTERY_IND := 7;
     WICED_BT_HFP_AG_FEATURE_INBAND_RING_TONE_CAPABILITY := 0x08;
     WICED_BT_HFP_AG_FEATURE_CODEC_NEGOTIATION := 0x200;
     WICED_BT_HFP_HF_FEATURE_CODEC_NEGOTIATION := 0x80;
     WICED_BT_HFP_HF_INBAND_RING_ENABLED := 1;
     WICED_BT_HFP_HF_INBAND_RING_DISABLED := 0;
     WICED_BT_HFP_HF_MSBC_CODEC := 2;
     WICED_BT_HFP_HF_MIC := 1;
     AM_VOL_LEVEL_HIGH := 10;
     AM_PLAYBACK_SR_16K := 16000;
     AM_PLAYBACK_SR_8K := 8000;
     DEFAULT_BITSPSAM := 16;
     WICED_AUDIO_MANAGER_STREAM_ID_INVALID := -1;
     WICED_BT_HFP_HF_WBS_INCLUDED := true;
     WICED_ENABLE_BT_HSP_PROFILE := false;
     AUDIO_MANAGER_PLATFORM := false;
     wiced_bt_hfp_hf_get_scb_by_bd_addr :=
       fun a => if bd_addr_eqb a sample_bd_addr then Some sample_scb else None;
     wiced_bt_hfp_hf_get_scb_by_handle :=
       fun h => if h =? 1 then Some sample_scb else None;
     sco_index_as_acceptor := fun old => uint16 (old + 1);
     sco_index_as_initiator := fun _ old => uint16 (old + 1);
     wiced_is_timer_in_use := false;
     am_stream_open_id := 0;
     am_stream_set_param_ok := fun _ _ => true;
     am_stream_start_ok := fun _ => true;
     utl_itoa := fun _ => [48] |}.

Definition sample_sco_params : wiced_bt_sco_params_t :=
  {| max_latency := 0x000D; packet_types := 0; retrans_effort := 1;
     use_wbs := true |}.

(** The globals after start-up and [handsfree_init_context_data]. *)
Definition sample_world : world :=
  {| handsfree_ctxt_data :=
       {| connection_status := WICED_BT_HFP_HF_STATE_DISCONNECTED;
          peer_bd_addr := repeat 0 BD_ADDR_LEN;
          ctxt_rfcomm_handle := 0;
          call_active := 0; call_held := 0; call_setup := 0;
          spkr_volume := 8; mic_volume := 8;
          sco_index := 0xFFFF;
          init_sco_conn := false; is_sco_connected := false;
          inband_ring_status := 0 |};
     handsfree_app_states :=
       {| connect := zero_conn; pairing_allowed := false |};
     handsfree_esco_params := sample_sco_params;
     headset_sco_params := set_use_wbs false sample_sco_params;
     stream_id := -1;
     audio_config := {| sr := 16000; channels := 1; bits_per_sample := 16;
                        volume := 8; mic_gain := 8 |};
     calls := [];
     log := [] |}.

(** A link with an active call whose voice channel was requested as
    acceptor (index 3) but is not connected. *)
Definition sample_world_in_call : world :=
  upd_ctxt (fun c =>
    set_sco_index 3
      (set_call_indicators 1 0 0
         (set_rfcomm_handle 1 (set_peer_bd_addr sample_bd_addr c))))
    sample_world.

(** A notification that a call became active. *)
Definition sample_call_data : wiced_bt_hfp_hf_call_data_t :=
  {| active_call_present := 1; held_call_present := 0; setup_state := 0 |}.

(** ** Counting requests in a history *)

Definition is_acceptor_request (c : call) : bool :=
  match c with wiced_bt_sco_create_as_acceptor => true | _ => false end.

Definition is_stack_request (c : call) : bool :=
  match c with
  | wiced_bt_sco_create_as_acceptor
  | wiced_bt_sco_remove _
  | wiced_bt_sco_create_as_initiator _ _
  | wiced_bt_sco_accept_connection _ _ _ => true
  | _ => false
  end.

(** Outward events with the opcode of [evt]; the AT events count as one
    class. *)
Definition is_event (evt : hci_control_hf_evt) (c : call) : bool :=
  match c with
  | wiced_transport_send_data e _ =>
      match evt, e with
      | HCI_CONTROL_HF_EVENT_OPEN, HCI_CONTROL_HF_EVENT_OPEN
      | HCI_CONTROL_HF_EVENT_CLOSE, HCI_CONTROL_HF_EVENT_CLOSE
      | HCI_CONTROL_HF_EVENT_AUDIO_OPEN, HCI_CONTROL_HF_EVENT_AUDIO_OPEN
      | HCI_CONTROL_HF_EVENT_AUDIO_CLOSE, HCI_CONTROL_HF_EVENT_AUDIO_CLOSE
      | HCI_CONTROL_HF_EVENT_CONNECTED, HCI_CONTROL_HF_EVENT_CONNECTED
      | HCI_CONTROL_HF_EVENT_PROFILE_TYPE, HCI_CONTROL_HF_EVENT_PROFILE_TYPE
      | HCI_CONTROL_HF_AT_EVENT _, HCI_CONTROL_HF_AT_EVENT _ => true
      | _, _ => false
      end
  | _ => false
  end.

Definition count (p : call -> bool) (l : list call) : nat :=
  List.length (filter p l).

(** The two handle bytes in front of every outward event. *)
Definition handle_bytes (handle : Z) : list Z :=
  [uint8 (uint16 handle); uint8 (Z.shiftr (uint16 handle) 8)].

(** ** Dispatcher

    The three sources of notifications of the application, delivered one
    at a time and run to completion. *)

Inductive notification :=
| Profile (handle : Z) (event : wiced_bt_hfp_hf_event_t)
| Sco (event : wiced_bt_management_evt_t)
| TimerExpiry.

Definition dispatch (E : hf_env) (n : notification) : M unit :=
  match n with
  | Profile handle event => handsfree_event_callback E handle event
  | Sco event => hf_sco_management_callback E event
  | TimerExpiry => hfp_timer_expiry_handler E
  end.

Fixpoint dispatch_all (E : hf_env) (ns : list notification) : M unit :=
  match ns with
  | [] => ret tt
  | n :: ns' => dispatch E n ;; dispatch_all E ns'
  end.

(** The call lifecycle of one link: signaling connects and reaches the
    service level, a call comes in and is answered, the voice channel
    connects, the call ends, signaling disconnects. *)
Definition call_lifecycle : list notification :=
  [Profile 1 (WICED_BT_HFP_HF_CONNECTION_STATE_EVT
                WICED_BT_HFP_HF_STATE_CONNECTED sample_bd_addr 1);
   Profile 1 (WICED_BT_HFP_HF_CONNECTION_STATE_EVT
                WICED_BT_HFP_HF_STATE_SLC_CONNECTED sample_bd_addr 1);
   Profile 1 (WICED_BT_HFP_HF_CALL_SETUP_EVT
                {| active_call_present := 0; held_call_present := 0;
                   setup_state := 1 |});
   Profile 1 (WICED_BT_HFP_HF_CALL_SETUP_EVT
                {| active_call_present := 1; held_call_present := 0;
                   setup_state := 0 |});
   Sco (BTM_SCO_CONNECTED_EVT 0);
   Profile 1 (WICED_BT_HFP_HF_CALL_SETUP_EVT
                {| active_call_present := 0; held_call_present := 0;
                   setup_state := 0 |});
   Profile 1 (WICED_BT_HFP_HF_CONNECTION_STATE_EVT
                WICED_BT_HFP_HF_STATE_DISCONNECTED sample_bd_addr 1)].

(** ** The outward indicator-change event

    The text that [handsfree_send_ciev_cmd] leaves in [p_val->str] as the
    serialiser reads it, and the transport request it ends in ([num] is
    zero in [handsfree_event_callback]). *)

Definition AT_CIEV : hci_control_hf_evt :=
  HCI_CONTROL_HF_AT_EVENT HCI_CONTROL_HF_AT_EVENT_CIEV.

Definition ciev_text (ind_id ind_val : Z) : list Z :=
  c_str [uint8 (48 + uint8 ind_id); 44; uint8 (48 + uint8 ind_val)].

Definition ciev_event (scb : wiced_bt_hfp_hf_scb_t) (ind_id ind_val : Z) : call :=
  wiced_transport_send_data AT_CIEV
    (handle_bytes (rfcomm_handle scb) ++ [0; 0] ++ ciev_text ind_id ind_val ++ [0]).

Definition ciev_if (changed : bool) (scb : wiced_bt_hfp_hf_scb_t)
    (ind_id ind_val : Z) : list call :=
  if changed then [ciev_event scb ind_id ind_val] else [].

(** ** Readings of the specification that are compared with the code *)

(** The specification's wording for a disconnect: afterwards the link
    context holds its default values, that is, running
    [handsfree_init_context_data] on it changes nothing. *)
Definition spec_disconnect_resets_context (E : hf_env) (handle : Z)
    (addr : wiced_bt_device_address_t) (profile : Z) (w : world) : Prop :=
  forall w',
    exec (handsfree_event_callback E handle
            (WICED_BT_HFP_HF_CONNECTION_STATE_EVT
               WICED_BT_HFP_HF_STATE_DISCONNECTED addr profile)) w = Some w' ->
    exec (handsfree_init_context_data E) w' = Some w'.

(** The specification's wording for two consecutive signaling-connected
    notifications: the first adds one acceptor request, the second none. *)
Definition spec_second_connected_issues_no_request (E : hf_env) (handle : Z)
    (addr : wiced_bt_device_address_t) (profile : Z) (w : world) : Prop :=
  forall w1 w2,
    exec (handsfree_event_callback E handle
            (WICED_BT_HFP_HF_CONNECTION_STATE_EVT
               WICED_BT_HFP_HF_STATE_CONNECTED addr profile)) w = Some w1 ->
    exec (handsfree_event_callback E handle
            (WICED_BT_HFP_HF_CONNECTION_STATE_EVT
               WICED_BT_HFP_HF_STATE_CONNECTED addr profile)) w1 = Some w2 ->
    count is_acceptor_request (calls w1)
      = (count is_acceptor_request (calls w) + 1)%nat
    /\ count is_acceptor_request (calls w2) = count is_acceptor_request (calls w1).

(** The specification's wording for a stale second expiry of the
    race-guard timer: it performs no further stack request. *)
Definition spec_second_expiry_is_noop (E : hf_env) (w : world) : Prop :=
  forall w1 w2,
    exec (hfp_timer_expiry_handler E) w = Some w1 ->
    exec (hfp_timer_expiry_handler E) w1 = Some w2 ->
    filter is_stack_request (calls w2) = filter is_stack_request (calls w1).


(** ** Relations between the world before and after a run

    [sat m R]: every completed run of [m] relates the world it started in
    to the world it ends in by [R].  [grows P]: the run only appended
    requests to the history, each of them satisfying [P]. *)

Definition sat {A} (m : M A) (R : world -> world -> Prop) : Prop :=
  forall w a w', m w = Ok (a, w') -> R w w'.

Definition grows (P : call -> Prop) (w w' : world) : Prop :=
  exists l, calls w' = calls w ++ l /\ Forall P l.

(** Both relations at once. *)
Definition both (R1 R2 : world -> world -> Prop) (w w' : world) : Prop :=
  R1 w w' /\ R2 w w'.

(** The globals apart from the history and the trace log. *)
Definition same_globals (w w' : world) : Prop :=
  handsfree_ctxt_data w' = handsfree_ctxt_data w
  /\ handsfree_app_states w' = handsfree_app_states w
  /\ handsfree_esco_params w' = handsfree_esco_params w
  /\ headset_sco_params w' = headset_sco_params w
  /\ stream_id w' = stream_id w
  /\ audio_config w' = audio_config w.

Definition is_transport (c : call) : Prop :=
  match c with
  | wiced_transport_send_data _ _ => True
  | _ => False
  end.

(** ** Outward frames as the host reads them

    The wire format, read back: two handle bytes, little-endian; for an
    AT-response frame a little-endian 16-bit number and a NUL-terminated
    text; for a Link-opened frame the six address bytes in reverse order
    and a status byte. *)

Definition le16 (b0 b1 : Z) : Z := b0 + 256 * b1.

Definition host_decode_at_frame (data : list Z) : option (Z * Z * list Z) :=
  match data with
  | h0 :: h1 :: n0 :: n1 :: text =>
      match array_strlen text with
      | Some n => Some (le16 h0 h1, le16 n0 n1, firstn n text)
      | None => None
      end
  | _ => None
  end.

Definition host_decode_open_frame (data : list Z)
    : option (Z * wiced_bt_device_address_t * Z) :=
  match data with
  | [h0; h1; a5; a4; a3; a2; a1; a0; st] =>
      Some (le16 h0 h1, [a0; a1; a2; a3; a4; a5], st)
  | _ => None
  end.

(** The notifications of the profile library that are passed through to
    the host as AT responses or dropped. *)
Definition is_passthrough (event : wiced_bt_hfp_hf_event_t) : bool :=
  match event with
  | WICED_BT_HFP_HF_CONNECTION_STATE_EVT _ _ _
  | WICED_BT_HFP_HF_AG_FEATURE_SUPPORT_EVT _
  | WICED_BT_HFP_HF_CALL_SETUP_EVT _
  | WICED_BT_HFP_HF_INBAND_RING_STATE_EVT _
  | WICED_BT_HFP_HFP_CODEC_SET_EVT _ => false
  | _ => true
  end.

(** ** The call-list entry text

    The characters that [handsfree_send_clcc_evt] writes before the
    terminator, and the number of characters, terminator included, that
    it stores into [p_val->str]. *)

Definition clcc_text (E : hf_env) (ac : wiced_bt_hfp_hf_active_call_t) : list Z :=
  [uint8 (48 + ac_idx ac); 44; uint8 (48 + ac_dir ac); 44;
   uint8 (48 + ac_status ac); 44; uint8 (48 + ac_mode ac); 44;
   uint8 (48 + ac_is_conference ac)]
  ++ (if ac_type ac =? 0 then []
      else 44 :: c_str (ac_num ac) ++ 44 :: utl_itoa E (ac_type ac)).

Definition clcc_stored (E : hf_env) (ac : wiced_bt_hfp_hf_active_call_t) : nat :=
  List.length (clcc_text E ac) + 1.

(** A held incoming call from number 123; the same entry with a
    30-character number. *)
Definition sample_active_call : wiced_bt_hfp_hf_active_call_t :=
  {| ac_idx := 1; ac_dir := 1; ac_status := 1; ac_mode := 0;
     ac_is_conference := 0; ac_num := [49; 50; 51]; ac_type := 129 |}.

Definition sample_long_active_call : wiced_bt_hfp_hf_active_call_t :=
  {| ac_idx := 1; ac_dir := 1; ac_status := 1; ac_mode := 0;
     ac_is_conference := 0; ac_num := repeat 49 30; ac_type := 129 |}.

(** ** Requests of one kind *)

Definition is_timer_start (c : call) : Prop :=
  match c with
  | wiced_start_timer _ => True
  | _ => False
  end.

Definition is_accept (c : call) : Prop :=
  match c with
  | wiced_bt_sco_accept_connection _ _ _ => True
  | _ => False
  end.

(** Once [init_sco_conn] is false it stays false and the race-guard timer
    is not started. *)
Definition never_arms (w w' : world) : Prop :=
  init_sco_conn (handsfree_ctxt_data w) = false ->
  init_sco_conn (handsfree_ctxt_data w') = false
  /\ grows (fun c => ~ is_timer_start c) w w'.

(** The payload of a Service-level-connected frame as the host reads it:
    the handle and a little-endian 32-bit feature bitmap. *)
Definition host_decode_connected_frame (data : list Z) : option (Z * Z) :=
  match data with
  | [h0; h1; f0; f1; f2; f3] =>
      Some (le16 h0 h1, f0 + 256 * f1 + 65536 * f2 + 16777216 * f3)
  | _ => None
  end.

(** ** The audio path of a connected voice channel

    What the connected case of [hf_sco_management_callback] leaves in
    [stream_id] and [audio_config] and the requests it makes to the audio
    manager, on the platforms that have one. *)

Definition sco_connected_stream_id (E : hf_env) (w : world) : Z :=
  if stream_id w =? WICED_AUDIO_MANAGER_STREAM_ID_INVALID E
  then am_stream_open_id E else stream_id w.

Definition sco_connected_audio_config (E : hf_env) (w : world) : audio_config_t :=
  {| sr := if use_wbs (handsfree_esco_params w)
           then AM_PLAYBACK_SR_16K E else AM_PLAYBACK_SR_8K E;
     channels := channels (audio_config w);
     bits_per_sample := bits_per_sample (audio_config w);
     volume := handsfree_utils_hfp_volume_to_am_volume E (AM_VOL_LEVEL_HIGH E - 2);
     mic_gain := handsfree_utils_hfp_volume_to_am_volume E (AM_VOL_LEVEL_HIGH E - 2) |}.

Definition sco_connected_requests (E : hf_env) (w : world) : list call :=
  if AUDIO_MANAGER_PLATFORM E then
    (if stream_id w =? WICED_AUDIO_MANAGER_STREAM_ID_INVALID E
     then [wiced_am_stream_open] else [])
    ++ [wiced_am_stream_set_param (sco_connected_stream_id E w)
          (AM_AUDIO_CONFIG (sco_connected_audio_config E w));
        wiced_am_stream_start (sco_connected_stream_id E w);
        wiced_am_stream_set_param (sco_connected_stream_id E w)
          (AM_SPEAKER_VOL_LEVEL (volume (sco_connected_audio_config E w)));
        wiced_am_stream_set_param (sco_connected_stream_id E w)
          (AM_MIC_GAIN_LEVEL (mic_gain (sco_connected_audio_config E w)))]
  else [].

(** The sample environment on a platform with the audio manager, whose
    every request fails, and with the race-guard timer running. *)
Definition sample_env_am : hf_env :=
  {| BT_AUDIO_INVALID_SCO_INDEX := 0xFFFF;
     SCO_CONNECTION_WAIT_TIMEOUT := 2000;
     HCI_CONTROL_HF_VALUE_STR_SIZE := 32;
     hf_evt_code := sample_evt_code;
     HCI_CONTROL_HF_AT_EVENT_BASE := 0x0320;
     HCI_CONTROL_HF_AT_EVENT_MAX := 0x14;
     WICED_BT_HFP_PROFILE := 1;
     WICED_BT_HSP_PROFILE := 2;
     WICED_BT_HFP_HF_CALLSETUP_STATE_IDLE := 0;
     WICED_BT_HFP_HF_CALLSETUP_STATE_INCOMING := 1;
     WICED_BT_HFP_HF_CALLSETUP_STATE_DIALING := 2;
     WICED_BT_HFP_HF_CALLSETUP_STATE_ALERTING := 3;
     WICED_BT_HFP_HF_SERVICE_IND := 1;
     WICED_BT_HFP_HF_CALL_IND := 2;
     WICED_BT_HFP_HF_CALL_SETUP_IND := 3;
     WICED_BT_HFP_HF_CALL_HELD_IND := 4;
     WICED_BT_HFP_HF_SIGNAL_IND := 5;
     WICED_BT_HFP_HF_ROAM_IND := 6;
     WICED_BT_HFP_HF_BATTERY_IND := 7;
     WICED_BT_HFP_AG_FEATURE_INBAND_RING_TONE_CAPABILITY := 0x08;
     WICED_BT_HFP_AG_FEATURE_CODEC_NEGOTIATION := 0x200;
     WICED_BT_HFP_HF_FEATURE_CODEC_NEGOTIATION := 0x80;
     WICED_BT_HFP_HF_INBAND_RING_ENABLED := 1;
     WICED_BT_HFP_HF_INBAND_RING_DISABLED := 0;
     WICED_BT_HFP_HF_MSBC_CODEC := 2;
     WICED_BT_HFP_HF_MIC := 1;
     AM_VOL_LEVEL_HIGH := 10;
     AM_PLAYBACK_SR_16K := 16000;
     AM_PLAYBACK_SR_8K := 8000;
     DEFAULT_BITSPSAM := 16;
     WICED_AUDIO_MANAGER_STREAM_ID_INVALID := -1;
     WICED_BT_HFP_HF_WBS_INCLUDED := true;
     WICED_ENABLE_BT_HSP_PROFILE := true;
     AUDIO_MANAGER_PLATFORM := true;
     wiced_bt_hfp_hf_get_scb_by_bd_addr :=
       fun a => if bd_addr_eqb a sample_bd_addr then Some sample_scb else None;
     wiced_bt_hfp_hf_get_scb_by_handle :=
       fun h => if h =? 1 then Some sample_scb else None;
     sco_index_as_acceptor := fun old => uint16 (old + 1);
     sco_index_as_initiator := fun _ old => uint16 (old + 1);
     wiced_is_timer_in_use := true;
     am_stream_open_id := 4;
     am_stream_set_param_ok := fun _ _ => false;
     am_stream_start_ok := fun _ => false;
     utl_itoa := fun _ => [48] |}.

(** The sample environment in a build whose [p_val.val.str] holds 512
    characters. *)
Definition sample_env_wide : hf_env :=
  {| BT_AUDIO_INVALID_SCO_INDEX := 0xFFFF;
     SCO_CONNECTION_WAIT_TIMEOUT := 2000;
     HCI_CONTROL_HF_VALUE_STR_SIZE := 512;
     hf_evt_code := sample_evt_code;
     HCI_CONTROL_HF_AT_EVENT_BASE := 0x0320;
     HCI_CONTROL_HF_AT_EVENT_MAX := 0x14;
     WICED_BT_HFP_PROFILE := 1;
     WICED_BT_HSP_PROFILE := 2;
     WICED_BT_HFP_HF_CALLSETUP_STATE_IDLE := 0;
     WICED_BT_HFP_HF_CALLSETUP_STATE_INCOMING := 1;
     WICED_BT_HFP_HF_CALLSETUP_STATE_DIALING := 2;
     WICED_BT_HFP_HF_CALLSETUP_STATE_ALERTING := 3;
     WICED_BT_HFP_HF_SERVICE_IND := 1;
     WICED_BT_HFP_HF_CALL_IND := 2;
     WICED_BT_HFP_HF_CALL_SETUP_IND := 3;
     WICED_BT_HFP_HF_CALL_HELD_IND := 4;
     WICED_BT_HFP_HF_SIGNAL_IND := 5;
     WICED_BT_HFP_HF_ROAM_IND := 6;
     WICED_BT_HFP_HF_BATTERY_IND := 7;
     WICED_BT_HFP_AG_FEATURE_INBAND_RING_TONE_CAPABILITY := 0x08;
     WICED_BT_HFP_AG_FEATURE_CODEC_NEGOTIATION := 0x200;
     WICED_BT_HFP_HF_FEATURE_CODEC_NEGOTIATION := 0x80;
     WICED_BT_HFP_HF_INBAND_RING_ENABLED := 1;
     WICED_BT_HFP_HF_INBAND_RING_DISABLED := 0;
     WICED_BT_HFP_HF_MSBC_CODEC := 2;
     WICED_BT_HFP_HF_MIC := 1;
     AM_VOL_LEVEL_HIGH := 10;
     AM_PLAYBACK_SR_16K := 16000;
     AM_PLAYBACK_SR_8K := 8000;
     DEFAULT_BITSPSAM := 16;
     WICED_AUDIO_MANAGER_STREAM_ID_INVALID := -1;
     WICED_BT_HFP_HF_WBS_INCLUDED := true;
     WICED_ENABLE_BT_HSP_PROFILE := false;
     AUDIO_MANAGER_PLATFORM := false;
     wiced_bt_hfp_hf_get_scb_by_bd_addr :=
       fun a => if bd_addr_eqb a sample_bd_addr then Some sample_scb else None;
     wiced_bt_hfp_hf_get_scb_by_handle :=
       fun h => if h =? 1 then Some sample_scb else None;
     sco_index_as_acceptor := fun old => uint16 (old + 1);
     sco_index_as_initiator := fun _ old => uint16 (old + 1);
     wiced_is_timer_in_use := false;
     am_stream_open_id := 0;
     am_stream_set_param_ok := fun _ _ => true;
     am_stream_start_ok := fun _ => true;
     utl_itoa := fun _ => [48] |}.

(** * Start-up and the management callback

    [handsfree_management_callback] and the functions it reaches
    ([handsfree_post_bt_init], [handsfree_write_eir], [handsfree_hfp_init])
    and the two NVRAM helpers.  They share the globals of the handlers
    above and make further requests to the stack, so the state of this
    layer is a [world] together with one history of all requests, in the
    order they are made. *)

(** ** Types of the stack *)

(** [wiced_bt_hfp_hf_config_data_t]; [config_scn] and [config_uuid] list
    the entries of the arrays that [handsfree_hfp_init] assigns. *)
Record wiced_bt_hfp_hf_config_data_t := {
  config_feature_mask : Z;
  config_speaker_volume : Z;
  config_mic_volume : Z;
  config_num_server : Z;
  config_scn : list Z;
  config_uuid : list Z
}.

Record wiced_bt_device_link_keys_t := {
  link_keys_bd_addr : wiced_bt_device_address_t;
  br_edr_key : list Z
}.

(** Requests of this layer; [hf_request] is a request of the handlers
    above. *)
Inductive sys_call :=
| hf_request (c : call)
| wiced_bt_set_pairable_mode (allow_pairing connect_only_paired : Z)
| wiced_init_timer
| wiced_bt_get_buffer (size : Z)
| wiced_bt_dev_write_eir (buf : list Z) (len : Z)
| wiced_bt_sdp_db_init (size : Z)
| wiced_bt_rfcomm_init (buffer_size buffer_cnt : Z)
| wiced_bt_hfp_hf_init (config : wiced_bt_hfp_hf_config_data_t)
| wiced_bt_create_pool (name : option string) (buffer_size buffer_cnt : Z)
| wiced_bt_dev_register_hci_trace
| hci_control_send_device_started_evt
| wiced_bt_sco_setup_voice_path
| wiced_am_init
| wiced_am_stream_stop (id : Z)
| wiced_am_stream_close (id : Z)
| wiced_bt_ble_security_grant (bda : wiced_bt_device_address_t) (res : Z)
| hci_control_send_pairing_completed_evt
    (pairing_result : Z) (bda : wiced_bt_device_address_t)
| hci_control_alloc_nvram_id
| hci_control_write_nvram
    (nvram_id data_len : Z) (keys : wiced_bt_device_link_keys_t)
    (from_host : bool)
| hci_control_read_nvram (nvram_id data_len : Z)
| wiced_bt_dev_confirm_req_reply (res : Z) (bda : wiced_bt_device_address_t)
| wiced_hal_write_nvram (nvram_id data_len : Z) (data : list Z)
| wiced_hal_read_nvram (nvram_id data_len : Z).

(** Events of the stack with the member of the event data that belongs to
    them; [BTM_SCO] wraps the four voice-channel events. *)
Inductive wiced_bt_management_event :=
| BTM_ENABLED_EVT (enabled_status : Z)
| BTM_DISABLED_EVT
| BTM_SCO (event : wiced_bt_management_evt_t)
| BTM_SECURITY_REQUEST_EVT (bda : wiced_bt_device_address_t)
| BTM_PAIRING_COMPLETE_EVT
    (transport br_edr_status ble_reason : Z) (bda : wiced_bt_device_address_t)
| BTM_LOCAL_IDENTITY_KEYS_UPDATE_EVT
| BTM_LOCAL_IDENTITY_KEYS_REQUEST_EVT
| BTM_PAIRED_DEVICE_LINK_KEYS_UPDATE_EVT (keys : wiced_bt_device_link_keys_t)
| BTM_PAIRED_DEVICE_LINK_KEYS_REQUEST_EVT (bda : wiced_bt_device_address_t)
| BTM_PAIRING_IO_CAPABILITIES_BLE_REQUEST_EVT (bda : wiced_bt_device_address_t)
| BTM_PAIRING_IO_CAPABILITIES_BR_EDR_REQUEST_EVT
    (bda : wiced_bt_device_address_t)
| BTM_USER_CONFIRMATION_REQUEST_EVT (bda : wiced_bt_device_address_t)
| BTM_ENCRYPTION_STATUS_EVT
| BTM_UNLISTED_EVT.

(** What the callback writes back into [*p_event_data]. *)
Inductive event_data_out :=
| event_data_unchanged
| link_keys_from_nvram (nvram_id : Z)
| ble_io_capabilities
    (local_io_cap oob_data auth_req max_key_size init_keys resp_keys : Z)
| br_edr_io_capabilities (local_io_cap auth_req oob_data : Z).

(** ** Environment of this layer *)

Record sys_env := {
  hf_side : hf_env;
  (* handsfree.h, wiced_app_cfg.h *)
  WICED_HS_EIR_BUF_MAX_SIZE : Z;
  HANDS_FREE_DEVICE_NAME : list Z;
  BT_AUDIO_HFP_SUPPORTED_FEATURES : Z;
  HANDS_FREE_SCN : Z;
  HEADSET_SCN : Z;
  KEY_INFO_POOL_BUFFER_SIZE : Z;
  KEY_INFO_POOL_BUFFER_COUNT : Z;
  sizeof_handsfree_sdp_db : Z;
  (* headers of the stack *)
  UUID_SERVCLASS_HEADSET : Z;
  UUID_SERVCLASS_HF_HANDSFREE : Z;
  UUID_SERVCLASS_GENERIC_AUDIO : Z;
  WICED_BT_ERROR : Z;
  WICED_BT_RFCOMM_SUCCESS : Z;
  BT_TRANSPORT_BR_EDR : Z;
  sizeof_wiced_bt_device_link_keys_t : Z;
  BTM_IO_CAPABILITIES_NONE : Z;
  BTM_OOB_NONE : Z;
  BTM_LE_AUTH_REQ_SC_MITM_BOND : Z;
  BTM_LE_KEY_PENC : Z;
  BTM_LE_KEY_PID : Z;
  BTM_LE_KEY_PCSRK : Z;
  BTM_LE_KEY_LENC : Z;
  BTM_AUTH_SINGLE_PROFILE_GENERAL_BONDING_NO : Z;
  (* build flags *)
  CYW20706A2 : bool;
  CYW43012C0 : bool;
  BTSTACK_VER_3 : bool;
  (* answers of the collaborators *)
  wiced_bt_get_buffer_ok : bool;
  wiced_bt_rfcomm_init_result : Z;
  wiced_bt_sco_setup_voice_path_result : Z;
  am_stream_stop_ok : Z -> bool;
  am_stream_close_ok : Z -> bool;
  hci_control_find_nvram_id : wiced_bt_device_address_t -> Z;
  hci_control_alloc_nvram_id_result : Z;
  wiced_hal_write_nvram_result : Z -> Z -> list Z -> Z;
  wiced_hal_read_nvram_result : Z -> Z -> Z
}.

(** ** State and monad of this layer *)

Inductive sys_fault :=
| HF_FAULT (f : fault)
| EIR_BUF_OUT_OF_BOUNDS.

Inductive sys_result (A : Type) :=
| Done (a : A)
| Crash (f : sys_fault).
Arguments Done {A} a.
Arguments Crash {A} f.

Record system := {
  globals : world;
  requests : list sys_call
}.

Definition SM (A : Type) : Type := system -> sys_result (A * system).

Definition sys_ret {A} (a : A) : SM A := fun s => Done (a, s).
Definition sys_crash {A} (f : sys_fault) : SM A := fun _ => Crash f.
Definition sys_bind {A B} (m : SM A) (k : A -> SM B) : SM B :=
  fun s => match m s with
           | Done (a, s') => k a s'
           | Crash f => Crash f
           end.

Declare Scope sys_scope.
Delimit Scope sys_scope with sys.
Notation "x <- m ;; k" := (sys_bind m (fun x => k))
  (at level 61, m at next level, right associativity) : sys_scope.
Notation "m ;; k" := (sys_bind m (fun _ => k))
  (at level 61, right associativity) : sys_scope.

Definition request (c : sys_call) : SM unit :=
  fun s => Done (tt, {| globals := globals s; requests := requests s ++ [c] |}).

Definition sys_when (b : bool) (m : SM unit) : SM unit :=
  if b then m else sys_ret tt.

(** A computation of the handlers above, run on the globals; the requests
    it has appended to the history of the world are appended, in the same
    order, to the history of this layer. *)
Definition lift {A} (m : M A) : SM A :=
  fun s => match m (globals s) with
           | Ok (a, w') =>
               Done (a, {| globals := w';
                           requests := requests s ++
                             map hf_request
                               (skipn (List.length (calls (globals s)))
                                  (calls w')) |})
           | Fault f => Crash (HF_FAULT f)
           end.

Definition sys_trace (s : string) : SM unit := lift (WICED_BT_TRACE s).

Definition set_pairing_allowed (v : bool)
    (a : handsfrees_app_globals) : handsfrees_app_globals :=
  {| connect := connect a; pairing_allowed := v |}.

(** ** [handsfree_write_eir]

    [length] is a [uint8_t], so the name is cut to [strlen mod 256]
    characters.  The pointer [p] only advances, so a store leaves the
    buffer exactly when the bytes written are more than the buffer
    holds. *)

Definition eir_data (S : sys_env) : list Z :=
  let device_name := c_str (HANDS_FREE_DEVICE_NAME S) in
  let length := uint8 (Z.of_nat (List.length device_name)) in
  [uint8 (length + 1); 0x09]
    ++ firstn (Z.to_nat length) device_name
    ++ [uint8 (1 * 2 + 1); 0x02]
    ++ (if WICED_ENABLE_BT_HSP_PROFILE (hf_side S)
        then [uint8 (Z.land (UUID_SERVCLASS_HEADSET S) 0xff);
              uint8 (Z.land (Z.shiftr (UUID_SERVCLASS_HEADSET S) 8) 0xff)]
        else [])
    ++ [uint8 (Z.land (UUID_SERVCLASS_HF_HANDSFREE S) 0xff);
        uint8 (Z.land (Z.shiftr (UUID_SERVCLASS_HF_HANDSFREE S) 8) 0xff);
        uint8 (Z.land (UUID_SERVCLASS_GENERIC_AUDIO S) 0xff);
        uint8 (Z.land (Z.shiftr (UUID_SERVCLASS_GENERIC_AUDIO S) 8) 0xff);
        0].

Definition handsfree_write_eir (S : sys_env) : SM unit :=
  (request (wiced_bt_get_buffer (WICED_HS_EIR_BUF_MAX_SIZE S)) ;;
   sys_trace "hci_control_write_eir %x" ;;
   if negb (wiced_bt_get_buffer_ok S) then sys_ret tt
   else
     let data := eir_data S in
     if Z.of_nat (List.length data) <=? WICED_HS_EIR_BUF_MAX_SIZE S
     then
       sys_trace "EIR :" ;;
       request (wiced_bt_dev_write_eir data (uint16 (Z.of_nat (List.length data))))
     else sys_crash EIR_BUF_OUT_OF_BOUNDS)%sys.

(** ** [wiced_app_cfg_sdp_record_get_size] ([handsfree_bt_cfg.c]) *)

Definition wiced_app_cfg_sdp_record_get_size (S : sys_env) : Z :=
  uint16 (sizeof_handsfree_sdp_db S).

(** ** [handsfree_hfp_init] *)

Definition hfp_hf_config (S : sys_env) (c : bluetooth_hfp_context_t)
    : wiced_bt_hfp_hf_config_data_t :=
  {| config_feature_mask := BT_AUDIO_HFP_SUPPORTED_FEATURES S;
     config_speaker_volume := spkr_volume c;
     config_mic_volume := mic_volume c;
     config_num_server :=
       if WICED_ENABLE_BT_HSP_PROFILE (hf_side S) then 2 else 1;
     config_scn :=
       HANDS_FREE_SCN S ::
         (if WICED_ENABLE_BT_HSP_PROFILE (hf_side S)
          then [HEADSET_SCN S] else []);
     config_uuid :=
       UUID_SERVCLASS_HF_HANDSFREE S ::
         (if WICED_ENABLE_BT_HSP_PROFILE (hf_side S)
          then [UUID_SERVCLASS_HEADSET S] else []) |}.

Definition handsfree_hfp_init (S : sys_env) : SM unit :=
  (lift (handsfree_init_context_data (hf_side S)) ;;
   request (wiced_bt_rfcomm_init 700 4) ;;
   if negb (wiced_bt_rfcomm_init_result S =? WICED_BT_RFCOMM_SUCCESS S)
   then sys_trace "Error Initializing RFCOMM - HFP failed"
   else
     c <- lift (gets handsfree_ctxt_data) ;;
     request (wiced_bt_hfp_hf_init (hfp_hf_config S c)) ;;
     sys_trace "[%s] SCO Setting up voice path = %d")%sys.

(** ** [handsfree_post_bt_init] *)

Definition handsfree_post_bt_init (S : sys_env) (enabled_status : Z) : SM unit :=
  (if enabled_status =? WICED_BT_SUCCESS then
     sys_trace "Bluetooth stack initialized" ;;
     lift (modify (upd_app (set_pairing_allowed false))) ;;
     request wiced_init_timer ;;
     handsfree_write_eir S ;;
     request (wiced_bt_sdp_db_init (wiced_app_cfg_sdp_record_get_size S)) ;;
     handsfree_hfp_init S
   else sys_trace "Bluetooth stack initialization failure!!")%sys.

(** ** [handsfree_write_nvram] and [handsfree_read_nvram]

    [data_len] is an [int] and [sizeof] a [size_t], the 32-bit unsigned
    type of the target, so the comparison is made at that type. *)

Definition handsfree_write_nvram (S : sys_env) (nvram_id data_len : Z)
    (p_data : list Z) : SM Z :=
  (request (wiced_hal_write_nvram nvram_id data_len p_data) ;;
   sys_trace "NVRAM ID:%d written :%d bytes result:%d" ;;
   sys_ret (wiced_hal_write_nvram_result S nvram_id data_len p_data))%sys.

Definition handsfree_read_nvram (S : sys_env) (nvram_id data_len : Z) : SM Z :=
  (if sizeof_wiced_bt_device_link_keys_t S <=? uint32 data_len then
     request (wiced_hal_read_nvram nvram_id
                (sizeof_wiced_bt_device_link_keys_t S)) ;;
     sys_trace "NVRAM ID:%d read out of %d bytes:%d result:%d" ;;
     sys_ret (uint16 (wiced_hal_read_nvram_result S nvram_id
                        (sizeof_wiced_bt_device_link_keys_t S)))
   else sys_ret 0)%sys.

(** ** [handsfree_management_callback] *)

(** The audio-manager block of the enabled case; its value is the new
    [result]. *)
Definition enabled_audio_manager (S : sys_env) : SM Z :=
  (request wiced_bt_sco_setup_voice_path ;;
   request wiced_am_init ;;
   sys_when (negb (CYW43012C0 S))
     (lift (emit wiced_am_stream_open) ;;
      lift (modify (set_stream_id (am_stream_open_id (hf_side S)))) ;;
      id <- lift (gets stream_id) ;;
      if id =? WICED_AUDIO_MANAGER_STREAM_ID_INVALID (hf_side S)
      then sys_trace "wiced_am_stream_open failed"
      else
        request (wiced_am_stream_close id) ;;
        (if negb (am_stream_close_ok S id)
         then sys_trace "Err: wiced_am_stream_close"
         else sys_trace "Init external codec done") ;;
        lift (modify (set_stream_id
                        (WICED_AUDIO_MANAGER_STREAM_ID_INVALID (hf_side S))))) ;;
   sys_ret (wiced_bt_sco_setup_voice_path_result S))%sys.

(** The audio-manager block of the voice-channel disconnected case. *)
Definition sco_disconnected_audio_manager (S : sys_env) : SM unit :=
  (id <- lift (gets stream_id) ;;
   sys_when (negb (id =? WICED_AUDIO_MANAGER_STREAM_ID_INVALID (hf_side S)))
     (request (wiced_am_stream_stop id) ;;
      sys_when (negb (am_stream_stop_ok S id))
        (sys_trace "wiced_am_stream_stop failed stream_id : %d ") ;;
      request (wiced_am_stream_close id) ;;
      sys_when (negb (am_stream_close_ok S id))
        (sys_trace "wiced_am_stream_close failed stream_id : %d ") ;;
      lift (modify (set_stream_id
                      (WICED_AUDIO_MANAGER_STREAM_ID_INVALID (hf_side S))))))%sys.

Definition handsfree_management_callback (S : sys_env)
    (event : wiced_bt_management_event) : SM (Z * event_data_out) :=
  (sys_trace "Bluetooth management callback event: 0x%02x, free mem %d" ;;
   match event with
   | BTM_ENABLED_EVT enabled_status =>
       request (wiced_bt_set_pairable_mode 0 0) ;;
       handsfree_post_bt_init S enabled_status ;;
       request (wiced_bt_create_pool
                  (if BTSTACK_VER_3 S then Some "key_info"%string else None)
                  (KEY_INFO_POOL_BUFFER_SIZE S) (KEY_INFO_POOL_BUFFER_COUNT S)) ;;
       sys_trace "wiced_bt_create_pool %x" ;;
       request wiced_bt_dev_register_hci_trace ;;
       sys_when (CYW20706A2 S) (request hci_control_send_device_started_evt) ;;
       result <- (if AUDIO_MANAGER_PLATFORM (hf_side S)
                  then enabled_audio_manager S
                  else sys_ret WICED_BT_SUCCESS) ;;
       sys_ret (result, event_data_unchanged)
   | BTM_DISABLED_EVT => sys_ret (WICED_BT_SUCCESS, event_data_unchanged)
   | BTM_SCO (BTM_SCO_CONNECTED_EVT idx) =>
       lift (hf_sco_management_callback (hf_side S) (BTM_SCO_CONNECTED_EVT idx)) ;;
       sys_ret (WICED_BT_SUCCESS, event_data_unchanged)
   | BTM_SCO (BTM_SCO_CONNECTION_REQUEST_EVT idx) =>
       lift (hf_sco_management_callback (hf_side S)
               (BTM_SCO_CONNECTION_REQUEST_EVT idx)) ;;
       sys_ret (WICED_BT_SUCCESS, event_data_unchanged)
   | BTM_SCO (BTM_SCO_CONNECTION_CHANGE_EVT idx) =>
       lift (hf_sco_management_callback (hf_side S)
               (BTM_SCO_CONNECTION_CHANGE_EVT idx)) ;;
       sys_ret (WICED_BT_SUCCESS, event_data_unchanged)
   | BTM_SCO (BTM_SCO_DISCONNECTED_EVT idx) =>
       sys_when (AUDIO_MANAGER_PLATFORM (hf_side S))
         (sco_disconnected_audio_manager S) ;;
       lift (hf_sco_management_callback (hf_side S)
               (BTM_SCO_DISCONNECTED_EVT idx)) ;;
       sys_ret (WICED_BT_SUCCESS, event_data_unchanged)
   | BTM_SCO BTM_OTHER_EVT => sys_ret (WICED_BT_SUCCESS, event_data_unchanged)
   | BTM_SECURITY_REQUEST_EVT bda =>
       allowed <- lift (gets (fun w => pairing_allowed (handsfree_app_states w))) ;;
       if allowed then
         request (wiced_bt_ble_security_grant bda WICED_BT_SUCCESS) ;;
         sys_ret (WICED_BT_SUCCESS, event_data_unchanged)
       else sys_ret (WICED_BT_ERROR S, event_data_unchanged)
   | BTM_PAIRING_COMPLETE_EVT transport br_edr_status ble_reason bda =>
       let pairing_result :=
         if transport =? BT_TRANSPORT_BR_EDR S
         then uint8 br_edr_status else uint8 ble_reason in
       request (hci_control_send_pairing_completed_evt pairing_result bda) ;;
       sys_ret (WICED_BT_SUCCESS, event_data_unchanged)
   | BTM_LOCAL_IDENTITY_KEYS_UPDATE_EVT =>
       sys_ret (WICED_BT_SUCCESS, event_data_unchanged)
   | BTM_LOCAL_IDENTITY_KEYS_REQUEST_EVT =>
       sys_ret (WICED_BT_SUCCESS, event_data_unchanged)
   | BTM_PAIRED_DEVICE_LINK_KEYS_UPDATE_EVT keys =>
       nvram_id <-
         (if hci_control_find_nvram_id S (link_keys_bd_addr keys) =? 0 then
            request hci_control_alloc_nvram_id ;;
            sys_trace "Allocated NVRAM ID:%d" ;;
            sys_ret (hci_control_alloc_nvram_id_result S)
          else sys_ret (hci_control_find_nvram_id S (link_keys_bd_addr keys))) ;;
       request (hci_control_write_nvram nvram_id
                  (sizeof_wiced_bt_device_link_keys_t S) keys false) ;;
       sys_trace "NVRAM write:id:%d bytes:%d dev: [%B]" ;;
       sys_trace " LinkKey:%02X ..." ;;
       sys_ret (WICED_BT_SUCCESS, event_data_unchanged)
   | BTM_PAIRED_DEVICE_LINK_KEYS_REQUEST_EVT bda =>
       sys_trace "find device %B" ;;
       if negb (hci_control_find_nvram_id S bda =? 0) then
         request (hci_control_read_nvram (hci_control_find_nvram_id S bda)
                    (sizeof_wiced_bt_device_link_keys_t S)) ;;
         sys_trace "Read:nvram_id:%d bytes:%d" ;;
         sys_ret (WICED_BT_SUCCESS,
                  link_keys_from_nvram (hci_control_find_nvram_id S bda))
       else
         sys_trace "Key retrieval failure" ;;
         sys_ret (WICED_BT_ERROR S, event_data_unchanged)
   | BTM_PAIRING_IO_CAPABILITIES_BLE_REQUEST_EVT bda =>
       sys_trace "BTM_PAIRING_IO_CAPABILITIES_BLE_REQUEST_EVT bda %B" ;;
       let keys := Z.lor (Z.lor (Z.lor (BTM_LE_KEY_PENC S) (BTM_LE_KEY_PID S))
                            (BTM_LE_KEY_PCSRK S)) (BTM_LE_KEY_LENC S) in
       sys_ret (WICED_BT_SUCCESS,
                ble_io_capabilities (BTM_IO_CAPABILITIES_NONE S) (BTM_OOB_NONE S)
                  (BTM_LE_AUTH_REQ_SC_MITM_BOND S) 16 keys keys)
   | BTM_PAIRING_IO_CAPABILITIES_BR_EDR_REQUEST_EVT bda =>
       sys_trace "BTM_PAIRING_IO_CAPABILITIES_BR_EDR_REQUEST_EVT bda %B" ;;
       sys_ret (WICED_BT_SUCCESS,
                br_edr_io_capabilities (BTM_IO_CAPABILITIES_NONE S)
                  (BTM_AUTH_SINGLE_PROFILE_GENERAL_BONDING_NO S) 0)
   | BTM_USER_CONFIRMATION_REQUEST_EVT bda =>
       request (wiced_bt_dev_confirm_req_reply WICED_BT_SUCCESS bda) ;;
       sys_ret (WICED_BT_SUCCESS, event_data_unchanged)
   | BTM_ENCRYPTION_STATUS_EVT =>
       sys_trace "Encryption Status:(%B) res:%d" ;;
       sys_ret (WICED_BT_SUCCESS, event_data_unchanged)
   | BTM_UNLISTED_EVT => sys_ret (WICED_BT_SUCCESS, event_data_unchanged)
   end)%sys.

(** ** The extended inquiry response as a receiver reads it

    A receiver walks the fields: a length octet that counts the type octet
    and the data, then the type, then the data.  A zero length octet, or a
    field that runs past the end of the bytes, ends the walk. *)

Fixpoint eir_fields (fuel : nat) (buf : list Z) : list (Z * list Z) :=
  match fuel with
  | O => []
  | Datatypes.S fuel' =>
      match buf with
      | len :: type :: rest =>
          if len =? 0 then []
          else if (Z.to_nat len - 1 <=? List.length rest)%nat
          then (type, firstn (Z.to_nat len - 1) rest)
                 :: eir_fields fuel' (skipn (Z.to_nat len - 1) rest)
          else []
      | _ => []
      end
  end.

Definition host_decode_eir (buf : list Z) : list (Z * list Z) :=
  eir_fields (List.length buf) buf.

(** The 16-bit service UUID that [handsfree_write_eir] writes first. *)
Definition first_service_uuid (S : sys_env) : Z :=
  if WICED_ENABLE_BT_HSP_PROFILE (hf_side S)
  then UUID_SERVCLASS_HEADSET S else UUID_SERVCLASS_HF_HANDSFREE S.

(** ** The enabled case after [handsfree_post_bt_init] *)

Definition enabled_stream_id (S : sys_env) (w : world) : Z :=
  if AUDIO_MANAGER_PLATFORM (hf_side S) && negb (CYW43012C0 S)
  then WICED_AUDIO_MANAGER_STREAM_ID_INVALID (hf_side S)
  else stream_id w.

Definition enabled_result (S : sys_env) : Z :=
  if AUDIO_MANAGER_PLATFORM (hf_side S)
  then wiced_bt_sco_setup_voice_path_result S else WICED_BT_SUCCESS.

Definition stream_probe_requests (S : sys_env) : list sys_call :=
  if AUDIO_MANAGER_PLATFORM (hf_side S) then
    [wiced_bt_sco_setup_voice_path; wiced_am_init]
      ++ (if CYW43012C0 S then []
          else hf_request wiced_am_stream_open
                 :: (if am_stream_open_id (hf_side S)
                        =? WICED_AUDIO_MANAGER_STREAM_ID_INVALID (hf_side S)
                     then []
                     else [wiced_am_stream_close (am_stream_open_id (hf_side S))]))
  else [].

Definition enabled_tail_requests (S : sys_env) : list sys_call :=
  [wiced_bt_create_pool
     (if BTSTACK_VER_3 S then Some "key_info"%string else None)
     (KEY_INFO_POOL_BUFFER_SIZE S) (KEY_INFO_POOL_BUFFER_COUNT S);
   wiced_bt_dev_register_hci_trace]
    ++ (if CYW20706A2 S then [hci_control_send_device_started_evt] else [])
    ++ stream_probe_requests S.

(** ** A sample environment and a sample state of this layer *)

Definition sample_sys_env_on (E : hf_env) (eir_buf_size : Z) : sys_env :=
  {| hf_side := E;
     WICED_HS_EIR_BUF_MAX_SIZE := eir_buf_size;
     HANDS_FREE_DEVICE_NAME := [104; 97; 110; 100; 115; 102; 114; 101; 101; 0];
     BT_AUDIO_HFP_SUPPORTED_FEATURES := 0xBF;
     HANDS_FREE_SCN := 1;
     HEADSET_SCN := 2;
     KEY_INFO_POOL_BUFFER_SIZE := 145;
     KEY_INFO_POOL_BUFFER_COUNT := 10;
     sizeof_handsfree_sdp_db := 163;
     UUID_SERVCLASS_HEADSET := 0x1108;
     UUID_SERVCLASS_HF_HANDSFREE := 0x111E;
     UUID_SERVCLASS_GENERIC_AUDIO := 0x1203;
     WICED_BT_ERROR := 8000;
     WICED_BT_RFCOMM_SUCCESS := 0;
     BT_TRANSPORT_BR_EDR := 1;
     sizeof_wiced_bt_device_link_keys_t := 138;
     BTM_IO_CAPABILITIES_NONE := 3;
     BTM_OOB_NONE := 0;
     BTM_LE_AUTH_REQ_SC_MITM_BOND := 0x0D;
     BTM_LE_KEY_PENC := 1;
     BTM_LE_KEY_PID := 2;
     BTM_LE_KEY_PCSRK := 4;
     BTM_LE_KEY_LENC := 8;
     BTM_AUTH_SINGLE_PROFILE_GENERAL_BONDING_NO := 2;
     CYW20706A2 := false;
     CYW43012C0 := false;
     BTSTACK_VER_3 := false;
     wiced_bt_get_buffer_ok := true;
     wiced_bt_rfcomm_init_result := 0;
     wiced_bt_sco_setup_voice_path_result := 0;
     am_stream_stop_ok := fun _ => true;
     am_stream_close_ok := fun _ => true;
     hci_control_find_nvram_id :=
       fun a => if bd_addr_eqb a sample_bd_addr then 0x10 else 0;
     hci_control_alloc_nvram_id_result := 0x11;
     wiced_hal_write_nvram_result := fun _ len _ => len;
     wiced_hal_read_nvram_result := fun _ len => len |}.

Definition sample_sys_env : sys_env := sample_sys_env_on sample_env_am 264.

(** The state at program start: the context is zero-initialised, pairing
    happens to be allowed, no stream is open. *)
Definition sample_system : system :=
  {| globals := upd_app (set_pairing_allowed true) sample_world;
     requests := [] |}.

(** A state with an open stream and a link in a call. *)
Definition sample_system_in_call : system :=
  {| globals := set_stream_id 4 sample_world_in_call;
     requests := [] |}.

(** ** Events of the stack that concern pairing and keys only *)

Definition is_pairing_event (event : wiced_bt_management_event) : bool :=
  match event with
  | BTM_ENABLED_EVT _ | BTM_SCO _ => false
  | _ => true
  end.

Definition is_hf_request (c : sys_call) : Prop :=
  match c with
  | hf_request _ => True
  | _ => False
  end.

(** * Properties *)

Ltac run_monad :=
  cbv [bind ret gets modify when emit WICED_BT_TRACE fail deref exec].

(** ** Runs on the sample environment *)

Example call_lifecycle_history :
  option_map calls (exec (dispatch_all sample_env call_lifecycle) sample_world)
  = Some
      [wiced_transport_send_data HCI_CONTROL_HF_EVENT_OPEN
         [1; 0; 0x66; 0x55; 0x44; 0x33; 0x22; 0x11; 0];
       wiced_transport_send_data HCI_CONTROL_HF_EVENT_PROFILE_TYPE [1; 0; 1];
       wiced_bt_sco_create_as_acceptor;
       wiced_transport_send_data AT_CIEV [1; 0; 0; 0; 51; 44; 49; 0];
       wiced_transport_send_data AT_CIEV [1; 0; 0; 0; 50; 44; 49; 0];
       wiced_transport_send_data AT_CIEV [1; 0; 0; 0; 51; 44; 48; 0];
       wiced_transport_send_data HCI_CONTROL_HF_EVENT_AUDIO_OPEN [1; 0];
       wiced_transport_send_data AT_CIEV [1; 0; 0; 0; 50; 44; 48; 0];
       wiced_bt_sco_remove 0;
       wiced_transport_send_data HCI_CONTROL_HF_EVENT_CLOSE [1; 0]].
Proof. reflexivity. Qed.

Example clip_passthrough :
  option_map calls
    (exec (handsfree_event_callback sample_env 1
             (WICED_BT_HFP_HF_CLIP_IND_EVT 129 [49; 50; 51])) sample_world)
  = Some
      [wiced_transport_send_data
         (HCI_CONTROL_HF_AT_EVENT HCI_CONTROL_HF_AT_EVENT_CLIP)
         [1; 0; 129; 0; 49; 50; 51; 0]].
Proof. reflexivity. Qed.

Example call_list_entry :
  option_map calls
    (exec (handsfree_event_callback sample_env 1
             (WICED_BT_HFP_HFP_ACTIVE_CALL_EVT
                {| ac_idx := 1; ac_dir := 0; ac_status := 0; ac_mode := 0;
                   ac_is_conference := 0; ac_num := []; ac_type := 0 |}))
          sample_world)
  = Some
      [wiced_transport_send_data
         (HCI_CONTROL_HF_AT_EVENT HCI_CONTROL_HF_AT_EVENT_CLCC)
         [1; 0; 0; 0; 49; 44; 48; 44; 48; 44; 48; 44; 48; 0]].
Proof. reflexivity. Qed.

Example volume_mapping_sample :
  handsfree_utils_hfp_volume_to_am_volume sample_env 8 = 5
  /\ handsfree_utils_hfp_volume_to_am_volume sample_env 1 = 1
  /\ handsfree_utils_hfp_volume_to_am_volume sample_env 15 = 10.
Proof. repeat split. Qed.

(** ** Race-guard timer *)

(** A run of the timer handler in the guarded condition: one remove of the
    current index, then one create-as-initiator; only the channel index
    and the history change. *)
Lemma timer_expiry_fires (E : hf_env) (w : world) :
  call_active (handsfree_ctxt_data w) <> 0 ->
  is_sco_connected (handsfree_ctxt_data w) = false ->
  exists w',
    hfp_timer_expiry_handler E w = Ok (tt, w')
    /\ calls w' = calls w ++
         [wiced_bt_sco_remove (sco_index (handsfree_ctxt_data w));
          wiced_bt_sco_create_as_initiator
            (peer_bd_addr (handsfree_ctxt_data w)) (handsfree_esco_params w)]
    /\ handsfree_ctxt_data w' =
         set_sco_index
           (sco_index_as_initiator E (peer_bd_addr (handsfree_ctxt_data w))
              (sco_index (handsfree_ctxt_data w)))
           (handsfree_ctxt_data w)
    /\ handsfree_app_states w' = handsfree_app_states w
    /\ handsfree_esco_params w' = handsfree_esco_params w
    /\ headset_sco_params w' = headset_sco_params w
    /\ stream_id w' = stream_id w
    /\ audio_config w' = audio_config w
    /\ log w' = log w.
Proof.
  intros Hact Hsco.
  unfold hfp_timer_expiry_handler, sco_create_as_initiator; run_monad.
  rewrite Hsco.
  destruct (Z.eqb_spec (call_active (handsfree_ctxt_data w)) 0) as [H0 | _];
    [contradiction |].
  cbn. eexists. split; [reflexivity |]. cbn.
  rewrite <- app_assoc. repeat split; reflexivity.
Qed.

Lemma timer_expiry_idle (E : hf_env) (w : world) :
  is_sco_connected (handsfree_ctxt_data w) = true
  \/ call_active (handsfree_ctxt_data w) = 0 ->
  hfp_timer_expiry_handler E w = Ok (tt, w).
Proof.
  intros H. unfold hfp_timer_expiry_handler; run_monad.
  destruct H as [H | H]; rewrite H.
  - rewrite andb_false_r. reflexivity.
  - reflexivity.
Qed.

(** C7. When the race-guard timer fires with [call_active] true and the
    voice channel not connected, the handler removes the current voice
    channel and then requests it as initiator; when the channel is
    connected or [call_active] is false it does nothing and leaves every
    global as it was. *)
Theorem timer_expiry_guard (E : hf_env) (w : world) :
  (call_active (handsfree_ctxt_data w) <> 0 ->
   is_sco_connected (handsfree_ctxt_data w) = false ->
   exists w',
     hfp_timer_expiry_handler E w = Ok (tt, w')
     /\ calls w' = calls w ++
          [wiced_bt_sco_remove (sco_index (handsfree_ctxt_data w));
           wiced_bt_sco_create_as_initiator
             (peer_bd_addr (handsfree_ctxt_data w)) (handsfree_esco_params w)])
  /\ (is_sco_connected (handsfree_ctxt_data w) = true
      \/ call_active (handsfree_ctxt_data w) = 0 ->
      hfp_timer_expiry_handler E w = Ok (tt, w)).
Proof.
  split.
  - intros Hact Hsco.
    destruct (timer_expiry_fires E w Hact Hsco) as (w' & Hrun & Hcalls & _).
    exists w'. split; assumption.
  - apply timer_expiry_idle.
Qed.

Lemma timer_expiry_guard_witness :
  (exists w',
     hfp_timer_expiry_handler sample_env sample_world_in_call = Ok (tt, w')
     /\ calls w' =
          [wiced_bt_sco_remove 3;
           wiced_bt_sco_create_as_initiator sample_bd_addr sample_sco_params])
  /\ hfp_timer_expiry_handler sample_env sample_world = Ok (tt, sample_world).
Proof.
  split.
  - apply (proj1 (timer_expiry_guard sample_env sample_world_in_call)).
    + simpl. discriminate.
    + reflexivity.
  - apply (proj2 (timer_expiry_guard sample_env sample_world)).
    right. reflexivity.
Defined.

(** C3 (as the code has it). With [call_active] true and the voice channel
    not connected, an expiry of the race-guard timer handler produces
    exactly one remove-channel followed by one create-as-initiator, and a
    second expiry in the same condition produces the same two requests
    again: the handler keeps no record of an earlier retry. *)
Theorem timer_refire_repeats_requests (E1 E2 : hf_env) (w : world) :
  call_active (handsfree_ctxt_data w) <> 0 ->
  is_sco_connected (handsfree_ctxt_data w) = false ->
  exists w1 w2,
    hfp_timer_expiry_handler E1 w = Ok (tt, w1)
    /\ hfp_timer_expiry_handler E2 w1 = Ok (tt, w2)
    /\ calls w1 = calls w ++
         [wiced_bt_sco_remove (sco_index (handsfree_ctxt_data w));
          wiced_bt_sco_create_as_initiator
            (peer_bd_addr (handsfree_ctxt_data w)) (handsfree_esco_params w)]
    /\ calls w2 = calls w1 ++
         [wiced_bt_sco_remove (sco_index (handsfree_ctxt_data w1));
          wiced_bt_sco_create_as_initiator
            (peer_bd_addr (handsfree_ctxt_data w)) (handsfree_esco_params w)].
Proof.
  intros Hact Hsco.
  destruct (timer_expiry_fires E1 w Hact Hsco)
    as (w1 & Hrun1 & Hcalls1 & Hctxt1 & _ & Hesco1 & _).
  assert (Hact1 : call_active (handsfree_ctxt_data w1) <> 0)
    by (rewrite Hctxt1; exact Hact).
  assert (Hsco1 : is_sco_connected (handsfree_ctxt_data w1) = false)
    by (rewrite Hctxt1; exact Hsco).
  destruct (timer_expiry_fires E2 w1 Hact1 Hsco1) as (w2 & Hrun2 & Hcalls2 & _).
  exists w1, w2. repeat split; try assumption.
  rewrite Hcalls2, Hesco1, Hctxt1. reflexivity.
Qed.

Lemma timer_refire_repeats_requests_witness :
  exists w1 w2,
    hfp_timer_expiry_handler sample_env sample_world_in_call = Ok (tt, w1)
    /\ hfp_timer_expiry_handler sample_env w1 = Ok (tt, w2)
    /\ calls w1 =
         [wiced_bt_sco_remove 3;
          wiced_bt_sco_create_as_initiator sample_bd_addr sample_sco_params]
    /\ calls w2 = calls w1 ++
         [wiced_bt_sco_remove (sco_index (handsfree_ctxt_data w1));
          wiced_bt_sco_create_as_initiator sample_bd_addr sample_sco_params].
Proof.
  apply (timer_refire_repeats_requests sample_env sample_env sample_world_in_call).
  - simpl. discriminate.
  - reflexivity.
Defined.

(** C3, the claim as stated, fails: on a link with an active call and an
    unconnected voice channel the second expiry issues two more stack
    requests. *)
Lemma timer_refire_counterexample :
  ~ spec_second_expiry_is_noop sample_env sample_world_in_call.
Proof.
  intros H.
  specialize (H _ _ eq_refl eq_refl).
  vm_compute in H. discriminate H.
Qed.

(** ** Voice-channel disconnect *)




(** ** Signaling connection state *)

Lemma disconnected_run (E : hf_env) (handle : Z)
    (addr : wiced_bt_device_address_t) (profile : Z) (w : world) :
  exists w',
    handsfree_event_callback E handle
      (WICED_BT_HFP_HF_CONNECTION_STATE_EVT
         WICED_BT_HFP_HF_STATE_DISCONNECTED addr profile) w = Ok (tt, w')
    /\ calls w' = calls w ++
         (if sco_index (handsfree_ctxt_data w) =? BT_AUDIO_INVALID_SCO_INDEX E
          then []
          else [wiced_bt_sco_remove (sco_index (handsfree_ctxt_data w))])
         ++ [wiced_transport_send_data HCI_CONTROL_HF_EVENT_CLOSE
               (handle_bytes (ctxt_rfcomm_handle (handsfree_ctxt_data w)))]
    /\ handsfree_ctxt_data w' =
         set_sco_index (BT_AUDIO_INVALID_SCO_INDEX E)
           (set_peer_bd_addr (repeat 0 BD_ADDR_LEN) (handsfree_ctxt_data w))
    /\ handsfree_app_states w' = handsfree_app_states w
    /\ handsfree_esco_params w' = handsfree_esco_params w
    /\ headset_sco_params w' = headset_sco_params w
    /\ stream_id w' = stream_id w
    /\ audio_config w' = audio_config w.
Proof.
  unfold handsfree_event_callback, handsfree_event_switch,
    handsfree_connection_event_handler, hci_control_send_hf_event,
    hf_event_payload; run_monad.
  cbn.
  destruct (Z.eqb_spec (sco_index (handsfree_ctxt_data w))
              (BT_AUDIO_INVALID_SCO_INDEX E)) as [Heq | Hne]; cbn.
  - eexists. split; [reflexivity |]. cbn.
    repeat split. unfold set_sco_index, set_peer_bd_addr. cbn.
    rewrite <- Heq. reflexivity.
  - eexists. split; [reflexivity |]. cbn.
    rewrite <- app_assoc. repeat split.
Qed.

(** C1 (as the code has it). When the signaling connection transitions to
    disconnected, the handler clears the stored remote address to all-zero
    bytes, removes the voice channel if its index is not the invalid
    sentinel and leaves the index at the sentinel, and emits exactly one
    Link-closed event; the call indicators, the volumes, the
    connected and initiate flags of the voice channel and the wideband
    selection keep their values. *)
Theorem disconnect_clears_address_and_channel (E : hf_env) (handle : Z)
    (addr : wiced_bt_device_address_t) (profile : Z) (w : world) :
  exists w',
    handsfree_event_callback E handle
      (WICED_BT_HFP_HF_CONNECTION_STATE_EVT
         WICED_BT_HFP_HF_STATE_DISCONNECTED addr profile) w = Ok (tt, w')
    /\ peer_bd_addr (handsfree_ctxt_data w') = [0; 0; 0; 0; 0; 0]
    /\ sco_index (handsfree_ctxt_data w') = BT_AUDIO_INVALID_SCO_INDEX E
    /\ calls w' = calls w ++
         (if sco_index (handsfree_ctxt_data w) =? BT_AUDIO_INVALID_SCO_INDEX E
          then []
          else [wiced_bt_sco_remove (sco_index (handsfree_ctxt_data w))])
         ++ [wiced_transport_send_data HCI_CONTROL_HF_EVENT_CLOSE
               (handle_bytes (ctxt_rfcomm_handle (handsfree_ctxt_data w)))]
    /\ count (is_event HCI_CONTROL_HF_EVENT_CLOSE) (calls w')
         = (count (is_event HCI_CONTROL_HF_EVENT_CLOSE) (calls w) + 1)%nat
    /\ call_active (handsfree_ctxt_data w') = call_active (handsfree_ctxt_data w)
    /\ call_held (handsfree_ctxt_data w') = call_held (handsfree_ctxt_data w)
    /\ call_setup (handsfree_ctxt_data w') = call_setup (handsfree_ctxt_data w)
    /\ spkr_volume (handsfree_ctxt_data w') = spkr_volume (handsfree_ctxt_data w)
    /\ mic_volume (handsfree_ctxt_data w') = mic_volume (handsfree_ctxt_data w)
    /\ is_sco_connected (handsfree_ctxt_data w')
         = is_sco_connected (handsfree_ctxt_data w)
    /\ init_sco_conn (handsfree_ctxt_data w')
         = init_sco_conn (handsfree_ctxt_data w)
    /\ handsfree_esco_params w' = handsfree_esco_params w.
Proof.
  destruct (disconnected_run E handle addr profile w)
    as (w' & Hrun & Hcalls & Hctxt & _ & Hesco & _).
  exists w'. rewrite Hctxt, Hcalls. cbn.
  repeat split; try assumption.
  unfold count. rewrite !filter_app, !length_app.
  destruct (sco_index (handsfree_ctxt_data w) =? BT_AUDIO_INVALID_SCO_INDEX E);
    cbn; lia.
Qed.

(** C1, the claim as stated, fails: a link that is disconnected while a
    call is active keeps [call_active = 1], so the context is not at its
    default values. *)
Lemma disconnect_keeps_call_state_counterexample :
  ~ spec_disconnect_resets_context sample_env 1 sample_bd_addr 1
      sample_world_in_call.
Proof.
  intros H.
  specialize (H _ eq_refl).
  vm_compute in H. discriminate H.
Qed.

Lemma connected_run (E : hf_env) (handle : Z)
    (addr : wiced_bt_device_address_t) (profile : Z) (w : world)
    (scb : wiced_bt_hfp_hf_scb_t) :
  wiced_bt_hfp_hf_get_scb_by_bd_addr E addr = Some scb ->
  exists w',
    handsfree_event_callback E handle
      (WICED_BT_HFP_HF_CONNECTION_STATE_EVT
         WICED_BT_HFP_HF_STATE_CONNECTED addr profile) w = Ok (tt, w')
    /\ calls w' = calls w ++
         [wiced_transport_send_data HCI_CONTROL_HF_EVENT_OPEN
            (handle_bytes (rfcomm_handle scb)
               ++ reversed_bd_addr (firstn BD_ADDR_LEN addr)
               ++ [uint8 WICED_BT_SUCCESS]);
          wiced_transport_send_data HCI_CONTROL_HF_EVENT_PROFILE_TYPE
            (handle_bytes (rfcomm_handle scb)
               ++ [uint8 (if profile =? WICED_BT_HFP_PROFILE E
                          then WICED_BT_HFP_PROFILE E
                          else WICED_BT_HSP_PROFILE E)]);
          wiced_bt_sco_create_as_acceptor]
    /\ sco_index (handsfree_ctxt_data w')
         = sco_index_as_acceptor E (sco_index (handsfree_ctxt_data w))
    /\ ctxt_rfcomm_handle (handsfree_ctxt_data w') = rfcomm_handle scb.
Proof.
  intros Hscb.
  unfold handsfree_event_callback, handsfree_event_switch,
    handsfree_connection_event_handler, hci_control_send_hf_event,
    sco_create_as_acceptor, hf_event_payload; run_monad.
  rewrite Hscb. cbn.
  destruct (profile =? WICED_BT_HFP_PROFILE E); cbn;
    (eexists; split; [reflexivity |]); cbn;
    rewrite <- !app_assoc; repeat split.
Qed.

Lemma count_app (p : call -> bool) (l1 l2 : list call) :
  count p (l1 ++ l2) = (count p l1 + count p l2)%nat.
Proof. unfold count. rewrite filter_app, length_app. reflexivity. Qed.

(** C2 (as the code has it). A signaling-connected notification whose
    control block is registered causes exactly one create-as-acceptor
    request whatever the state of the link, and a second consecutive
    signaling-connected notification for the same link, with no
    intervening disconnect, causes one more. *)
Theorem connected_issues_acceptor_request_each_time (E : hf_env) (handle : Z)
    (addr : wiced_bt_device_address_t) (profile : Z) (w : world)
    (scb : wiced_bt_hfp_hf_scb_t) :
  wiced_bt_hfp_hf_get_scb_by_bd_addr E addr = Some scb ->
  exists w1 w2,
    handsfree_event_callback E handle
      (WICED_BT_HFP_HF_CONNECTION_STATE_EVT
         WICED_BT_HFP_HF_STATE_CONNECTED addr profile) w = Ok (tt, w1)
    /\ handsfree_event_callback E handle
         (WICED_BT_HFP_HF_CONNECTION_STATE_EVT
            WICED_BT_HFP_HF_STATE_CONNECTED addr profile) w1 = Ok (tt, w2)
    /\ count is_acceptor_request (calls w1)
         = (count is_acceptor_request (calls w) + 1)%nat
    /\ count is_acceptor_request (calls w2)
         = (count is_acceptor_request (calls w1) + 1)%nat.
Proof.
  intros Hscb.
  destruct (connected_run E handle addr profile w scb Hscb)
    as (w1 & Hrun1 & Hcalls1 & _).
  destruct (connected_run E handle addr profile w1 scb Hscb)
    as (w2 & Hrun2 & Hcalls2 & _).
  exists w1, w2. repeat split; try assumption.
  - rewrite Hcalls1, count_app. reflexivity.
  - rewrite Hcalls2, count_app. reflexivity.
Qed.

Lemma connected_issues_acceptor_request_each_time_witness :
  exists w1 w2,
    handsfree_event_callback sample_env 1
      (WICED_BT_HFP_HF_CONNECTION_STATE_EVT
         WICED_BT_HFP_HF_STATE_CONNECTED sample_bd_addr 1) sample_world
      = Ok (tt, w1)
    /\ handsfree_event_callback sample_env 1
         (WICED_BT_HFP_HF_CONNECTION_STATE_EVT
            WICED_BT_HFP_HF_STATE_CONNECTED sample_bd_addr 1) w1 = Ok (tt, w2)
    /\ count is_acceptor_request (calls w1) = 1%nat
    /\ count is_acceptor_request (calls w2)
         = (count is_acceptor_request (calls w1) + 1)%nat.
Proof.
  apply (connected_issues_acceptor_request_each_time sample_env 1
           sample_bd_addr 1 sample_world sample_scb).
  reflexivity.
Defined.

(** C2, the claim as stated, fails: the second of two consecutive
    signaling-connected notifications issues a second acceptor request. *)
Lemma second_connected_counterexample :
  ~ spec_second_connected_issues_no_request sample_env 1 sample_bd_addr 1
      sample_world.
Proof.
  intros H.
  destruct (H _ _ eq_refl eq_refl) as [_ H2].
  vm_compute in H2. discriminate H2.
Qed.

(** ** Volume mapping *)

Lemma int32_small (z : Z) : - 2 ^ 31 <= z < 2 ^ 31 -> int32 z = z.
Proof.
  intros H. unfold int32.
  rewrite Z.mod_small by lia. lia.
Qed.

Lemma uint32_small (z : Z) : 0 <= z < 2 ^ 32 -> uint32 z = z.
Proof. intros H. unfold uint32. apply Z.mod_small. exact H. Qed.

(** C5. For every [hf_level] in [0 .. hf_max] with [hf_max > 0] (all
    values and the product within the 32-bit range of the C arithmetic),
    the volume mapping returns [floor (hf_level * device_max / hf_max)],
    incremented by one exactly when
    [(hf_level * device_max) mod hf_max >= device_max]; with the source's
    profile maximum 15 and a device maximum 16, level 8 maps to 8. *)
Theorem volume_mapping_formula (hf_level hf_max device_max : Z) :
  0 < hf_max < 2 ^ 31 ->
  0 <= hf_level <= hf_max ->
  0 <= device_max < 2 ^ 31 ->
  hf_level * device_max < 2 ^ 31 ->
  hfp_volume_to_am_volume hf_max device_max hf_level
    = hf_level * device_max / hf_max
      + (if device_max <=? (hf_level * device_max) mod hf_max then 1 else 0)
  /\ hfp_volume_to_am_volume HFP_VOLUME_HIGH 16 8 = 8.
Proof.
  intros Hmax Hlevel Hdev Hprod.
  split.
  - unfold hfp_volume_to_am_volume.
    assert (Hp : 0 <= hf_level * device_max) by nia.
    rewrite (int32_small (hf_level * device_max)) by lia.
    rewrite Z.quot_div_nonneg, Z.rem_mod_nonneg by lia.
    pose proof (Z.mod_pos_bound (hf_level * device_max) hf_max ltac:(lia)) as Hr.
    pose proof (Z.div_pos (hf_level * device_max) hf_max Hp ltac:(lia)) as Hq0.
    assert (Hq : hf_level * device_max / hf_max <= hf_level * device_max).
    { apply Z.div_le_upper_bound; [lia | nia]. }
    rewrite (int32_small (hf_level * device_max / hf_max)) by lia.
    rewrite (uint32_small ((hf_level * device_max) mod hf_max)) by lia.
    rewrite (uint32_small device_max) by lia.
    destruct (Z.leb_spec device_max ((hf_level * device_max) mod hf_max))
      as [Hge | Hlt]; [| lia].
    apply int32_small.
    pose proof (Z.div_mod (hf_level * device_max) hf_max ltac:(lia)) as Hdm.
    assert (hf_level * device_max / hf_max < 2 ^ 31 - 1 \/
            hf_level * device_max / hf_max = 2 ^ 31 - 1) as [Hs | He] by lia;
      [lia |].
    exfalso. rewrite He in Hdm. nia.
  - reflexivity.
Qed.

Lemma volume_mapping_formula_witness :
  hfp_volume_to_am_volume 15 10 1 = 1
  /\ hfp_volume_to_am_volume HFP_VOLUME_HIGH 16 8 = 8.
Proof.
  apply (volume_mapping_formula 1 15 10); lia.
Defined.

(** ** Call indicators *)

Lemma array_strlen_app (l rest : list Z) :
  array_strlen (l ++ 0 :: rest) = Some (strlen l).
Proof.
  unfold strlen. induction l as [| c l IH]; cbn.
  - reflexivity.
  - destruct (c =? 0); [reflexivity |]. rewrite IH. reflexivity.
Qed.

Lemma firstn_strlen_app (l rest : list Z) :
  firstn (strlen l) (l ++ rest) = c_str l.
Proof.
  unfold strlen. induction l as [| c l IH]; cbn.
  - reflexivity.
  - destruct (c =? 0); cbn; [reflexivity |]. rewrite IH. reflexivity.
Qed.

Lemma c_str_length (l : list Z) : (List.length (c_str l) <= List.length l)%nat.
Proof.
  induction l as [| c l IH]; cbn; [lia |].
  destruct (c =? 0); cbn; lia.
Qed.

(** With digits for the identifier and the value the text is
    [<id>,<value>]. *)
Lemma ciev_text_digits (ind_id ind_val : Z) :
  0 <= ind_id <= 9 -> 0 <= ind_val <= 9 ->
  ciev_text ind_id ind_val = [48 + ind_id; 44; 48 + ind_val].
Proof.
  intros Hid Hval. unfold ciev_text, uint8.
  rewrite (Z.mod_small ind_id), (Z.mod_small ind_val) by lia.
  rewrite (Z.mod_small (48 + ind_id)), (Z.mod_small (48 + ind_val)) by lia.
  cbn [c_str].
  destruct (Z.eqb_spec (48 + ind_id) 0); [lia |].
  destruct (Z.eqb_spec (48 + ind_val) 0); [lia |].
  reflexivity.
Qed.

Lemma ciev_text_length (ind_id ind_val : Z) :
  (List.length (ciev_text ind_id ind_val) <= 3)%nat.
Proof.
  exact (c_str_length [uint8 (48 + uint8 ind_id); 44; uint8 (48 + uint8 ind_val)]).
Qed.

Lemma send_at_event_run (sub : hci_control_hf_at_event) (handle : Z)
    (d : hci_control_hf_event_t) (n : nat) (w : world) :
  array_strlen (str (val d)) = Some n ->
  (n <= 295)%nat ->
  hci_control_send_hf_event (HCI_CONTROL_HF_AT_EVENT sub) handle (Some d) w =
    Ok (tt,
        add_call
          (wiced_transport_send_data (HCI_CONTROL_HF_AT_EVENT sub)
             (handle_bytes handle
                ++ [uint8 (num (val d)); uint8 (Z.shiftr (num (val d)) 8)]
                ++ firstn n (str (val d)) ++ [0]))
          (add_log "[%u]hci_control_send_hf_event: Sending Event: %u  to UART" w)).
Proof.
  intros Hlen Hn.
  unfold hci_control_send_hf_event, hf_event_payload; run_monad.
  rewrite Hlen.
  fold (handle_bytes handle).
  destruct (Nat.leb_spec
              (List.length
                 (handle_bytes handle
                    ++ [uint8 (num (val d)); uint8 (Z.shiftr (num (val d)) 8)]
                    ++ firstn n (str (val d)) ++ [0]))
              TX_BUF_SIZE) as [_ | Hbig].
  - reflexivity.
  - exfalso. rewrite !length_app in Hbig.
    pose proof (firstn_le_length n (str (val d))) as Hf.
    cbn [List.length handle_bytes] in Hbig.
    unfold TX_BUF_SIZE in Hbig. lia.
Qed.

Lemma send_ciev_run (E : hf_env) (handle ind_id ind_val : Z)
    (p_val : hci_control_hf_value_t) (w : world) (scb : wiced_bt_hfp_hf_scb_t)
    (a b c d : Z) (rest : list Z) :
  wiced_bt_hfp_hf_get_scb_by_handle E handle = Some scb ->
  num p_val = 0 ->
  str p_val = a :: b :: c :: d :: rest ->
  handsfree_send_ciev_cmd E handle ind_id ind_val p_val w =
    Ok ({| num := 0;
           str := uint8 (48 + uint8 ind_id) :: 44
                    :: uint8 (48 + uint8 ind_val) :: 0 :: rest |},
        add_call (ciev_event scb ind_id ind_val)
          (add_log "[%u]hci_control_send_hf_event: Sending Event: %u  to UART" w)).
Proof.
  intros Hscb Hnum Hstr.
  unfold handsfree_send_ciev_cmd, str_store; run_monad.
  rewrite Hscb, Hstr, Hnum. unfold array_store.
  cbn [List.length Nat.add Nat.leb firstn skipn app str num].
  pose proof (ciev_text_length ind_id ind_val) as Hlen.
  rewrite (send_at_event_run HCI_CONTROL_HF_AT_EVENT_CIEV (rfcomm_handle scb)
             _ (strlen [uint8 (48 + uint8 ind_id); 44; uint8 (48 + uint8 ind_val)])).
  - cbn [val val_event str num].
    change (uint8 (48 + uint8 ind_id) :: 44 :: uint8 (48 + uint8 ind_val) :: 0 :: rest)
      with ([uint8 (48 + uint8 ind_id); 44; uint8 (48 + uint8 ind_val)] ++ 0 :: rest).
    rewrite firstn_strlen_app.
    reflexivity.
  - cbn [val val_event str].
    change (uint8 (48 + uint8 ind_id) :: 44 :: uint8 (48 + uint8 ind_val) :: 0 :: rest)
      with ([uint8 (48 + uint8 ind_id); 44; uint8 (48 + uint8 ind_val)] ++ 0 :: rest).
    apply array_strlen_app.
  - unfold ciev_text in Hlen. unfold strlen. lia.
Qed.

(** Whatever branch of the classification is taken, the handler ends in
    the three assignments and touches nothing but the context and the
    trace log. *)
Lemma call_setup_handler_run (E : hf_env)
    (call_data : wiced_bt_hfp_hf_call_data_t) (w : world) :
  exists w',
    handsfree_call_setup_event_handler E call_data w = Ok (tt, w')
    /\ handsfree_ctxt_data w' =
         set_call_indicators (active_call_present call_data)
           (held_call_present call_data) (setup_state call_data)
           (handsfree_ctxt_data w)
    /\ calls w' = calls w
    /\ handsfree_app_states w' = handsfree_app_states w
    /\ handsfree_esco_params w' = handsfree_esco_params w
    /\ headset_sco_params w' = headset_sco_params w
    /\ stream_id w' = stream_id w
    /\ audio_config w' = audio_config w.
Proof.
  unfold handsfree_call_setup_event_handler; run_monad.
  repeat match goal with
         | |- context [if ?b then _ else _] => destruct b
         end;
    (eexists; split; [reflexivity | cbn; repeat split]).
Qed.

Lemma call_setup_run (E : hf_env) (handle : Z)
    (call_data : wiced_bt_hfp_hf_call_data_t) (w : world)
    (scb : wiced_bt_hfp_hf_scb_t) :
  wiced_bt_hfp_hf_get_scb_by_handle E handle = Some scb ->
  (4 <= HCI_CONTROL_HF_VALUE_STR_SIZE E)%nat ->
  exists w',
    handsfree_event_callback E handle
      (WICED_BT_HFP_HF_CALL_SETUP_EVT call_data) w = Ok (tt, w')
    /\ calls w' = calls w
         ++ ciev_if (negb (call_active (handsfree_ctxt_data w)
                             =? active_call_present call_data))
              scb (WICED_BT_HFP_HF_CALL_IND E) (active_call_present call_data)
         ++ ciev_if (negb (call_held (handsfree_ctxt_data w)
                             =? held_call_present call_data))
              scb (WICED_BT_HFP_HF_CALL_HELD_IND E) (held_call_present call_data)
         ++ ciev_if (negb (call_setup (handsfree_ctxt_data w)
                             =? setup_state call_data))
              scb (WICED_BT_HFP_HF_CALL_SETUP_IND E) (setup_state call_data)
    /\ handsfree_ctxt_data w' =
         set_call_indicators (active_call_present call_data)
           (held_call_present call_data) (setup_state call_data)
           (handsfree_ctxt_data w)
    /\ handsfree_esco_params w' = handsfree_esco_params w.
Proof.
  intros Hscb Hsize.
  unfold handsfree_event_callback, handsfree_event_switch, zero_val.
  destruct (HCI_CONTROL_HF_VALUE_STR_SIZE E) as [| [| [| [| m]]]]; try lia.
  cbn [repeat].
  unfold bind at 1 2. unfold gets at 1.
  destruct (call_active (handsfree_ctxt_data w) =? active_call_present call_data);
    destruct (call_held (handsfree_ctxt_data w) =? held_call_present call_data);
    destruct (call_setup (handsfree_ctxt_data w) =? setup_state call_data);
    cbn [negb ciev_if app];
    unfold bind, ret;
    repeat (erewrite send_ciev_run; [| exact Hscb | reflexivity | reflexivity]);
    match goal with
    | |- context [handsfree_call_setup_event_handler E call_data ?w0] =>
        destruct (call_setup_handler_run E call_data w0)
          as (w' & Hrun & Hctxt & Hcalls & _ & Hesco & _);
        rewrite Hrun; exists w';
        rewrite Hctxt, Hcalls, Hesco; cbn;
        rewrite <- ?app_assoc; cbn; rewrite ?app_nil_r;
        repeat split
    end.
Qed.

(** C4. For a call-indicator notification (active, held, setup) each of the
    three indicators is compared on its own with the stored value; an
    indicator-change event carrying the indicator identifier and the new
    value is emitted for an indicator if and only if its value differs from
    the stored one, in the fixed order active-call, held-call, call-setup;
    a second notification with the same values emits nothing. *)
Theorem call_indicators_emit_changes_once (E : hf_env) (handle : Z)
    (call_data : wiced_bt_hfp_hf_call_data_t) (w : world)
    (scb : wiced_bt_hfp_hf_scb_t) :
  wiced_bt_hfp_hf_get_scb_by_handle E handle = Some scb ->
  (4 <= HCI_CONTROL_HF_VALUE_STR_SIZE E)%nat ->
  exists w1 w2,
    handsfree_event_callback E handle
      (WICED_BT_HFP_HF_CALL_SETUP_EVT call_data) w = Ok (tt, w1)
    /\ calls w1 = calls w
         ++ ciev_if (negb (call_active (handsfree_ctxt_data w)
                             =? active_call_present call_data))
              scb (WICED_BT_HFP_HF_CALL_IND E) (active_call_present call_data)
         ++ ciev_if (negb (call_held (handsfree_ctxt_data w)
                             =? held_call_present call_data))
              scb (WICED_BT_HFP_HF_CALL_HELD_IND E) (held_call_present call_data)
         ++ ciev_if (negb (call_setup (handsfree_ctxt_data w)
                             =? setup_state call_data))
              scb (WICED_BT_HFP_HF_CALL_SETUP_IND E) (setup_state call_data)
    /\ handsfree_event_callback E handle
         (WICED_BT_HFP_HF_CALL_SETUP_EVT call_data) w1 = Ok (tt, w2)
    /\ calls w2 = calls w1.
Proof.
  intros Hscb Hsize.
  destruct (call_setup_run E handle call_data w scb Hscb Hsize)
    as (w1 & Hrun1 & Hcalls1 & Hctxt1 & _).
  destruct (call_setup_run E handle call_data w1 scb Hscb Hsize)
    as (w2 & Hrun2 & Hcalls2 & _).
  exists w1, w2. repeat split; try assumption.
  rewrite Hcalls2, Hctxt1. cbn.
  rewrite !Z.eqb_refl. cbn. apply app_nil_r.
Qed.

Lemma call_indicators_emit_changes_once_witness :
  exists w1 w2,
    handsfree_event_callback sample_env 1
      (WICED_BT_HFP_HF_CALL_SETUP_EVT sample_call_data) sample_world
      = Ok (tt, w1)
    /\ calls w1 =
         [wiced_transport_send_data
            (HCI_CONTROL_HF_AT_EVENT HCI_CONTROL_HF_AT_EVENT_CIEV)
            [1; 0; 0; 0; 50; 44; 49; 0]]
    /\ handsfree_event_callback sample_env 1
         (WICED_BT_HFP_HF_CALL_SETUP_EVT sample_call_data) w1 = Ok (tt, w2)
    /\ calls w2 = calls w1.
Proof.
  apply (call_indicators_emit_changes_once sample_env 1 sample_call_data
           sample_world sample_scb).
  - reflexivity.
  - simpl. lia.
Defined.

(** Every completed run of the callback on a call-indicator notification
    went through the handler. *)
Lemma call_setup_result (E : hf_env) (handle : Z)
    (call_data : wiced_bt_hfp_hf_call_data_t) (w w' : world) :
  handsfree_event_callback E handle
    (WICED_BT_HFP_HF_CALL_SETUP_EVT call_data) w = Ok (tt, w') ->
  handsfree_ctxt_data w' =
    set_call_indicators (active_call_present call_data)
      (held_call_present call_data) (setup_state call_data)
      (handsfree_ctxt_data w).
Proof.
  assert (Hsend : forall id v p w0,
             (exists p1 w1,
                 handsfree_send_ciev_cmd E handle id v p w0 = Ok (p1, w1)
                 /\ handsfree_ctxt_data w1 = handsfree_ctxt_data w0)
             \/ (exists f, handsfree_send_ciev_cmd E handle id v p w0 = Fault f)).
  { intros id v p w0.
    unfold handsfree_send_ciev_cmd, str_store, hci_control_send_hf_event,
      hf_event_payload; run_monad.
    repeat match goal with
           | |- context [match ?x with Some _ => _ | None => _ end] =>
               destruct x
           | |- context [if ?b then _ else _] => destruct b
           end;
      solve [ left; do 2 eexists; split; reflexivity
            | right; eexists; reflexivity ]. }
  unfold handsfree_event_callback, handsfree_event_switch.
  unfold bind at 1 2. unfold gets at 1.
  intros Hrun.
  repeat match type of Hrun with
         | context [if negb ?b then _ else _] => destruct b; cbn [negb] in Hrun
         end;
    unfold bind, ret in Hrun;
    repeat match type of Hrun with
           | context [handsfree_send_ciev_cmd E handle ?id ?v ?p ?w0] =>
               let Hs := fresh "Hs" in
               let Hc := fresh "Hc" in
               destruct (Hsend id v p w0) as [(? & ? & Hs & Hc) | (? & Hs)];
               rewrite Hs in Hrun; [| discriminate Hrun]
           end;
    match type of Hrun with
    | context [handsfree_call_setup_event_handler E call_data ?w0] =>
        destruct (call_setup_handler_run E call_data w0) as (w2 & Hh & Hctxt & _);
        rewrite Hh in Hrun; inversion Hrun; subst w'; rewrite Hctxt; congruence
    end.
Qed.

(** C10. After a call-indicator notification has been processed, the
    stored [call_active], [call_held] and [call_setup] equal the values
    carried in the notification: the handler ends in the three assignments
    on every classification branch, every completed run of the callback
    went through the handler whether or not an indicator-change event was
    emitted, and the callback completes when the control block of the
    handle is registered. *)
Theorem call_indicators_always_stored (E : hf_env) (handle : Z)
    (call_data : wiced_bt_hfp_hf_call_data_t) (w : world) :
  (exists w',
     handsfree_call_setup_event_handler E call_data w = Ok (tt, w')
     /\ call_active (handsfree_ctxt_data w') = active_call_present call_data
     /\ call_held (handsfree_ctxt_data w') = held_call_present call_data
     /\ call_setup (handsfree_ctxt_data w') = setup_state call_data)
  /\ (forall w',
        handsfree_event_callback E handle
          (WICED_BT_HFP_HF_CALL_SETUP_EVT call_data) w = Ok (tt, w') ->
        call_active (handsfree_ctxt_data w') = active_call_present call_data
        /\ call_held (handsfree_ctxt_data w') = held_call_present call_data
        /\ call_setup (handsfree_ctxt_data w') = setup_state call_data)
  /\ (forall scb,
        wiced_bt_hfp_hf_get_scb_by_handle E handle = Some scb ->
        (4 <= HCI_CONTROL_HF_VALUE_STR_SIZE E)%nat ->
        exists w',
          handsfree_event_callback E handle
            (WICED_BT_HFP_HF_CALL_SETUP_EVT call_data) w = Ok (tt, w')).
Proof.
  split; [| split].
  - destruct (call_setup_handler_run E call_data w) as (w' & Hrun & Hctxt & _).
    exists w'. rewrite Hctxt. repeat split. exact Hrun.
  - intros w' Hrun.
    rewrite (call_setup_result E handle call_data w w' Hrun).
    repeat split.
  - intros scb Hscb Hsize.
    destruct (call_setup_run E handle call_data w scb Hscb Hsize)
      as (w' & Hrun & _).
    exists w'. exact Hrun.
Qed.

Lemma call_indicators_always_stored_witness :
  exists w',
    handsfree_event_callback sample_env 1
      (WICED_BT_HFP_HF_CALL_SETUP_EVT sample_call_data)
      sample_world_in_call = Ok (tt, w')
    /\ call_active (handsfree_ctxt_data w') = 1
    /\ call_held (handsfree_ctxt_data w') = 0
    /\ call_setup (handsfree_ctxt_data w') = 0.
Proof.
  destruct (call_indicators_always_stored sample_env 1 sample_call_data
              sample_world_in_call) as (_ & Hstored & Hruns).
  destruct (Hruns sample_scb) as (w' & Hrun).
  - reflexivity.
  - simpl. lia.
  - exists w'. split; [exact Hrun | exact (Hstored w' Hrun)].
Defined.

(** ** Codec selection *)

Lemma send_connected_event_run (handle : Z) (d : hci_control_hf_event_t)
    (w : world) :
  hci_control_send_hf_event HCI_CONTROL_HF_EVENT_CONNECTED handle (Some d) w =
    Ok (tt,
        add_call
          (wiced_transport_send_data HCI_CONTROL_HF_EVENT_CONNECTED
             (handle_bytes handle ++ UINT32_TO_STREAM (peer_features (conn d))))
          (add_log "[%u]hci_control_send_hf_event: Sending Event: %u  to UART" w)).
Proof. reflexivity. Qed.

Lemma feature_support_run (E : hf_env) (handle ag_feature_flags : Z)
    (w : world) (scb : wiced_bt_hfp_hf_scb_t) :
  WICED_BT_HFP_HF_WBS_INCLUDED E = true ->
  wiced_bt_hfp_hf_get_scb_by_handle E handle = Some scb ->
  exists w',
    handsfree_event_callback E handle
      (WICED_BT_HFP_HF_AG_FEATURE_SUPPORT_EVT ag_feature_flags) w = Ok (tt, w')
    /\ use_wbs (handsfree_esco_params w') =
         negb (Z.land ag_feature_flags
                 (WICED_BT_HFP_AG_FEATURE_CODEC_NEGOTIATION E) =? 0)
         && negb (Z.land (feature_mask scb)
                    (WICED_BT_HFP_HF_FEATURE_CODEC_NEGOTIATION E) =? 0).
Proof.
  intros Hwbs Hscb.
  unfold handsfree_event_callback, handsfree_event_switch; run_monad.
  rewrite Hwbs, Hscb.
  repeat match goal with
         | |- context [if ?b then _ else _] => destruct b
         end;
    cbn [negb andb];
    rewrite ?send_connected_event_run;
    (eexists; split; [reflexivity | reflexivity]).
Qed.

Lemma codec_set_run (E : hf_env) (handle selected_codec : Z)
    (w : world) (scb : wiced_bt_hfp_hf_scb_t) :
  wiced_bt_hfp_hf_get_scb_by_handle E handle = Some scb ->
  (0 < HCI_CONTROL_HF_VALUE_STR_SIZE E)%nat ->
  exists w',
    handsfree_event_callback E handle
      (WICED_BT_HFP_HFP_CODEC_SET_EVT selected_codec) w = Ok (tt, w')
    /\ use_wbs (handsfree_esco_params w') =
         (selected_codec =? WICED_BT_HFP_HF_MSBC_CODEC E).
Proof.
  intros Hscb Hsize.
  unfold handsfree_event_callback, handsfree_event_switch,
    codec_set_audio_manager, zero_val, set_num; run_monad.
  rewrite Hscb.
  destruct (HCI_CONTROL_HF_VALUE_STR_SIZE E) as [| m]; [lia |].
  cbn [repeat str num].
  repeat match goal with
         | |- context [if ?b then _ else _] => destruct b
         end;
    unfold AT; cbv beta iota;
    try (erewrite send_at_event_run; [| reflexivity | lia]);
    (eexists; split; [reflexivity | reflexivity]).
Qed.

(** C8. In a build with wideband speech included, the AG-feature
    notification sets [use_wbs] to true if and only if the AG feature flags
    advertise codec negotiation and the local feature mask enables it; a
    later codec-selection notification, in whatever state it arrives,
    sets [use_wbs] to true exactly when the selected codec is mSBC. *)
Theorem wideband_selection (E : hf_env) (handle ag_feature_flags selected_codec : Z)
    (w : world) (scb : wiced_bt_hfp_hf_scb_t) :
  WICED_BT_HFP_HF_WBS_INCLUDED E = true ->
  wiced_bt_hfp_hf_get_scb_by_handle E handle = Some scb ->
  (0 < HCI_CONTROL_HF_VALUE_STR_SIZE E)%nat ->
  (exists w1,
     handsfree_event_callback E handle
       (WICED_BT_HFP_HF_AG_FEATURE_SUPPORT_EVT ag_feature_flags) w = Ok (tt, w1)
     /\ (use_wbs (handsfree_esco_params w1) = true <->
         Z.land ag_feature_flags (WICED_BT_HFP_AG_FEATURE_CODEC_NEGOTIATION E) <> 0
         /\ Z.land (feature_mask scb)
              (WICED_BT_HFP_HF_FEATURE_CODEC_NEGOTIATION E) <> 0)
     /\ exists w2,
          handsfree_event_callback E handle
            (WICED_BT_HFP_HFP_CODEC_SET_EVT selected_codec) w1 = Ok (tt, w2)
          /\ (use_wbs (handsfree_esco_params w2) = true <->
              selected_codec = WICED_BT_HFP_HF_MSBC_CODEC E))
  /\ (forall w0, exists w2,
        handsfree_event_callback E handle
          (WICED_BT_HFP_HFP_CODEC_SET_EVT selected_codec) w0 = Ok (tt, w2)
        /\ (use_wbs (handsfree_esco_params w2) = true <->
            selected_codec = WICED_BT_HFP_HF_MSBC_CODEC E)).
Proof.
  intros Hwbs Hscb Hsize.
  assert (Hcodec : forall w0, exists w2,
             handsfree_event_callback E handle
               (WICED_BT_HFP_HFP_CODEC_SET_EVT selected_codec) w0 = Ok (tt, w2)
             /\ (use_wbs (handsfree_esco_params w2) = true <->
                 selected_codec = WICED_BT_HFP_HF_MSBC_CODEC E)).
  { intros w0.
    destruct (codec_set_run E handle selected_codec w0 scb Hscb Hsize)
      as (w2 & Hrun & Huse).
    exists w2. split; [exact Hrun |].
    rewrite Huse. apply Z.eqb_eq. }
  split; [| exact Hcodec].
  destruct (feature_support_run E handle ag_feature_flags w scb Hwbs Hscb)
    as (w1 & Hrun & Huse).
  exists w1. split; [exact Hrun |]. split; [| apply Hcodec].
  rewrite Huse, andb_true_iff, !negb_true_iff, !Z.eqb_neq. reflexivity.
Qed.

Lemma wideband_selection_witness :
  (exists w1,
     handsfree_event_callback sample_env 1
       (WICED_BT_HFP_HF_AG_FEATURE_SUPPORT_EVT 0x200) sample_world = Ok (tt, w1)
     /\ (use_wbs (handsfree_esco_params w1) = true <->
         Z.land 0x200 0x200 <> 0 /\ Z.land 0xBF 0x80 <> 0)
     /\ exists w2,
          handsfree_event_callback sample_env 1
            (WICED_BT_HFP_HFP_CODEC_SET_EVT 1) w1 = Ok (tt, w2)
          /\ (use_wbs (handsfree_esco_params w2) = true <-> 1 = 2))
  /\ (forall w0, exists w2,
        handsfree_event_callback sample_env 1
          (WICED_BT_HFP_HFP_CODEC_SET_EVT 1) w0 = Ok (tt, w2)
        /\ (use_wbs (handsfree_esco_params w2) = true <-> 1 = 2)).
Proof.
  apply (wideband_selection sample_env 1 0x200 1 sample_world sample_scb).
  - reflexivity.
  - reflexivity.
  - simpl. lia.
Defined.

(** ** Passthrough text *)

Lemma array_strlen_c_str_prefix (l : list Z) (n : nat) :
  array_strlen (firstn n (c_str l)) = None.
Proof.
  revert n. induction l as [| c l IH]; intros n; cbn.
  - destruct n; reflexivity.
  - destruct (c =? 0) eqn:Hc.
    + destruct n; reflexivity.
    + destruct n; cbn; [reflexivity |].
      rewrite Hc, IH. reflexivity.
Qed.

Lemma strncpy_full (n : nat) (src : list Z) :
  (n <= strlen src)%nat -> strncpy n src = firstn n (c_str src).
Proof.
  intros H. unfold strncpy, strlen in *.
  rewrite firstn_app.
  replace (n - List.length (c_str src))%nat with 0%nat by lia.
  cbn. apply app_nil_r.
Qed.

(** C6 (behaviour of the code on over-long text). A subscriber-number
    text longer than [p_val.val.str] is copied with [memcpy] over its whole
    length, so the store leaves the array; a caller-ID text that fills the
    array is copied by [strncpy] without a terminating NUL, so the
    serialiser's [strlen] leaves the array.  Neither text is truncated to
    the buffer capacity. *)
Theorem oversized_text_overruns_buffer (E : hf_env) (handle : Z)
    (text : list Z) (w : world) :
  ((HCI_CONTROL_HF_VALUE_STR_SIZE E < strlen text)%nat ->
   handsfree_event_callback E handle (WICED_BT_HFP_HF_CNUM_EVT text) w
     = Fault STR_WRITE_OUT_OF_BOUNDS)
  /\ (forall clip_type scb,
        (HCI_CONTROL_HF_VALUE_STR_SIZE E <= strlen text)%nat ->
        res_in_range E (AT HCI_CONTROL_HF_AT_EVENT_CLIP) = true ->
        wiced_bt_hfp_hf_get_scb_by_handle E handle = Some scb ->
        handsfree_event_callback E handle
          (WICED_BT_HFP_HF_CLIP_IND_EVT clip_type text) w
          = Fault STR_READ_OUT_OF_BOUNDS).
Proof.
  split.
  - intros Hlong.
    unfold handsfree_event_callback, handsfree_event_switch, str_store,
      array_store, zero_val; run_monad.
    cbn [str]. rewrite repeat_length. fold (strlen text).
    destruct (Nat.leb_spec (0 + strlen text) (HCI_CONTROL_HF_VALUE_STR_SIZE E));
      [lia | reflexivity].
  - intros clip_type scb Hfull Hres Hscb.
    unfold handsfree_event_callback, handsfree_event_switch; run_monad.
    unfold AT in *. rewrite Hres, Hscb.
    unfold hci_control_send_hf_event, hf_event_payload; run_monad.
    cbn [val str].
    rewrite strncpy_full by exact Hfull.
    rewrite array_strlen_c_str_prefix. reflexivity.
Qed.

Lemma oversized_text_overruns_buffer_witness :
  handsfree_event_callback sample_env 1
    (WICED_BT_HFP_HF_CNUM_EVT (repeat 49 33)) sample_world
    = Fault STR_WRITE_OUT_OF_BOUNDS
  /\ handsfree_event_callback sample_env 1
       (WICED_BT_HFP_HF_CLIP_IND_EVT 129 (repeat 49 33)) sample_world
       = Fault STR_READ_OUT_OF_BOUNDS.
Proof.
  destruct (oversized_text_overruns_buffer sample_env 1 (repeat 49 33)
              sample_world) as [Hcnum Hclip].
  split.
  - apply Hcnum. vm_compute. lia.
  - apply (Hclip 129 sample_scb).
    + vm_compute. lia.
    + reflexivity.
    + reflexivity.
Defined.

(** * Further properties of the code *)

(** ** Reasoning about completed runs *)

#[global] Instance grows_preorder (P : call -> Prop) : PreOrder (grows P).
Proof.
  split.
  - intros w. exists []. split; [symmetry; apply app_nil_r | constructor].
  - intros w1 w2 w3 (l1 & H1 & F1) (l2 & H2 & F2).
    exists (l1 ++ l2). split.
    + rewrite H2, H1, app_assoc. reflexivity.
    + apply Forall_app. split; assumption.
Qed.

#[global] Instance same_globals_preorder : PreOrder same_globals.
Proof.
  split.
  - intros w. repeat split.
  - unfold same_globals.
    intros w1 w2 w3 (A1 & A2 & A3 & A4 & A5 & A6) (B1 & B2 & B3 & B4 & B5 & B6).
    repeat split; congruence.
Qed.

#[global] Instance both_preorder (R1 R2 : world -> world -> Prop)
    `{PreOrder world R1} `{PreOrder world R2} : PreOrder (both R1 R2).
Proof.
  split.
  - intros w. split; reflexivity.
  - intros w1 w2 w3 [A1 A2] [B1 B2]. split; etransitivity; eassumption.
Qed.

Lemma grows_weaken (P Q : call -> Prop) (w w' : world) :
  (forall c, P c -> Q c) -> grows P w w' -> grows Q w w'.
Proof.
  intros HPQ (l & H & F). exists l. split; [exact H |].
  eapply Forall_impl; [exact HPQ | exact F].
Qed.

Lemma sat_ret {A} (R : world -> world -> Prop) `{PreOrder world R} (a : A) :
  sat (ret a) R.
Proof. intros w a' w' E. inversion E. reflexivity. Qed.

Lemma sat_fail {A} (R : world -> world -> Prop) (f : fault) : sat (@fail A f) R.
Proof. intros w a w' E. discriminate E. Qed.

Lemma sat_gets {A} (R : world -> world -> Prop) `{PreOrder world R}
    (f : world -> A) : sat (gets f) R.
Proof. intros w a w' E. inversion E. reflexivity. Qed.

Lemma sat_deref {A} (R : world -> world -> Prop) `{PreOrder world R}
    (p : option A) : sat (deref p) R.
Proof. destruct p; [apply sat_ret; assumption | apply sat_fail]. Qed.

Lemma sat_bind {A B} (R : world -> world -> Prop) `{PreOrder world R}
    (m : M A) (k : A -> M B) :
  sat m R -> (forall a, sat (k a) R) -> sat (bind m k) R.
Proof.
  intros Hm Hk w b w' E. unfold bind in E.
  destruct (m w) as [[a w1] | f] eqn:Em; [| discriminate E].
  etransitivity; [eapply Hm; exact Em | eapply Hk; exact E].
Qed.

Lemma sat_when (R : world -> world -> Prop) `{PreOrder world R}
    (b : bool) (m : M unit) : sat m R -> sat (when b m) R.
Proof. intros Hm. destruct b; [exact Hm | apply sat_ret; assumption]. Qed.

Lemma sat_modify (R : world -> world -> Prop) (f : world -> world) :
  (forall w, R w (f w)) -> sat (modify f) R.
Proof. intros Hf w a w' E. inversion E. apply Hf. Qed.

Lemma sat_trace (R : world -> world -> Prop) (s : string) :
  (forall w, R w (add_log s w)) -> sat (WICED_BT_TRACE s) R.
Proof. intros Hf. apply sat_modify. exact Hf. Qed.

Lemma sat_emit (R : world -> world -> Prop) (c : call) :
  (forall w, R w (add_call c w)) -> sat (emit c) R.
Proof. intros Hf. apply sat_modify. exact Hf. Qed.

Lemma sat_both {A} (R1 R2 : world -> world -> Prop) (m : M A) :
  sat m R1 -> sat m R2 -> sat m (both R1 R2).
Proof. intros H1 H2 w a w' E. split; [eapply H1 | eapply H2]; exact E. Qed.

Lemma sat_weaken {A} (R1 R2 : world -> world -> Prop) (m : M A) :
  (forall w w', R1 w w' -> R2 w w') -> sat m R1 -> sat m R2.
Proof. intros HR Hm w a w' E. apply HR. eapply Hm. exact E. Qed.

(** Updates of the globals leave the history as it is. *)
Lemma grows_quiet (P : call -> Prop) (w w' : world) :
  calls w' = calls w -> grows P w w'.
Proof.
  intros E. exists []. split; [rewrite E; symmetry; apply app_nil_r | constructor].
Qed.

Lemma grows_add_call (P : call -> Prop) (c : call) (w : world) :
  P c -> grows P w (add_call c w).
Proof. intros Hc. exists [c]. split; [reflexivity | repeat constructor; exact Hc]. Qed.

(** Decomposition of a completed run, step by step. *)
Ltac sat_step leaf :=
  match goal with
  | |- sat (bind _ _) _ => apply sat_bind; [typeclasses eauto | | intros ?]
  | |- sat (ret _) _ => apply sat_ret; typeclasses eauto
  | |- sat (gets _) _ => apply sat_gets; typeclasses eauto
  | |- sat (deref _) _ => apply sat_deref; typeclasses eauto
  | |- sat (fail _) _ => apply sat_fail
  | |- sat (when _ _) _ => apply sat_when; [typeclasses eauto |]
  | |- sat (modify _) _ => apply sat_modify; intros ?; leaf
  | |- sat (WICED_BT_TRACE _) _ => apply sat_trace; intros ?; leaf
  | |- sat (emit _) _ => apply sat_emit; intros ?; leaf
  | |- sat (let _ := _ in _) _ => cbv zeta
  | |- sat (if ?b then _ else _) _ => destruct b eqn:?
  | |- sat (match ?x with _ => _ end) _ => destruct x eqn:?
  end.

Ltac sat_run leaf := repeat (sat_step leaf).

(** ** The wire format read back *)

Lemma le16_bytes (x : Z) : le16 (uint8 x) (uint8 (Z.shiftr x 8)) = uint16 x.
Proof.
  unfold le16, uint8, uint16.
  rewrite Z.shiftr_div_pow2 by lia.
  change (2 ^ 16) with (2 ^ 8 * 2 ^ 8).
  rewrite Z.rem_mul_r by lia. reflexivity.
Qed.

Lemma uint16_idem (x : Z) : uint16 (uint16 x) = uint16 x.
Proof. unfold uint16. apply Z.mod_mod. lia. Qed.

Lemma c_str_idem (l : list Z) : c_str (c_str l) = c_str l.
Proof.
  induction l as [| c l IH]; cbn; [reflexivity |].
  destruct (c =? 0) eqn:Hc; cbn; [reflexivity |].
  rewrite Hc, IH. reflexivity.
Qed.

Lemma array_strlen_bound (buf : list Z) (n : nat) :
  array_strlen buf = Some n -> (n < List.length buf)%nat.
Proof.
  revert n. induction buf as [| c buf IH]; intros n H; cbn in H.
  - discriminate H.
  - destruct (c =? 0).
    + inversion H. cbn. lia.
    + destruct (array_strlen buf) as [m |]; [| discriminate H].
      inversion H. specialize (IH m eq_refl). cbn. lia.
Qed.

Lemma array_strlen_firstn (buf : list Z) (n : nat) :
  array_strlen buf = Some n ->
  c_str buf = firstn n buf /\ array_strlen (firstn n buf ++ [0]) = Some n.
Proof.
  revert n. induction buf as [| c buf IH]; intros n H; cbn in H.
  - discriminate H.
  - cbn [c_str]. destruct (c =? 0) eqn:Hc.
    + inversion H. split; reflexivity.
    + destruct (array_strlen buf) as [m |]; [| discriminate H].
      inversion H. destruct (IH m eq_refl) as [IH1 IH2].
      cbn. rewrite Hc, IH1, IH2. split; reflexivity.
Qed.

Lemma decode_sent_at_frame (handle num : Z) (text : list Z) :
  host_decode_at_frame
    (handle_bytes handle ++ [uint8 num; uint8 (Z.shiftr num 8)]
       ++ c_str text ++ [0])
  = Some (uint16 handle, uint16 num, c_str text).
Proof.
  unfold handle_bytes. cbn [app host_decode_at_frame].
  rewrite array_strlen_app, firstn_strlen_app, c_str_idem.
  rewrite !le16_bytes, uint16_idem. reflexivity.
Qed.

(** X2. The serialiser and the wire format agree on AT responses: when
    the text in [str] is terminated within the array and has at most 295
    characters, the event is sent as one frame that the host decodes to
    the handle (mod 2^16), the number (mod 2^16) and exactly the
    characters before the terminator. *)
Theorem at_frame_round_trip (sub : hci_control_hf_at_event) (handle : Z)
    (d : hci_control_hf_event_t) (n : nat) (w : world) :
  array_strlen (str (val d)) = Some n ->
  (n <= 295)%nat ->
  exists frame,
    hci_control_send_hf_event (HCI_CONTROL_HF_AT_EVENT sub) handle (Some d) w
    = Ok (tt,
          add_call (wiced_transport_send_data (HCI_CONTROL_HF_AT_EVENT sub) frame)
            (add_log "[%u]hci_control_send_hf_event: Sending Event: %u  to UART" w))
    /\ host_decode_at_frame frame
       = Some (uint16 handle, uint16 (num (val d)), c_str (str (val d))).
Proof.
  intros Hlen Hn.
  eexists. split.
  - apply send_at_event_run; eassumption.
  - destruct (array_strlen_firstn _ _ Hlen) as [Hc _].
    rewrite <- Hc. apply decode_sent_at_frame.
Qed.

Lemma at_frame_round_trip_witness :
  exists frame,
    hci_control_send_hf_event
      (HCI_CONTROL_HF_AT_EVENT HCI_CONTROL_HF_AT_EVENT_CLIP) 0x10001
      (Some (val_event {| num := 129; str := [49; 50; 51; 0; 7; 7] |}))
      sample_world
    = Ok (tt,
          add_call
            (wiced_transport_send_data
               (HCI_CONTROL_HF_AT_EVENT HCI_CONTROL_HF_AT_EVENT_CLIP) frame)
            (add_log "[%u]hci_control_send_hf_event: Sending Event: %u  to UART"
               sample_world))
    /\ host_decode_at_frame frame = Some (1, 129, [49; 50; 51]).
Proof.
  apply (at_frame_round_trip HCI_CONTROL_HF_AT_EVENT_CLIP 0x10001
           (val_event {| num := 129; str := [49; 50; 51; 0; 7; 7] |}) 3
           sample_world).
  - reflexivity.
  - lia.
Defined.

(** The serialiser has no bound of its own on the text: a text in [str]
    that is terminated after more than 295 characters does not fit the
    300-byte [tx_buf] behind the handle and the number. *)
Lemma send_at_event_overrun (sub : hci_control_hf_at_event)
    (handle : Z) (d : hci_control_hf_event_t) (n : nat) (w : world) :
  array_strlen (str (val d)) = Some n ->
  (295 < n)%nat ->
  hci_control_send_hf_event (HCI_CONTROL_HF_AT_EVENT sub) handle (Some d) w
  = Fault TX_BUF_OUT_OF_BOUNDS.
Proof.
  intros Hlen Hn.
  unfold hci_control_send_hf_event, hf_event_payload; run_monad.
  rewrite Hlen.
  pose proof (array_strlen_bound _ _ Hlen) as Hb.
  destruct (Nat.leb_spec
              (List.length
                 ([uint8 (uint16 handle); uint8 (Z.shiftr (uint16 handle) 8)]
                    ++ [uint8 (num (val d)); uint8 (Z.shiftr (num (val d)) 8)]
                    ++ firstn n (str (val d)) ++ [0]))
              TX_BUF_SIZE) as [Hfit | _].
  - exfalso. rewrite !length_app, firstn_length_le in Hfit by lia.
    cbn [List.length] in Hfit. unfold TX_BUF_SIZE in Hfit. lia.
  - reflexivity.
Qed.

(** X4. The Link-opened event of a signaling-connected notification
    carries the handle of the control block, the six bytes of the remote
    address in reverse order and status 0: the host, undoing the reversal,
    reads back the address of the notification. *)
Theorem link_opened_frame_round_trip (E : hf_env) (handle : Z)
    (addr : wiced_bt_device_address_t) (profile : Z) (w : world)
    (scb : wiced_bt_hfp_hf_scb_t) :
  List.length addr = BD_ADDR_LEN ->
  wiced_bt_hfp_hf_get_scb_by_bd_addr E addr = Some scb ->
  exists w' frame rest,
    handsfree_event_callback E handle
      (WICED_BT_HFP_HF_CONNECTION_STATE_EVT
         WICED_BT_HFP_HF_STATE_CONNECTED addr profile) w = Ok (tt, w')
    /\ calls w' = calls w
         ++ wiced_transport_send_data HCI_CONTROL_HF_EVENT_OPEN frame :: rest
    /\ host_decode_open_frame frame
       = Some (uint16 (rfcomm_handle scb), addr, 0).
Proof.
  intros Hlen Hscb.
  destruct (connected_run E handle addr profile w scb Hscb)
    as (w' & Hrun & Hcalls & _).
  do 3 eexists. split; [exact Hrun |]. split; [exact Hcalls |].
  destruct addr as [| a0 [| a1 [| a2 [| a3 [| a4 [| a5 [| ? ?]]]]]]];
    try discriminate Hlen.
  cbn. rewrite le16_bytes, uint16_idem. reflexivity.
Qed.

Lemma link_opened_frame_round_trip_witness :
  exists w' frame rest,
    handsfree_event_callback sample_env 1
      (WICED_BT_HFP_HF_CONNECTION_STATE_EVT
         WICED_BT_HFP_HF_STATE_CONNECTED sample_bd_addr 1) sample_world
      = Ok (tt, w')
    /\ calls w' = calls sample_world
         ++ wiced_transport_send_data HCI_CONTROL_HF_EVENT_OPEN frame :: rest
    /\ host_decode_open_frame frame
       = Some (uint16 (rfcomm_handle sample_scb), sample_bd_addr, 0).
Proof.
  apply (link_opened_frame_round_trip sample_env 1 sample_bd_addr 1
           sample_world sample_scb).
  - reflexivity.
  - reflexivity.
Defined.

(** ** Passthrough text within the buffer *)

Lemma firstn_repeat_le (x : Z) (n m : nat) :
  (n <= m)%nat -> firstn n (repeat x m) = repeat x n.
Proof.
  revert m. induction n as [| n IH]; intros m H; [reflexivity |].
  destruct m as [| m]; [lia |]. cbn. rewrite IH by lia. reflexivity.
Qed.

Lemma skipn_repeat_le (x : Z) (n m : nat) :
  skipn n (repeat x m) = repeat x (m - n).
Proof.
  revert m. induction n as [| n IH]; intros m.
  - rewrite Nat.sub_0_r. reflexivity.
  - destruct m as [| m]; [reflexivity |]. cbn. apply IH.
Qed.

Lemma strncpy_short (n : nat) (src : list Z) :
  (strlen src < n)%nat ->
  strncpy n src = c_str src ++ 0 :: repeat 0 (n - strlen src - 1).
Proof.
  intros H. unfold strncpy, strlen in *.
  rewrite firstn_app.
  rewrite firstn_all2 by lia.
  rewrite firstn_repeat_le by lia.
  remember (n - List.length (c_str src))%nat as k eqn:Hk.
  destruct k as [| k]; [lia |].
  cbn. rewrite Nat.sub_0_r. reflexivity.
Qed.

Lemma memcpy_short (n : nat) (src : list Z) :
  (strlen src < n)%nat ->
  array_store 0 (c_str src) (repeat 0 n)
  = Some (c_str src ++ 0 :: repeat 0 (n - strlen src - 1)).
Proof.
  intros H. unfold array_store, strlen in *.
  rewrite repeat_length.
  destruct (Nat.leb_spec (0 + List.length (c_str src)) n) as [_ | Hbig]; [| lia].
  cbn [firstn app Nat.add].
  rewrite skipn_repeat_le.
  remember (n - List.length (c_str src))%nat as k eqn:Hk.
  destruct k as [| k]; [lia |].
  cbn. rewrite Nat.sub_0_r. reflexivity.
Qed.

Lemma passthrough_send (sub : hci_control_hf_at_event) (handle num0 : Z)
    (text pad : list Z) (cn : hci_control_hf_connect_t) (w : world) :
  (strlen text <= 295)%nat ->
  exists frame,
    hci_control_send_hf_event (HCI_CONTROL_HF_AT_EVENT sub) handle
      (Some {| open := zero_open; conn := cn;
               val := {| num := num0; str := c_str text ++ 0 :: pad |} |}) w
    = Ok (tt,
          add_call (wiced_transport_send_data (HCI_CONTROL_HF_AT_EVENT sub) frame)
            (add_log "[%u]hci_control_send_hf_event: Sending Event: %u  to UART" w))
    /\ host_decode_at_frame frame = Some (uint16 handle, uint16 num0, c_str text).
Proof.
  intros Hlen.
  eexists. split.
  - apply (send_at_event_run sub handle _ (strlen (c_str text))).
    + cbn [val str]. apply array_strlen_app.
    + unfold strlen in *. rewrite c_str_idem. exact Hlen.
  - cbn [val str num].
    rewrite firstn_strlen_app, c_str_idem.
    apply decode_sent_at_frame.
Qed.


(** X5. A caller-ID, BINP or subscriber-number text that is shorter than
    [p_val.val.str] (and has at most 295 characters) reaches the host
    verbatim: the notification produces exactly one AT frame, which decodes
    to the handle of the control block, the type of the number (0 for a
    subscriber number) and the characters of the text. *)
Theorem passthrough_text_arrives_verbatim (E : hf_env) (handle num_type : Z)
    (text : list Z) (w : world) (scb : wiced_bt_hfp_hf_scb_t) :
  (strlen text < HCI_CONTROL_HF_VALUE_STR_SIZE E)%nat ->
  (strlen text <= 295)%nat ->
  wiced_bt_hfp_hf_get_scb_by_handle E handle = Some scb ->
  (res_in_range E (AT HCI_CONTROL_HF_AT_EVENT_CLIP) = true ->
   exists w' frame,
     handsfree_event_callback E handle
       (WICED_BT_HFP_HF_CLIP_IND_EVT num_type text) w = Ok (tt, w')
     /\ calls w' = calls w
          ++ [wiced_transport_send_data
                (HCI_CONTROL_HF_AT_EVENT HCI_CONTROL_HF_AT_EVENT_CLIP) frame]
     /\ host_decode_at_frame frame
        = Some (uint16 (rfcomm_handle scb), uint16 num_type, c_str text))
  /\ (res_in_range E (AT HCI_CONTROL_HF_AT_EVENT_BINP) = true ->
      exists w' frame,
        handsfree_event_callback E handle
          (WICED_BT_HFP_HF_BINP_EVT num_type text) w = Ok (tt, w')
        /\ calls w' = calls w
             ++ [wiced_transport_send_data
                   (HCI_CONTROL_HF_AT_EVENT HCI_CONTROL_HF_AT_EVENT_BINP) frame]
        /\ host_decode_at_frame frame
           = Some (uint16 (rfcomm_handle scb), uint16 num_type, c_str text))
  /\ (res_in_range E (AT HCI_CONTROL_HF_AT_EVENT_CNUM) = true ->
      exists w' frame,
        handsfree_event_callback E handle
          (WICED_BT_HFP_HF_CNUM_EVT text) w = Ok (tt, w')
        /\ calls w' = calls w
             ++ [wiced_transport_send_data
                   (HCI_CONTROL_HF_AT_EVENT HCI_CONTROL_HF_AT_EVENT_CNUM) frame]
        /\ host_decode_at_frame frame
           = Some (uint16 (rfcomm_handle scb), 0, c_str text)).
Proof.
  intros Hcap Hlen Hscb.
  split; [| split]; intros Hres.
  - unfold handsfree_event_callback, handsfree_event_switch; run_monad.
    unfold AT in *. rewrite Hres, Hscb.
    rewrite strncpy_short by exact Hcap.
    destruct (passthrough_send HCI_CONTROL_HF_AT_EVENT_CLIP (rfcomm_handle scb)
                (uint16 num_type) text
                (repeat 0 (HCI_CONTROL_HF_VALUE_STR_SIZE E - strlen text - 1))
                {| peer_features := 0; profile_selected := 0 |}
                (add_log "%s: CLIP - number %s, type %d" w) Hlen)
      as (frame & Hsend & Hdec).
    rewrite Hsend. do 2 eexists. split; [reflexivity |].
    split; [reflexivity |].
    rewrite Hdec, uint16_idem. reflexivity.
  - unfold handsfree_event_callback, handsfree_event_switch; run_monad.
    unfold AT in *. rewrite Hres, Hscb.
    rewrite strncpy_short by exact Hcap.
    destruct (passthrough_send HCI_CONTROL_HF_AT_EVENT_BINP (rfcomm_handle scb)
                (uint16 num_type) text
                (repeat 0 (HCI_CONTROL_HF_VALUE_STR_SIZE E - strlen text - 1))
                {| peer_features := 0; profile_selected := 0 |}
                (add_log "%s: BINP - number %s, type %d" w) Hlen)
      as (frame & Hsend & Hdec).
    rewrite Hsend. do 2 eexists. split; [reflexivity |].
    split; [reflexivity |].
    rewrite Hdec, uint16_idem. reflexivity.
  - unfold handsfree_event_callback, handsfree_event_switch, str_store,
      zero_val; run_monad.
    cbn [str num].
    rewrite memcpy_short by exact Hcap.
    unfold AT in *. rewrite Hres, Hscb.
    destruct (passthrough_send HCI_CONTROL_HF_AT_EVENT_CNUM (rfcomm_handle scb)
                0 text
                (repeat 0 (HCI_CONTROL_HF_VALUE_STR_SIZE E - strlen text - 1))
                {| peer_features := 0; profile_selected := 0 |} w Hlen)
      as (frame & Hsend & Hdec).
    rewrite Hsend. do 2 eexists. split; [reflexivity |].
    split; [reflexivity |].
    exact Hdec.
Qed.

Lemma passthrough_text_arrives_verbatim_witness :
  exists w' frame,
    handsfree_event_callback sample_env 1
      (WICED_BT_HFP_HF_CLIP_IND_EVT 129 [49; 50; 51]) sample_world = Ok (tt, w')
    /\ calls w' = calls sample_world
         ++ [wiced_transport_send_data
               (HCI_CONTROL_HF_AT_EVENT HCI_CONTROL_HF_AT_EVENT_CLIP) frame]
    /\ host_decode_at_frame frame
       = Some (uint16 (rfcomm_handle sample_scb), uint16 129, c_str [49; 50; 51]).
Proof.
  apply (passthrough_text_arrives_verbatim sample_env 1 129 [49; 50; 51]
           sample_world sample_scb); try reflexivity.
  - vm_compute. lia.
  - vm_compute. lia.
Defined.

(** X3. The size of [p_val.val.str] is the only bound on a passed-through
    text: in a build in which [str] holds more than 296 characters, a
    caller-ID, BINP or subscriber-number text of more than 295 characters
    that fits [str] is stored there within bounds, and the serialiser's
    copy then goes past the end of the 300-byte [tx_buf].  The run ends at
    that store. *)
Theorem passthrough_text_overruns_tx_buffer (E : hf_env) (handle num_type : Z)
    (text : list Z) (w : world) (scb : wiced_bt_hfp_hf_scb_t) :
  (295 < strlen text)%nat ->
  (strlen text < HCI_CONTROL_HF_VALUE_STR_SIZE E)%nat ->
  wiced_bt_hfp_hf_get_scb_by_handle E handle = Some scb ->
  (res_in_range E (AT HCI_CONTROL_HF_AT_EVENT_CLIP) = true ->
   handsfree_event_callback E handle
     (WICED_BT_HFP_HF_CLIP_IND_EVT num_type text) w
   = Fault TX_BUF_OUT_OF_BOUNDS)
  /\ (res_in_range E (AT HCI_CONTROL_HF_AT_EVENT_BINP) = true ->
      handsfree_event_callback E handle
        (WICED_BT_HFP_HF_BINP_EVT num_type text) w
      = Fault TX_BUF_OUT_OF_BOUNDS)
  /\ (res_in_range E (AT HCI_CONTROL_HF_AT_EVENT_CNUM) = true ->
      handsfree_event_callback E handle (WICED_BT_HFP_HF_CNUM_EVT text) w
      = Fault TX_BUF_OUT_OF_BOUNDS).
Proof.
  intros Hlong Hcap Hscb.
  assert (Hstr : forall pad,
             array_strlen (c_str text ++ 0 :: pad) = Some (strlen (c_str text)))
    by (intros pad; apply array_strlen_app).
  assert (Hlong' : (295 < strlen (c_str text))%nat)
    by (unfold strlen in *; rewrite c_str_idem; exact Hlong).
  split; [| split]; intros Hres.
  - unfold handsfree_event_callback, handsfree_event_switch; run_monad.
    unfold AT in *. rewrite Hres, Hscb.
    rewrite strncpy_short by exact Hcap.
    rewrite (send_at_event_overrun _ _ _ (strlen (c_str text)));
      [reflexivity | apply Hstr | exact Hlong'].
  - unfold handsfree_event_callback, handsfree_event_switch; run_monad.
    unfold AT in *. rewrite Hres, Hscb.
    rewrite strncpy_short by exact Hcap.
    rewrite (send_at_event_overrun _ _ _ (strlen (c_str text)));
      [reflexivity | apply Hstr | exact Hlong'].
  - unfold handsfree_event_callback, handsfree_event_switch, str_store,
      zero_val; run_monad.
    cbn [str num].
    rewrite memcpy_short by exact Hcap.
    unfold AT in *. rewrite Hres, Hscb.
    rewrite (send_at_event_overrun _ _ _ (strlen (c_str text)));
      [reflexivity | apply Hstr | exact Hlong'].
Qed.

Lemma passthrough_text_overruns_tx_buffer_witness :
  handsfree_event_callback sample_env_wide 1
    (WICED_BT_HFP_HF_CLIP_IND_EVT 129 (repeat 49 296)) sample_world
  = Fault TX_BUF_OUT_OF_BOUNDS.
Proof.
  apply (passthrough_text_overruns_tx_buffer sample_env_wide 1 129
           (repeat 49 296) sample_world sample_scb); try reflexivity.
  - vm_compute. lia.
  - vm_compute. lia.
Defined.


(** ** Call-list entries *)

Lemma str_store_append_run (off : nat) (pre data : list Z) (k : nat) (num0 : Z)
    (w : world) :
  off = List.length pre ->
  (List.length data <= k)%nat ->
  str_store off data {| num := num0; str := pre ++ repeat 0 k |} w
  = Ok ({| num := num0;
           str := (pre ++ data) ++ repeat 0 (k - List.length data) |}, w).
Proof.
  intros Hoff Hfit. unfold str_store, array_store. cbn [str num].
  rewrite length_app, repeat_length.
  destruct (Nat.leb_spec (off + List.length data) (List.length pre + k))
    as [_ | Hbig]; [| lia].
  subst off.
  rewrite firstn_app, Nat.sub_diag, firstn_all. cbn [firstn].
  rewrite app_nil_r.
  rewrite skipn_app, skipn_all2 by lia. cbn [app].
  replace (List.length pre + List.length data - List.length pre)%nat
    with (List.length data) by lia.
  rewrite skipn_repeat_le, <- app_assoc. reflexivity.
Qed.

Lemma str_store_ok (off : nat) (data : list Z) (v v' : hci_control_hf_value_t)
    (w w' : world) :
  str_store off data v w = Ok (v', w') ->
  List.length (str v') = List.length (str v)
  /\ (off + List.length data <= List.length (str v))%nat.
Proof.
  unfold str_store, array_store.
  destruct (Nat.leb_spec (off + List.length data) (List.length (str v)))
    as [Hfit | Hbig]; intros H; [| discriminate H].
  inversion H. cbn [str]. split; [| exact Hfit].
  rewrite !length_app, length_firstn, length_skipn. lia.
Qed.

Lemma str_store_fault (off : nat) (data : list Z) (v : hci_control_hf_value_t)
    (w : world) (f : fault) :
  str_store off data v w = Fault f -> f = STR_WRITE_OUT_OF_BOUNDS.
Proof.
  unfold str_store. destruct (array_store off data (str v)); intros H.
  - discriminate H.
  - inversion H. reflexivity.
Qed.


Ltac store_step :=
  erewrite str_store_append_run;
  [ cbv beta iota
  | rewrite ?length_app; cbn [List.length]; lia
  | rewrite ?length_app; cbn [List.length]; lia ].

Lemma send_text_buffer (sub : hci_control_hf_at_event) (handle num0 : Z)
    (text pad : list Z) (w : world) :
  (List.length text <= 295)%nat ->
  exists frame,
    hci_control_send_hf_event (HCI_CONTROL_HF_AT_EVENT sub) handle
      (Some (val_event {| num := num0; str := (text ++ [0]) ++ pad |})) w
    = Ok (tt,
          add_call (wiced_transport_send_data (HCI_CONTROL_HF_AT_EVENT sub) frame)
            (add_log "[%u]hci_control_send_hf_event: Sending Event: %u  to UART" w))
    /\ host_decode_at_frame frame = Some (uint16 handle, uint16 num0, c_str text).
Proof.
  intros Hlen. rewrite <- app_assoc. cbn [app].
  pose proof (c_str_length text) as Hc.
  eexists. split.
  - apply (send_at_event_run sub handle _ (strlen text)).
    + cbn [val val_event str]. apply array_strlen_app.
    + unfold strlen. lia.
  - cbn [val val_event str num].
    rewrite firstn_strlen_app. apply decode_sent_at_frame.
Qed.

Lemma send_clcc_run (E : hf_env) (handle : Z)
    (ac : wiced_bt_hfp_hf_active_call_t) (w : world)
    (scb : wiced_bt_hfp_hf_scb_t) :
  wiced_bt_hfp_hf_get_scb_by_handle E handle = Some scb ->
  (clcc_stored E ac <= HCI_CONTROL_HF_VALUE_STR_SIZE E)%nat ->
  (clcc_stored E ac <= 296)%nat ->
  exists v frame,
    handsfree_send_clcc_evt E handle ac (zero_val E) w
    = Ok (v,
          add_call
            (wiced_transport_send_data
               (HCI_CONTROL_HF_AT_EVENT HCI_CONTROL_HF_AT_EVENT_CLCC) frame)
            (add_log "[%u]hci_control_send_hf_event: Sending Event: %u  to UART" w))
    /\ host_decode_at_frame frame
       = Some (uint16 (rfcomm_handle scb), 0, c_str (clcc_text E ac)).
Proof.
  intros Hscb Hcap Htx.
  unfold clcc_stored, clcc_text in *.
  unfold handsfree_send_clcc_evt, zero_val.
  change (repeat 0 (HCI_CONTROL_HF_VALUE_STR_SIZE E))
    with ([] ++ repeat 0 (HCI_CONTROL_HF_VALUE_STR_SIZE E)).
  rewrite Hscb.
  rewrite length_app in Hcap, Htx. cbn [List.length] in Hcap, Htx.
  unfold bind at 1 2 3 4 5 6 7 8 9.
  do 9 store_step.
  destruct (ac_type ac =? 0).
  - cbn [List.length] in Hcap, Htx.
    unfold bind at 1. unfold ret at 1. cbn [fst snd].
    unfold bind at 1. store_step.
    unfold bind, deref, ret.
    match goal with
    | |- context [hci_control_send_hf_event ?evt ?h
                    (Some (val_event {| num := ?n; str := (?t ++ [0]) ++ ?p |})) ?w0] =>
        destruct (send_text_buffer HCI_CONTROL_HF_AT_EVENT_CLCC h n t p w0)
          as (frame & Hsend & Hdec);
        [rewrite ?length_app; cbn [List.length]; lia |]
    end.
    rewrite Hsend. do 2 eexists. split; [reflexivity |].
    rewrite Hdec. rewrite app_nil_r. reflexivity.
  - cbn [List.length] in Hcap, Htx. rewrite length_app in Hcap, Htx.
    cbn [List.length] in Hcap, Htx.
    unfold bind at 1. unfold bind at 1. store_step.
    unfold bind at 1. store_step.
    unfold bind at 1. store_step.
    unfold bind at 1. store_step.
    unfold ret at 1. cbn [fst snd].
    unfold bind at 1. store_step.
    unfold bind, deref, ret.
    match goal with
    | |- context [hci_control_send_hf_event ?evt ?h
                    (Some (val_event {| num := ?n; str := (?t ++ [0]) ++ ?p |})) ?w0] =>
        destruct (send_text_buffer HCI_CONTROL_HF_AT_EVENT_CLCC h n t p w0)
          as (frame & Hsend & Hdec);
        [rewrite ?length_app; cbn [List.length]; lia |]
    end.
    rewrite Hsend. do 2 eexists. split; [reflexivity |].
    rewrite Hdec. rewrite <- !app_assoc. reflexivity.
Qed.

Ltac store_case :=
  match goal with
  | |- context [str_store ?o ?d ?v ?w0] =>
      let Hs := fresh "Hs" in
      destruct (str_store o d v w0) as [[? ?] | ?] eqn:Hs;
      [ apply str_store_ok in Hs; destruct Hs as [? ?]; cbv beta iota
      | apply str_store_fault in Hs; subst; reflexivity ]
  end.

Lemma send_clcc_overrun (E : hf_env) (handle : Z)
    (ac : wiced_bt_hfp_hf_active_call_t) (p_val : hci_control_hf_value_t)
    (w : world) :
  (List.length (str p_val) < clcc_stored E ac)%nat ->
  handsfree_send_clcc_evt E handle ac p_val w = Fault STR_WRITE_OUT_OF_BOUNDS.
Proof.
  intros Hcap.
  unfold clcc_stored, clcc_text in Hcap.
  rewrite length_app in Hcap.
  unfold handsfree_send_clcc_evt.
  destruct (ac_type ac =? 0); cbv [bind ret]; cbn [fst snd].
  - repeat store_case.
    exfalso. cbn [List.length] in *. lia.
  - cbn [List.length] in Hcap. rewrite length_app in Hcap.
    cbn [List.length] in Hcap.
    repeat (store_case; cbn [fst snd]).
    exfalso. cbn [List.length] in *. lia.
Qed.

(** X6. A call-list entry whose text and terminator fit [p_val.val.str]
    is sent as one CLCC frame that decodes to the handle of the control
    block, number 0 and the text
    [<idx>,<dir>,<status>,<mode>,<conference>], followed by
    [,<number>,<type>] exactly when the type of the number is not zero. *)
Theorem call_list_entry_round_trip (E : hf_env) (handle : Z)
    (ac : wiced_bt_hfp_hf_active_call_t) (w : world)
    (scb : wiced_bt_hfp_hf_scb_t) :
  wiced_bt_hfp_hf_get_scb_by_handle E handle = Some scb ->
  (clcc_stored E ac <= HCI_CONTROL_HF_VALUE_STR_SIZE E)%nat ->
  (clcc_stored E ac <= 296)%nat ->
  exists w' frame,
    handsfree_event_callback E handle (WICED_BT_HFP_HFP_ACTIVE_CALL_EVT ac) w
    = Ok (tt, w')
    /\ calls w' = calls w
         ++ [wiced_transport_send_data
               (HCI_CONTROL_HF_AT_EVENT HCI_CONTROL_HF_AT_EVENT_CLCC) frame]
    /\ host_decode_at_frame frame
       = Some (uint16 (rfcomm_handle scb), 0, c_str (clcc_text E ac)).
Proof.
  intros Hscb Hcap Htx.
  destruct (send_clcc_run E handle ac w scb Hscb Hcap Htx)
    as (v & frame & Hsend & Hdec).
  unfold handsfree_event_callback, handsfree_event_switch.
  unfold bind at 1 2. rewrite Hsend.
  exists (add_call
            (wiced_transport_send_data
               (HCI_CONTROL_HF_AT_EVENT HCI_CONTROL_HF_AT_EVENT_CLCC) frame)
            (add_log "[%u]hci_control_send_hf_event: Sending Event: %u  to UART" w)),
    frame.
  repeat split. exact Hdec.
Qed.

Lemma call_list_entry_round_trip_witness :
  exists w' frame,
    handsfree_event_callback sample_env 1
      (WICED_BT_HFP_HFP_ACTIVE_CALL_EVT sample_active_call) sample_world
    = Ok (tt, w')
    /\ calls w' = calls sample_world
         ++ [wiced_transport_send_data
               (HCI_CONTROL_HF_AT_EVENT HCI_CONTROL_HF_AT_EVENT_CLCC) frame]
    /\ host_decode_at_frame frame
       = Some (uint16 (rfcomm_handle sample_scb), 0,
               c_str (clcc_text sample_env sample_active_call)).
Proof.
  apply (call_list_entry_round_trip sample_env 1 sample_active_call
           sample_world sample_scb).
  - reflexivity.
  - vm_compute. lia.
  - vm_compute. lia.
Defined.

(** X7. The call-list entry is written without a bound: when the text
    and its terminator (10 characters without a number,
    [12 + strlen (num) + digits (type)] with one) do not fit
    [p_val.val.str], a store goes past the end of the array.  The run
    ends at that store. *)
Theorem call_list_entry_overruns_buffer (E : hf_env) (handle : Z)
    (ac : wiced_bt_hfp_hf_active_call_t) (w : world) :
  (HCI_CONTROL_HF_VALUE_STR_SIZE E < clcc_stored E ac)%nat ->
  handsfree_event_callback E handle (WICED_BT_HFP_HFP_ACTIVE_CALL_EVT ac) w
  = Fault STR_WRITE_OUT_OF_BOUNDS.
Proof.
  intros Hcap.
  unfold handsfree_event_callback, handsfree_event_switch.
  unfold bind at 1 2.
  rewrite send_clcc_overrun; [reflexivity |].
  unfold zero_val. cbn [str]. rewrite repeat_length. exact Hcap.
Qed.

Lemma call_list_entry_overruns_buffer_witness :
  handsfree_event_callback sample_env 1
    (WICED_BT_HFP_HFP_ACTIVE_CALL_EVT sample_long_active_call) sample_world
  = Fault STR_WRITE_OUT_OF_BOUNDS.
Proof.
  apply (call_list_entry_overruns_buffer sample_env 1 sample_long_active_call
           sample_world).
  vm_compute. lia.
Defined.


(** ** Notifications that are only passed through *)

Ltac split_run H :=
  repeat match type of H with
         | context [match ?x with _ => _ end] =>
             lazymatch x with
             | context [match _ with _ => _ end] => fail
             | _ => destruct x eqn:?; cbv beta iota in H; try discriminate H
             end
         end.

(** X8. A notification that is only passed through (service, signal,
    roaming and battery indicators, RING, OK, ERROR, CME error, caller ID,
    BINP, volume change, call-list entry, subscriber number, BIND, or an
    unhandled one) changes none of the globals (volume reports in
    particular are not stored), issues no stack, timer or audio-manager
    request, and sends at most one outward event. *)
Theorem passthrough_events_keep_state (E : hf_env) (handle : Z)
    (event : wiced_bt_hfp_hf_event_t) (w w' : world) :
  is_passthrough event = true ->
  handsfree_event_callback E handle event w = Ok (tt, w') ->
  same_globals w w'
  /\ exists l,
       calls w' = calls w ++ l
       /\ (List.length l <= 1)%nat
       /\ Forall is_transport l.
Proof.
  intros Hpass Hrun.
  destruct event; try discriminate Hpass; clear Hpass;
    unfold handsfree_event_callback, handsfree_event_switch,
      handsfree_send_ciev_cmd, handsfree_send_clcc_evt, str_store,
      hci_control_send_hf_event, hf_event_payload, AT in Hrun;
    cbv [bind ret gets modify when emit WICED_BT_TRACE fail deref] in Hrun;
    split_run Hrun;
    inversion Hrun; subst w'; clear Hrun;
    (split; [repeat split |]);
    cbn [calls add_call add_log];
    first
      [ exists []; split; [symmetry; apply app_nil_r |];
        split; [cbn; lia | constructor]
      | eexists [_]; split; [reflexivity |];
        split; [cbn; lia | repeat constructor] ].
Qed.

Lemma passthrough_events_keep_state_witness :
  exists w',
    handsfree_event_callback sample_env 1
      (WICED_BT_HFP_HF_VOLUME_CHANGE_EVT 0 9) sample_world = Ok (tt, w')
    /\ same_globals sample_world w'
    /\ exists l,
         calls w' = calls sample_world ++ l
         /\ (List.length l <= 1)%nat
         /\ Forall is_transport l.
Proof.
  eexists. split; [vm_compute; reflexivity |].
  apply (passthrough_events_keep_state sample_env 1
           (WICED_BT_HFP_HF_VOLUME_CHANGE_EVT 0 9) sample_world).
  - reflexivity.
  - vm_compute. reflexivity.
Defined.

(** X9. A volume-change report is forwarded as one AT frame whose opcode
    is VGM when the report is for the microphone and VGS otherwise, and
    which decodes to the handle of the control block, the reported level
    (mod 2^16) and an empty text. *)
Theorem volume_change_forwarded (E : hf_env) (handle volume_type level : Z)
    (w : world) (scb : wiced_bt_hfp_hf_scb_t) :
  let sub := if volume_type =? WICED_BT_HFP_HF_MIC E
             then HCI_CONTROL_HF_AT_EVENT_VGM else HCI_CONTROL_HF_AT_EVENT_VGS in
  wiced_bt_hfp_hf_get_scb_by_handle E handle = Some scb ->
  (0 < HCI_CONTROL_HF_VALUE_STR_SIZE E)%nat ->
  res_in_range E (AT sub) = true ->
  exists w' frame,
    handsfree_event_callback E handle
      (WICED_BT_HFP_HF_VOLUME_CHANGE_EVT volume_type level) w = Ok (tt, w')
    /\ calls w' = calls w
         ++ [wiced_transport_send_data (HCI_CONTROL_HF_AT_EVENT sub) frame]
    /\ host_decode_at_frame frame
       = Some (uint16 (rfcomm_handle scb), uint16 level, []).
Proof.
  intros sub Hscb Hcap Hres. subst sub.
  unfold handsfree_event_callback, handsfree_event_switch, zero_val, set_num;
    run_monad.
  destruct (HCI_CONTROL_HF_VALUE_STR_SIZE E) as [| m]; [lia |].
  cbn [repeat str num].
  destruct (volume_type =? WICED_BT_HFP_HF_MIC E);
    unfold AT in *; rewrite Hres, Hscb;
    match goal with
    | |- context [hci_control_send_hf_event (HCI_CONTROL_HF_AT_EVENT ?s) ?h
                    (Some ?d) ?w0] =>
        destruct (passthrough_send s h (uint16 level) [] (repeat 0 m)
                    {| peer_features := 0; profile_selected := 0 |} w0)
          as (frame & Hsend & Hdec); [cbn; lia |];
        cbn [c_str app] in Hsend; rewrite Hsend
    end;
    (do 2 eexists; split; [reflexivity |]; split; [reflexivity |]);
    rewrite Hdec, uint16_idem; reflexivity.
Qed.

Lemma volume_change_forwarded_witness :
  exists w' frame,
    handsfree_event_callback sample_env 1
      (WICED_BT_HFP_HF_VOLUME_CHANGE_EVT 1 12) sample_world = Ok (tt, w')
    /\ calls w' = calls sample_world
         ++ [wiced_transport_send_data
               (HCI_CONTROL_HF_AT_EVENT HCI_CONTROL_HF_AT_EVENT_VGM) frame]
    /\ host_decode_at_frame frame
       = Some (uint16 (rfcomm_handle sample_scb), uint16 12, []).
Proof.
  apply (volume_change_forwarded sample_env 1 1 12 sample_world sample_scb).
  - reflexivity.
  - simpl. lia.
  - reflexivity.
Defined.


(** ** Voice channel and codec *)

Lemma codec_set_effects (E : hf_env) (handle selected_codec : Z) (w w' : world) :
  handsfree_event_callback E handle
    (WICED_BT_HFP_HFP_CODEC_SET_EVT selected_codec) w = Ok (tt, w') ->
  handsfree_esco_params w' =
    set_use_wbs (selected_codec =? WICED_BT_HFP_HF_MSBC_CODEC E)
      (handsfree_esco_params w)
  /\ handsfree_app_states w' = handsfree_app_states w
  /\ init_sco_conn (handsfree_ctxt_data w') = false
  /\ exists l,
       calls w' = calls w
         ++ (if init_sco_conn (handsfree_ctxt_data w)
             then [wiced_start_timer (SCO_CONNECTION_WAIT_TIMEOUT E)] else [])
         ++ l
       /\ Forall (fun c => ~ is_timer_start c) l.
Proof.
  intros Hrun.
  unfold handsfree_event_callback, handsfree_event_switch,
    codec_set_audio_manager, hci_control_send_hf_event, hf_event_payload,
    AT in Hrun.
  cbv [bind ret gets modify when emit WICED_BT_TRACE fail deref] in Hrun.
  split_run Hrun;
    inversion Hrun; subst w'; clear Hrun;
    (split; [reflexivity |]); (split; [reflexivity |]);
    (split; [first [reflexivity | assumption] |]);
    match goal with
    | H : init_sco_conn _ = ?b |- _ =>
        change (init_sco_conn (handsfree_ctxt_data w) = b) in H; rewrite H
    end;
    cbn [calls add_call add_log upd_esco upd_audio upd_ctxt set_stream_id];
    rewrite <- ?app_assoc; cbn [app];
    first
      [ eexists; split; [reflexivity |];
        repeat (apply Forall_cons; [intros Hc; exact Hc |]); apply Forall_nil
      | exists []; split; [rewrite ?app_nil_r; reflexivity | apply Forall_nil] ].
Qed.

Lemma codec_set_globals (E : hf_env) (handle selected_codec : Z)
    (w : world) (scb : wiced_bt_hfp_hf_scb_t) :
  wiced_bt_hfp_hf_get_scb_by_handle E handle = Some scb ->
  (0 < HCI_CONTROL_HF_VALUE_STR_SIZE E)%nat ->
  exists w' l,
    handsfree_event_callback E handle
      (WICED_BT_HFP_HFP_CODEC_SET_EVT selected_codec) w = Ok (tt, w')
    /\ handsfree_esco_params w' =
         set_use_wbs (selected_codec =? WICED_BT_HFP_HF_MSBC_CODEC E)
           (handsfree_esco_params w)
    /\ handsfree_app_states w' = handsfree_app_states w
    /\ init_sco_conn (handsfree_ctxt_data w') = false
    /\ calls w' = calls w
         ++ (if init_sco_conn (handsfree_ctxt_data w)
             then [wiced_start_timer (SCO_CONNECTION_WAIT_TIMEOUT E)] else [])
         ++ l
    /\ Forall (fun c => ~ is_timer_start c) l.
Proof.
  intros Hscb Hsize.
  destruct (codec_set_run E handle selected_codec w scb Hscb Hsize)
    as (w' & Hrun & _).
  destruct (codec_set_effects E handle selected_codec w w' Hrun)
    as (Hesco & Happ & Hinit & l & Hcalls & Hl).
  exists w', l. repeat split; assumption.
Qed.

Lemma sco_request_run (E : hf_env) (idx : Z) (w : world) :
  exists w',
    hf_sco_management_callback E (BTM_SCO_CONNECTION_REQUEST_EVT idx) w
    = Ok (tt, w')
    /\ same_globals w w'
    /\ calls w' = calls w
         ++ (if wiced_is_timer_in_use E then [wiced_stop_timer] else [])
         ++ (if profile_selected (connect (handsfree_app_states w))
                =? WICED_BT_HFP_PROFILE E
             then [wiced_bt_sco_accept_connection idx HCI_SUCCESS
                     (handsfree_esco_params w)]
             else if WICED_ENABLE_BT_HSP_PROFILE E
             then [wiced_bt_sco_accept_connection idx HCI_SUCCESS
                     (headset_sco_params w)]
             else []).
Proof.
  unfold hf_sco_management_callback; run_monad. cbn.
  destruct (wiced_is_timer_in_use E); cbv beta iota;
    repeat match goal with
    | |- context [handsfree_app_states (add_call ?c ?x)] =>
        change (handsfree_app_states (add_call c x))
          with (handsfree_app_states x)
    | |- context [handsfree_app_states (add_log ?c ?x)] =>
        change (handsfree_app_states (add_log c x))
          with (handsfree_app_states x)
    end;
    destruct (profile_selected (connect (handsfree_app_states w))
                =? WICED_BT_HFP_PROFILE E);
    try destruct (WICED_ENABLE_BT_HSP_PROFILE E);
    (eexists; split; [reflexivity |]; split; [repeat split |]);
    cbn; rewrite <- ?app_assoc, ?app_nil_r; reflexivity.
Qed.

(** X10. The codec selected by the AG reaches the voice channel: after a
    codec-set notification, a connection request on a link whose selected
    profile is HFP is accepted with the eSCO parameter set in which
    [use_wbs] is true exactly when the selected codec is mSBC (the other
    parameters as before), after the race-guard timer has been stopped if
    it was in use. *)
Theorem codec_selection_reaches_accept (E : hf_env)
    (handle selected_codec idx : Z) (w : world) (scb : wiced_bt_hfp_hf_scb_t) :
  wiced_bt_hfp_hf_get_scb_by_handle E handle = Some scb ->
  (0 < HCI_CONTROL_HF_VALUE_STR_SIZE E)%nat ->
  profile_selected (connect (handsfree_app_states w)) = WICED_BT_HFP_PROFILE E ->
  exists w1 w2,
    handsfree_event_callback E handle
      (WICED_BT_HFP_HFP_CODEC_SET_EVT selected_codec) w = Ok (tt, w1)
    /\ hf_sco_management_callback E (BTM_SCO_CONNECTION_REQUEST_EVT idx) w1
       = Ok (tt, w2)
    /\ calls w2 = calls w1
         ++ (if wiced_is_timer_in_use E then [wiced_stop_timer] else [])
         ++ [wiced_bt_sco_accept_connection idx HCI_SUCCESS
               (set_use_wbs (selected_codec =? WICED_BT_HFP_HF_MSBC_CODEC E)
                  (handsfree_esco_params w))].
Proof.
  intros Hscb Hsize Hprof.
  destruct (codec_set_globals E handle selected_codec w scb Hscb Hsize)
    as (w1 & l & Hrun1 & Hesco & Happ & _).
  destruct (sco_request_run E idx w1) as (w2 & Hrun2 & _ & Hcalls).
  exists w1, w2. split; [exact Hrun1 |]. split; [exact Hrun2 |].
  rewrite Hcalls, Happ, Hprof, Z.eqb_refl, Hesco. reflexivity.
Qed.

Lemma codec_selection_reaches_accept_witness :
  exists w1 w2,
    handsfree_event_callback sample_env 1
      (WICED_BT_HFP_HFP_CODEC_SET_EVT 1)
      (upd_app (set_profile_selected 1) sample_world) = Ok (tt, w1)
    /\ hf_sco_management_callback sample_env
         (BTM_SCO_CONNECTION_REQUEST_EVT 5) w1 = Ok (tt, w2)
    /\ calls w2 = calls w1
         ++ (if wiced_is_timer_in_use sample_env then [wiced_stop_timer] else [])
         ++ [wiced_bt_sco_accept_connection 5 HCI_SUCCESS
               (set_use_wbs (1 =? WICED_BT_HFP_HF_MSBC_CODEC sample_env)
                  (handsfree_esco_params
                     (upd_app (set_profile_selected 1) sample_world)))].
Proof.
  apply (codec_selection_reaches_accept sample_env 1 1 5
           (upd_app (set_profile_selected 1) sample_world) sample_scb).
  - reflexivity.
  - simpl. lia.
  - reflexivity.
Defined.

(** ** Composition of the handlers *)

Lemma connected_effects (E : hf_env) (handle : Z)
    (addr : wiced_bt_device_address_t) (profile : Z) (w w' : world) :
  handsfree_event_callback E handle
    (WICED_BT_HFP_HF_CONNECTION_STATE_EVT
       WICED_BT_HFP_HF_STATE_CONNECTED addr profile) w = Ok (tt, w') ->
  profile_selected (connect (handsfree_app_states w'))
    = (if profile =? WICED_BT_HFP_PROFILE E
       then WICED_BT_HFP_PROFILE E else WICED_BT_HSP_PROFILE E)
  /\ peer_bd_addr (handsfree_ctxt_data w')
     = (if profile =? WICED_BT_HFP_PROFILE E
        then peer_bd_addr (handsfree_ctxt_data w)
        else firstn BD_ADDR_LEN addr)
  /\ handsfree_esco_params w' = handsfree_esco_params w
  /\ headset_sco_params w' = headset_sco_params w.
Proof.
  intros Hrun.
  unfold handsfree_event_callback, handsfree_event_switch,
    handsfree_connection_event_handler, hci_control_send_hf_event,
    sco_create_as_acceptor, hf_event_payload in Hrun.
  cbv [bind ret gets modify when emit WICED_BT_TRACE fail deref] in Hrun.
  split_run Hrun; inversion Hrun; subst w'; clear Hrun.
  all: repeat match goal with
       | H : (_ =? _) = _ |- _ => rewrite H
       end.
  all: repeat split.
Qed.

(** X11. A link whose connected profile is not HFP is recorded as a headset
    link, and in a build without [WICED_ENABLE_BT_HSP_PROFILE] a later
    voice-channel connection request on it is left unanswered: the
    race-guard timer is stopped if it is in use, no accept (or reject) is
    sent to the stack, and the globals stay as they were. *)
Theorem headset_request_left_unanswered (E : hf_env) (handle idx : Z)
    (addr : wiced_bt_device_address_t) (profile : Z) (w : world)
    (scb : wiced_bt_hfp_hf_scb_t) :
  wiced_bt_hfp_hf_get_scb_by_bd_addr E addr = Some scb ->
  profile <> WICED_BT_HFP_PROFILE E ->
  WICED_BT_HSP_PROFILE E <> WICED_BT_HFP_PROFILE E ->
  WICED_ENABLE_BT_HSP_PROFILE E = false ->
  exists w1 w2,
    handsfree_event_callback E handle
      (WICED_BT_HFP_HF_CONNECTION_STATE_EVT
         WICED_BT_HFP_HF_STATE_CONNECTED addr profile) w = Ok (tt, w1)
    /\ hf_sco_management_callback E (BTM_SCO_CONNECTION_REQUEST_EVT idx) w1
       = Ok (tt, w2)
    /\ calls w2 = calls w1
         ++ (if wiced_is_timer_in_use E then [wiced_stop_timer] else [])
    /\ same_globals w1 w2.
Proof.
  intros Hscb Hprof Hdiff Hflag.
  destruct (connected_run E handle addr profile w scb Hscb)
    as (w1 & Hrun1 & _).
  destruct (connected_effects E handle addr profile w w1 Hrun1)
    as (Hsel & _).
  destruct (sco_request_run E idx w1) as (w2 & Hrun2 & Hsame & Hcalls).
  exists w1, w2. split; [exact Hrun1 |]. split; [exact Hrun2 |].
  split; [| exact Hsame].
  rewrite Hcalls, Hsel, Hflag.
  apply Z.eqb_neq in Hprof, Hdiff. rewrite Hprof, Hdiff.
  rewrite app_nil_r. reflexivity.
Qed.

Lemma headset_request_left_unanswered_witness :
  exists w1 w2,
    handsfree_event_callback sample_env 1
      (WICED_BT_HFP_HF_CONNECTION_STATE_EVT
         WICED_BT_HFP_HF_STATE_CONNECTED sample_bd_addr 2) sample_world
      = Ok (tt, w1)
    /\ hf_sco_management_callback sample_env
         (BTM_SCO_CONNECTION_REQUEST_EVT 5) w1 = Ok (tt, w2)
    /\ calls w2 = calls w1
         ++ (if wiced_is_timer_in_use sample_env then [wiced_stop_timer] else [])
    /\ same_globals w1 w2.
Proof.
  apply (headset_request_left_unanswered sample_env 1 5 sample_bd_addr 2
           sample_world sample_scb).
  - reflexivity.
  - simpl. lia.
  - simpl. lia.
  - reflexivity.
Defined.

Lemma sco_connected_run (E : hf_env) (idx : Z) (w : world)
    (scb : wiced_bt_hfp_hf_scb_t) :
  wiced_bt_hfp_hf_get_scb_by_bd_addr E (peer_bd_addr (handsfree_ctxt_data w))
    = Some scb ->
  exists w',
    hf_sco_management_callback E (BTM_SCO_CONNECTED_EVT idx) w = Ok (tt, w')
    /\ calls w' = calls w ++ sco_connected_requests E w
         ++ [wiced_transport_send_data HCI_CONTROL_HF_EVENT_AUDIO_OPEN
               (handle_bytes (rfcomm_handle scb))]
    /\ handsfree_ctxt_data w'
       = set_is_sco_connected true (handsfree_ctxt_data w)
    /\ handsfree_app_states w' = handsfree_app_states w
    /\ handsfree_esco_params w' = handsfree_esco_params w
    /\ headset_sco_params w' = headset_sco_params w
    /\ (AUDIO_MANAGER_PLATFORM E = true ->
        stream_id w' = sco_connected_stream_id E w
        /\ audio_config w' = sco_connected_audio_config E w)
    /\ (AUDIO_MANAGER_PLATFORM E = false ->
        stream_id w' = stream_id w /\ audio_config w' = audio_config w).
Proof.
  intros Hscb.
  unfold hf_sco_management_callback, sco_connected_audio_manager,
    hci_control_send_hf_event, hf_event_payload, sco_connected_requests,
    sco_connected_stream_id, sco_connected_audio_config; run_monad.
  cbn. rewrite Hscb.
  destruct (AUDIO_MANAGER_PLATFORM E); cbn.
  - destruct (stream_id w =? WICED_AUDIO_MANAGER_STREAM_ID_INVALID E); cbn;
      repeat match goal with
             | |- context [if negb ?b then _ else _] => destruct b; cbn
             end;
      (eexists; split; [reflexivity |]); cbn;
      rewrite <- ?app_assoc; cbn;
      (repeat split; try discriminate).
  - eexists. split; [reflexivity |]. cbn.
    repeat split; try discriminate.
Qed.

(** X12. Once the voice channel is reported connected, an expiry of the
    race-guard timer does nothing: the connected case sets
    [is_sco_connected], and the expiry handler then returns the world
    unchanged, whatever the call state. *)
Theorem connected_channel_disarms_expiry (E : hf_env) (idx : Z) (w : world)
    (scb : wiced_bt_hfp_hf_scb_t) :
  wiced_bt_hfp_hf_get_scb_by_bd_addr E (peer_bd_addr (handsfree_ctxt_data w))
    = Some scb ->
  exists w1,
    hf_sco_management_callback E (BTM_SCO_CONNECTED_EVT idx) w = Ok (tt, w1)
    /\ is_sco_connected (handsfree_ctxt_data w1) = true
    /\ hfp_timer_expiry_handler E w1 = Ok (tt, w1).
Proof.
  intros Hscb.
  destruct (sco_connected_run E idx w scb Hscb) as (w1 & Hrun & _ & Hctxt & _).
  exists w1. split; [exact Hrun |].
  assert (Hconn : is_sco_connected (handsfree_ctxt_data w1) = true)
    by (rewrite Hctxt; reflexivity).
  split; [exact Hconn |].
  apply timer_expiry_idle. left. exact Hconn.
Qed.

Lemma connected_channel_disarms_expiry_witness :
  exists w1,
    hf_sco_management_callback sample_env (BTM_SCO_CONNECTED_EVT 3)
      sample_world_in_call = Ok (tt, w1)
    /\ is_sco_connected (handsfree_ctxt_data w1) = true
    /\ hfp_timer_expiry_handler sample_env w1 = Ok (tt, w1).
Proof.
  apply (connected_channel_disarms_expiry sample_env 3 sample_world_in_call
           sample_scb).
  reflexivity.
Defined.

Lemma sco_disconnected_run (E : hf_env) (idx : Z) (w : world)
    (scb : wiced_bt_hfp_hf_scb_t) :
  wiced_bt_hfp_hf_get_scb_by_bd_addr E (peer_bd_addr (handsfree_ctxt_data w))
    = Some scb ->
  exists w',
    hf_sco_management_callback E (BTM_SCO_DISCONNECTED_EVT idx) w = Ok (tt, w')
    /\ calls w' = calls w ++
         [wiced_transport_send_data HCI_CONTROL_HF_EVENT_AUDIO_CLOSE
            (handle_bytes (rfcomm_handle scb));
          wiced_bt_sco_create_as_acceptor]
    /\ handsfree_ctxt_data w'
       = set_is_sco_connected false
           (set_sco_index (sco_index_as_acceptor E (sco_index (handsfree_ctxt_data w)))
              (handsfree_ctxt_data w))
    /\ handsfree_app_states w' = handsfree_app_states w
    /\ handsfree_esco_params w' = handsfree_esco_params w
    /\ headset_sco_params w' = headset_sco_params w
    /\ stream_id w' = stream_id w
    /\ audio_config w' = audio_config w.
Proof.
  intros Hscb.
  unfold hf_sco_management_callback, hci_control_send_hf_event,
    sco_create_as_acceptor, hf_event_payload; run_monad.
  cbn. rewrite Hscb. cbn.
  eexists. split; [reflexivity |]. cbn.
  rewrite <- app_assoc. cbn.
  repeat split.
Qed.

(** X13. When the voice channel is lost during an active call and the
    race-guard timer then expires, the acceptor channel that the
    disconnected case has just requested is removed again, under the index
    the stack handed out for it, and replaced by a channel created as
    initiator towards the stored peer address. *)
Theorem expiry_after_channel_loss_replaces_acceptor (E : hf_env) (idx : Z)
    (w : world) (scb : wiced_bt_hfp_hf_scb_t) :
  wiced_bt_hfp_hf_get_scb_by_bd_addr E (peer_bd_addr (handsfree_ctxt_data w))
    = Some scb ->
  call_active (handsfree_ctxt_data w) <> 0 ->
  exists w1 w2,
    hf_sco_management_callback E (BTM_SCO_DISCONNECTED_EVT idx) w = Ok (tt, w1)
    /\ hfp_timer_expiry_handler E w1 = Ok (tt, w2)
    /\ calls w2 = calls w ++
         [wiced_transport_send_data HCI_CONTROL_HF_EVENT_AUDIO_CLOSE
            (handle_bytes (rfcomm_handle scb));
          wiced_bt_sco_create_as_acceptor;
          wiced_bt_sco_remove
            (sco_index_as_acceptor E (sco_index (handsfree_ctxt_data w)));
          wiced_bt_sco_create_as_initiator
            (peer_bd_addr (handsfree_ctxt_data w)) (handsfree_esco_params w)]
    /\ sco_index (handsfree_ctxt_data w2)
       = sco_index_as_initiator E (peer_bd_addr (handsfree_ctxt_data w))
           (sco_index_as_acceptor E (sco_index (handsfree_ctxt_data w))).
Proof.
  intros Hscb Hactive.
  destruct (sco_disconnected_run E idx w scb Hscb)
    as (w1 & Hrun1 & Hcalls1 & Hctxt1 & _ & Hesco1 & _).
  destruct (timer_expiry_fires E w1) as (w2 & Hrun2 & Hcalls2 & Hctxt2 & _).
  - rewrite Hctxt1. exact Hactive.
  - rewrite Hctxt1. reflexivity.
  - exists w1, w2. split; [exact Hrun1 |]. split; [exact Hrun2 |].
    rewrite Hcalls2, Hcalls1, Hctxt2, Hctxt1, Hesco1, <- app_assoc.
    split; reflexivity.
Qed.

Lemma expiry_after_channel_loss_replaces_acceptor_witness :
  exists w1 w2,
    hf_sco_management_callback sample_env (BTM_SCO_DISCONNECTED_EVT 3)
      sample_world_in_call = Ok (tt, w1)
    /\ hfp_timer_expiry_handler sample_env w1 = Ok (tt, w2)
    /\ calls w2 = calls sample_world_in_call ++
         [wiced_transport_send_data HCI_CONTROL_HF_EVENT_AUDIO_CLOSE
            (handle_bytes (rfcomm_handle sample_scb));
          wiced_bt_sco_create_as_acceptor;
          wiced_bt_sco_remove
            (sco_index_as_acceptor sample_env
               (sco_index (handsfree_ctxt_data sample_world_in_call)));
          wiced_bt_sco_create_as_initiator
            (peer_bd_addr (handsfree_ctxt_data sample_world_in_call))
            (handsfree_esco_params sample_world_in_call)]
    /\ sco_index (handsfree_ctxt_data w2)
       = sco_index_as_initiator sample_env
           (peer_bd_addr (handsfree_ctxt_data sample_world_in_call))
           (sco_index_as_acceptor sample_env
              (sco_index (handsfree_ctxt_data sample_world_in_call))).
Proof.
  apply (expiry_after_channel_loss_replaces_acceptor sample_env 3
           sample_world_in_call sample_scb).
  - reflexivity.
  - simpl. lia.
Defined.

Lemma sco_connected_audio_manager_total (E : hf_env) (w : world) :
  exists w', sco_connected_audio_manager E w = Ok (tt, w').
Proof.
  unfold sco_connected_audio_manager; run_monad.
  repeat match goal with
         | |- context [if ?b then _ else _] =>
             lazymatch b with
             | context [if _ then _ else _] => fail
             | _ => destruct b; cbv beta iota
             end
         end;
    eexists; reflexivity.
Qed.

(** X14. After a signaling disconnect the stored peer address is all zero;
    if the profile library has no control block for that address, a
    voice-channel connected or disconnected notification that arrives
    afterwards dereferences the null control block. *)
Theorem channel_event_after_link_loss_faults (E : hf_env) (handle idx : Z)
    (addr : wiced_bt_device_address_t) (profile : Z) (w : world) :
  wiced_bt_hfp_hf_get_scb_by_bd_addr E (repeat 0 BD_ADDR_LEN) = None ->
  exists w1,
    handsfree_event_callback E handle
      (WICED_BT_HFP_HF_CONNECTION_STATE_EVT
         WICED_BT_HFP_HF_STATE_DISCONNECTED addr profile) w = Ok (tt, w1)
    /\ hf_sco_management_callback E (BTM_SCO_DISCONNECTED_EVT idx) w1
       = Fault NULL_DEREFERENCE
    /\ hf_sco_management_callback E (BTM_SCO_CONNECTED_EVT idx) w1
       = Fault NULL_DEREFERENCE.
Proof.
  intros Hnone.
  destruct (disconnected_run E handle addr profile w)
    as (w1 & Hrun & _ & Hctxt & _).
  exists w1. split; [exact Hrun |].
  assert (Hp : wiced_bt_hfp_hf_get_scb_by_bd_addr E
                 (peer_bd_addr (handsfree_ctxt_data w1)) = None)
    by (rewrite Hctxt; exact Hnone).
  split.
  - unfold hf_sco_management_callback; run_monad.
    cbn [handsfree_ctxt_data add_log]. rewrite Hp. reflexivity.
  - unfold hf_sco_management_callback.
    cbv [bind gets WICED_BT_TRACE modify when].
    cbn [handsfree_ctxt_data add_log]. rewrite Hp.
    destruct (AUDIO_MANAGER_PLATFORM E).
    + destruct (sco_connected_audio_manager_total E
                  (add_log "hf_sco_management_callback: event=%d" w1))
        as (w2 & Hw2).
      rewrite Hw2. reflexivity.
    + reflexivity.
Qed.

Lemma channel_event_after_link_loss_faults_witness :
  exists w1,
    handsfree_event_callback sample_env 1
      (WICED_BT_HFP_HF_CONNECTION_STATE_EVT
         WICED_BT_HFP_HF_STATE_DISCONNECTED sample_bd_addr 1)
      sample_world_in_call = Ok (tt, w1)
    /\ hf_sco_management_callback sample_env (BTM_SCO_DISCONNECTED_EVT 3) w1
       = Fault NULL_DEREFERENCE
    /\ hf_sco_management_callback sample_env (BTM_SCO_CONNECTED_EVT 3) w1
       = Fault NULL_DEREFERENCE.
Proof.
  apply (channel_event_after_link_loss_faults sample_env 1 3 sample_bd_addr 1
           sample_world_in_call).
  reflexivity.
Defined.

(** X15. On a platform with the audio manager, the connected case opens a
    stream only if none is open, then sets the configuration (sample rate
    16 kHz exactly when [use_wbs] is set, volume and microphone gain both
    the mapped value of [AM_VOL_LEVEL_HIGH - 2]), starts the stream and sets
    speaker volume and microphone gain, in this order; whatever the audio
    manager answers, the Audio-open event is sent and [is_sco_connected]
    is set. *)
Theorem sco_connected_audio_path (E : hf_env) (idx : Z) (w : world)
    (scb : wiced_bt_hfp_hf_scb_t) :
  AUDIO_MANAGER_PLATFORM E = true ->
  wiced_bt_hfp_hf_get_scb_by_bd_addr E (peer_bd_addr (handsfree_ctxt_data w))
    = Some scb ->
  exists w',
    hf_sco_management_callback E (BTM_SCO_CONNECTED_EVT idx) w = Ok (tt, w')
    /\ calls w' = calls w
         ++ (if stream_id w =? WICED_AUDIO_MANAGER_STREAM_ID_INVALID E
             then [wiced_am_stream_open] else [])
         ++ [wiced_am_stream_set_param (stream_id w')
               (AM_AUDIO_CONFIG (audio_config w'));
             wiced_am_stream_start (stream_id w');
             wiced_am_stream_set_param (stream_id w')
               (AM_SPEAKER_VOL_LEVEL (volume (audio_config w')));
             wiced_am_stream_set_param (stream_id w')
               (AM_MIC_GAIN_LEVEL (mic_gain (audio_config w')));
             wiced_transport_send_data HCI_CONTROL_HF_EVENT_AUDIO_OPEN
               (handle_bytes (rfcomm_handle scb))]
    /\ stream_id w' = sco_connected_stream_id E w
    /\ audio_config w' = sco_connected_audio_config E w
    /\ is_sco_connected (handsfree_ctxt_data w') = true.
Proof.
  intros Ham Hscb.
  destruct (sco_connected_run E idx w scb Hscb)
    as (w' & Hrun & Hcalls & Hctxt & _ & _ & _ & Hon & _).
  destruct (Hon Ham) as [Hid Hcfg].
  exists w'. split; [exact Hrun |].
  split; [| split; [exact Hid | split; [exact Hcfg | rewrite Hctxt; reflexivity]]].
  rewrite Hcalls, Hid, Hcfg. unfold sco_connected_requests. rewrite Ham.
  rewrite <- !app_assoc. reflexivity.
Qed.

Lemma sco_connected_audio_path_witness :
  exists w',
    hf_sco_management_callback sample_env_am (BTM_SCO_CONNECTED_EVT 3)
      sample_world_in_call = Ok (tt, w')
    /\ calls w' = calls sample_world_in_call
         ++ (if stream_id sample_world_in_call
                =? WICED_AUDIO_MANAGER_STREAM_ID_INVALID sample_env_am
             then [wiced_am_stream_open] else [])
         ++ [wiced_am_stream_set_param (stream_id w')
               (AM_AUDIO_CONFIG (audio_config w'));
             wiced_am_stream_start (stream_id w');
             wiced_am_stream_set_param (stream_id w')
               (AM_SPEAKER_VOL_LEVEL (volume (audio_config w')));
             wiced_am_stream_set_param (stream_id w')
               (AM_MIC_GAIN_LEVEL (mic_gain (audio_config w')));
             wiced_transport_send_data HCI_CONTROL_HF_EVENT_AUDIO_OPEN
               (handle_bytes (rfcomm_handle sample_scb))]
    /\ stream_id w' = sco_connected_stream_id sample_env_am sample_world_in_call
    /\ audio_config w'
       = sco_connected_audio_config sample_env_am sample_world_in_call
    /\ is_sco_connected (handsfree_ctxt_data w') = true.
Proof.
  apply (sco_connected_audio_path sample_env_am 3 sample_world_in_call
           sample_scb).
  - reflexivity.
  - reflexivity.
Defined.

Lemma uint32_to_stream_decode (v : Z) :
  uint8 (uint32 v) + 256 * uint8 (Z.shiftr (uint32 v) 8)
    + 65536 * uint8 (Z.shiftr (uint32 v) 16)
    + 16777216 * uint8 (Z.shiftr (uint32 v) 24) = uint32 v.
Proof.
  unfold uint8.
  assert (H : 0 <= uint32 v < 2 ^ 32)
    by (unfold uint32; apply Z.mod_pos_bound; lia).
  rewrite !Z.shiftr_div_pow2 by lia.
  change (2 ^ 8) with 256 in *. change (2 ^ 16) with 65536 in *.
  change (2 ^ 24) with 16777216 in *. change (2 ^ 32) with 4294967296 in *.
  generalize dependent (uint32 v). intros x H.
  Z.to_euclidean_division_equations. lia.
Qed.

(** X16. The AG-features notification reaches the host as one
    Service-level-connected frame from which the host reads back the
    RFCOMM handle of the link and the feature bitmap, each reduced to the
    width of its field. *)
Theorem ag_features_frame_round_trip (E : hf_env) (handle ag_feature_flags : Z)
    (w : world) (scb : wiced_bt_hfp_hf_scb_t) :
  wiced_bt_hfp_hf_get_scb_by_handle E handle = Some scb ->
  res_in_range E (Some HCI_CONTROL_HF_EVENT_CONNECTED) = true ->
  exists w' data,
    handsfree_event_callback E handle
      (WICED_BT_HFP_HF_AG_FEATURE_SUPPORT_EVT ag_feature_flags) w = Ok (tt, w')
    /\ calls w' = calls w
         ++ [wiced_transport_send_data HCI_CONTROL_HF_EVENT_CONNECTED data]
    /\ host_decode_connected_frame data
       = Some (uint16 (rfcomm_handle scb), uint32 ag_feature_flags).
Proof.
  intros Hscb Hrange.
  unfold handsfree_event_callback, handsfree_event_switch.
  cbv [bind ret gets modify when emit WICED_BT_TRACE fail deref].
  rewrite Hscb.
  repeat match goal with
         | |- context [if ?b then _ else _] =>
             lazymatch b with
             | context [if _ then _ else _] => fail
             | _ => destruct b; cbv beta iota
             end
         end;
    try discriminate Hrange;
    rewrite send_connected_event_run;
    (eexists; eexists; split; [reflexivity |]; split; [reflexivity |]);
    cbn [peer_features conn handle_bytes UINT32_TO_STREAM app
           host_decode_connected_frame];
    rewrite le16_bytes, uint16_idem;
    rewrite <- (uint32_to_stream_decode ag_feature_flags) at 5;
    reflexivity.
Qed.

Lemma ag_features_frame_round_trip_witness :
  exists w' data,
    handsfree_event_callback sample_env 1
      (WICED_BT_HFP_HF_AG_FEATURE_SUPPORT_EVT 0x3EF) sample_world = Ok (tt, w')
    /\ calls w' = calls sample_world
         ++ [wiced_transport_send_data HCI_CONTROL_HF_EVENT_CONNECTED data]
    /\ host_decode_connected_frame data
       = Some (uint16 (rfcomm_handle sample_scb), uint32 0x3EF).
Proof.
  apply (ag_features_frame_round_trip sample_env 1 0x3EF sample_world
           sample_scb).
  - reflexivity.
  - reflexivity.
Defined.

(** X17. A signaling connect followed by a signaling disconnect: the
    Link-closed event carries the RFCOMM handle stored at the connect
    (whatever handle and address the disconnect notification names), the
    channel requested as acceptor at the connect is removed under the
    index the stack handed out unless that is the invalid sentinel, and
    the context ends with the sentinel index and the all-zero address. *)
Theorem link_open_close_round_trip (E : hf_env) (handle handle' : Z)
    (addr addr' : wiced_bt_device_address_t) (profile profile' : Z)
    (w : world) (scb : wiced_bt_hfp_hf_scb_t) :
  wiced_bt_hfp_hf_get_scb_by_bd_addr E addr = Some scb ->
  exists w1 w2,
    handsfree_event_callback E handle
      (WICED_BT_HFP_HF_CONNECTION_STATE_EVT
         WICED_BT_HFP_HF_STATE_CONNECTED addr profile) w = Ok (tt, w1)
    /\ handsfree_event_callback E handle'
         (WICED_BT_HFP_HF_CONNECTION_STATE_EVT
            WICED_BT_HFP_HF_STATE_DISCONNECTED addr' profile') w1 = Ok (tt, w2)
    /\ calls w2 = calls w1
         ++ (if sco_index_as_acceptor E (sco_index (handsfree_ctxt_data w))
                =? BT_AUDIO_INVALID_SCO_INDEX E
             then []
             else [wiced_bt_sco_remove
                     (sco_index_as_acceptor E (sco_index (handsfree_ctxt_data w)))])
         ++ [wiced_transport_send_data HCI_CONTROL_HF_EVENT_CLOSE
               (handle_bytes (rfcomm_handle scb))]
    /\ sco_index (handsfree_ctxt_data w2) = BT_AUDIO_INVALID_SCO_INDEX E
    /\ peer_bd_addr (handsfree_ctxt_data w2) = repeat 0 BD_ADDR_LEN.
Proof.
  intros Hscb.
  destruct (connected_run E handle addr profile w scb Hscb)
    as (w1 & Hrun1 & _ & Hidx & Hhandle).
  destruct (disconnected_run E handle' addr' profile' w1)
    as (w2 & Hrun2 & Hcalls & Hctxt & _).
  exists w1, w2. split; [exact Hrun1 |]. split; [exact Hrun2 |].
  rewrite Hcalls, Hctxt, Hidx, Hhandle. repeat split.
Qed.

Lemma link_open_close_round_trip_witness :
  exists w1 w2,
    handsfree_event_callback sample_env 1
      (WICED_BT_HFP_HF_CONNECTION_STATE_EVT
         WICED_BT_HFP_HF_STATE_CONNECTED sample_bd_addr 1) sample_world
      = Ok (tt, w1)
    /\ handsfree_event_callback sample_env 7
         (WICED_BT_HFP_HF_CONNECTION_STATE_EVT
            WICED_BT_HFP_HF_STATE_DISCONNECTED [] 0) w1 = Ok (tt, w2)
    /\ calls w2 = calls w1
         ++ (if sco_index_as_acceptor sample_env
                  (sco_index (handsfree_ctxt_data sample_world))
                =? BT_AUDIO_INVALID_SCO_INDEX sample_env
             then []
             else [wiced_bt_sco_remove
                     (sco_index_as_acceptor sample_env
                        (sco_index (handsfree_ctxt_data sample_world)))])
         ++ [wiced_transport_send_data HCI_CONTROL_HF_EVENT_CLOSE
               (handle_bytes (rfcomm_handle sample_scb))]
    /\ sco_index (handsfree_ctxt_data w2) = BT_AUDIO_INVALID_SCO_INDEX sample_env
    /\ peer_bd_addr (handsfree_ctxt_data w2) = repeat 0 BD_ADDR_LEN.
Proof.
  apply (link_open_close_round_trip sample_env 1 7 sample_bd_addr [] 1 0
           sample_world sample_scb).
  reflexivity.
Defined.

(** ** The race-guard timer is armed only on request *)

#[global] Instance never_arms_preorder : PreOrder never_arms.
Proof.
  split.
  - intros w Hinit. split; [exact Hinit | reflexivity].
  - intros w1 w2 w3 H12 H23 Hinit.
    destruct (H12 Hinit) as [Hinit2 G12].
    destruct (H23 Hinit2) as [Hinit3 G23].
    split; [exact Hinit3 | etransitivity; eassumption].
Qed.

Ltac arms_leaf :=
  intros ?Hinit; split;
    [ first [assumption | reflexivity]
    | first [ apply grows_quiet; reflexivity
            | apply grows_add_call; exact (fun x => x) ] ].

Lemma send_hf_event_never_arms (evt : hci_control_hf_evt) (handle : Z)
    (p_data : option hci_control_hf_event_t) :
  sat (hci_control_send_hf_event evt handle p_data) never_arms.
Proof.
  unfold hci_control_send_hf_event, hf_event_payload.
  sat_run arms_leaf.
Qed.

Create HintDb hf_arms.
#[global] Hint Resolve send_hf_event_never_arms : hf_arms.

Ltac arms_run :=
  repeat first [ solve [auto with hf_arms] | sat_step arms_leaf ].

Lemma sco_create_as_acceptor_never_arms (E : hf_env) :
  sat (sco_create_as_acceptor E) never_arms.
Proof. unfold sco_create_as_acceptor. arms_run. Qed.

Lemma sco_create_as_initiator_never_arms (E : hf_env) :
  sat (sco_create_as_initiator E) never_arms.
Proof. unfold sco_create_as_initiator. arms_run. Qed.

#[global] Hint Resolve sco_create_as_acceptor_never_arms
  sco_create_as_initiator_never_arms : hf_arms.

Lemma connection_event_handler_never_arms (E : hf_env)
    (conn_state : wiced_bt_hfp_hf_connection_state_t)
    (remote_address : wiced_bt_device_address_t) (connected_profile : Z) :
  sat (handsfree_connection_event_handler E conn_state remote_address
         connected_profile) never_arms.
Proof. unfold handsfree_connection_event_handler. arms_run. Qed.

Lemma call_setup_event_handler_never_arms (E : hf_env)
    (call_data : wiced_bt_hfp_hf_call_data_t) :
  sat (handsfree_call_setup_event_handler E call_data) never_arms.
Proof. unfold handsfree_call_setup_event_handler. arms_run. Qed.

Lemma send_ciev_cmd_never_arms (E : hf_env) (handle ind_id ind_val : Z)
    (p_val : hci_control_hf_value_t) :
  sat (handsfree_send_ciev_cmd E handle ind_id ind_val p_val) never_arms.
Proof. unfold handsfree_send_ciev_cmd, str_store. arms_run. Qed.

Lemma send_clcc_evt_never_arms (E : hf_env) (handle : Z)
    (active_call : wiced_bt_hfp_hf_active_call_t)
    (p_val : hci_control_hf_value_t) :
  sat (handsfree_send_clcc_evt E handle active_call p_val) never_arms.
Proof. unfold handsfree_send_clcc_evt, str_store. arms_run. Qed.

#[global] Hint Resolve connection_event_handler_never_arms
  call_setup_event_handler_never_arms send_ciev_cmd_never_arms
  send_clcc_evt_never_arms : hf_arms.

Lemma event_callback_never_arms (E : hf_env) (handle : Z)
    (event : wiced_bt_hfp_hf_event_t) :
  sat (handsfree_event_callback E handle event) never_arms.
Proof.
  destruct event;
    try (unfold handsfree_event_callback, handsfree_event_switch, str_store;
         cbv beta iota zeta; arms_run; fail).
  intros w [] w' Hrun Hinit.
  destruct (codec_set_effects E handle selected_codec w w' Hrun)
    as (_ & _ & Hinit' & l & Hcalls & Hl).
  rewrite Hinit in Hcalls.
  split; [exact Hinit' | exists l; split; assumption].
Qed.

Lemma sco_connected_audio_manager_never_arms (E : hf_env) :
  sat (sco_connected_audio_manager E) never_arms.
Proof. unfold sco_connected_audio_manager. arms_run. Qed.

#[global] Hint Resolve sco_connected_audio_manager_never_arms : hf_arms.

Lemma sco_management_callback_never_arms (E : hf_env)
    (event : wiced_bt_management_evt_t) :
  sat (hf_sco_management_callback E event) never_arms.
Proof. unfold hf_sco_management_callback. arms_run. Qed.

Lemma timer_expiry_handler_never_arms (E : hf_env) :
  sat (hfp_timer_expiry_handler E) never_arms.
Proof. unfold hfp_timer_expiry_handler. arms_run. Qed.

#[global] Hint Resolve event_callback_never_arms
  sco_management_callback_never_arms timer_expiry_handler_never_arms : hf_arms.

Lemma dispatch_all_never_arms (E : hf_env) (ns : list notification) :
  sat (dispatch_all E ns) never_arms.
Proof.
  induction ns as [| n ns IH]; cbn [dispatch_all].
  - apply sat_ret. typeclasses eauto.
  - apply sat_bind; [typeclasses eauto | | intros _; exact IH].
    destruct n; cbn [dispatch]; auto with hf_arms.
Qed.

(** X18. No notification handler sets [init_sco_conn]: started from a
    context in which it is false, any sequence of profile, voice-channel
    and timer notifications that runs to completion leaves it false and
    never starts the race-guard timer. *)
Theorem race_guard_timer_armed_only_on_request (E : hf_env)
    (ns : list notification) (w w' : world) :
  dispatch_all E ns w = Ok (tt, w') ->
  init_sco_conn (handsfree_ctxt_data w) = false ->
  init_sco_conn (handsfree_ctxt_data w') = false
  /\ exists l, calls w' = calls w ++ l /\ Forall (fun c => ~ is_timer_start c) l.
Proof.
  intros Hrun Hinit.
  exact (dispatch_all_never_arms E ns w tt w' Hrun Hinit).
Qed.

Lemma race_guard_timer_armed_only_on_request_witness :
  exists w',
    dispatch_all sample_env call_lifecycle sample_world = Ok (tt, w')
    /\ init_sco_conn (handsfree_ctxt_data w') = false
    /\ exists l, calls w' = calls sample_world ++ l
                 /\ Forall (fun c => ~ is_timer_start c) l.
Proof.
  eexists. split; [vm_compute; reflexivity |].
  apply (race_guard_timer_armed_only_on_request sample_env call_lifecycle
           sample_world).
  - vm_compute. reflexivity.
  - reflexivity.
Defined.

(** * Properties of start-up and of the management callback *)

(** ** Running the handlers inside this layer *)

Lemma skipn_length_app {A} (l l' : list A) :
  skipn (List.length l) (l ++ l') = l'.
Proof.
  rewrite skipn_app, skipn_all, Nat.sub_diag. reflexivity.
Qed.

Lemma lift_run {A} (m : M A) (s : system) (a : A) (w' : world) (l : list call) :
  m (globals s) = Ok (a, w') ->
  calls w' = calls (globals s) ++ l ->
  lift m s = Done (a, {| globals := w';
                         requests := requests s ++ map hf_request l |}).
Proof.
  intros Hm Hc. unfold lift. rewrite Hm, Hc, skipn_length_app. reflexivity.
Qed.

Lemma lift_quiet {A} (m : M A) (s : system) (a : A) (w' : world) :
  m (globals s) = Ok (a, w') ->
  calls w' = calls (globals s) ->
  lift m s = Done (a, {| globals := w'; requests := requests s |}).
Proof.
  intros Hm Hc.
  rewrite (lift_run m s a w' []) by (rewrite ?app_nil_r; assumption).
  cbn [map]. rewrite app_nil_r. reflexivity.
Qed.

Lemma lift_fault {A} (m : M A) (s : system) (f : fault) :
  m (globals s) = Fault f -> lift m s = Crash (HF_FAULT f).
Proof. intros Hm. unfold lift. rewrite Hm. reflexivity. Qed.

Lemma lift_trace (t : string) (s : system) :
  sys_trace t s
  = Done (tt, {| globals := add_log t (globals s); requests := requests s |}).
Proof. unfold sys_trace. apply lift_quiet; reflexivity. Qed.

Lemma lift_gets {A} (f : world -> A) (s : system) :
  lift (gets f) s
  = Done (f (globals s), {| globals := globals s; requests := requests s |}).
Proof. apply lift_quiet; reflexivity. Qed.

Lemma lift_modify (f : world -> world) (s : system) :
  calls (f (globals s)) = calls (globals s) ->
  lift (modify f) s
  = Done (tt, {| globals := f (globals s); requests := requests s |}).
Proof. intros Hc. apply lift_quiet; [reflexivity | exact Hc]. Qed.

Lemma lift_emit (c : call) (s : system) :
  lift (emit c) s
  = Done (tt, {| globals := add_call c (globals s);
                 requests := requests s ++ [hf_request c] |}).
Proof. apply (lift_run (emit c) s tt _ [c]); reflexivity. Qed.

Ltac sys_unfold :=
  cbv [sys_bind sys_ret sys_when sys_crash request];
  cbn [globals requests].

Ltac sys_step :=
  first [ rewrite lift_trace
        | rewrite lift_emit
        | rewrite lift_gets
        | rewrite lift_modify by reflexivity ];
  cbv beta iota; cbn [globals requests].

Ltac sys_run := sys_unfold; repeat sys_step.

(** ** The extended inquiry response *)

Lemma uint8_small (z : Z) : 0 <= z < 256 -> uint8 z = z.
Proof. intros H. unfold uint8. apply Z.mod_small. exact H. Qed.

Lemma uint8_le (z : Z) : 0 <= z -> 0 <= uint8 z <= z.
Proof.
  intros H. unfold uint8. split.
  - apply Z.mod_pos_bound. lia.
  - apply Z.mod_le; lia.
Qed.

Lemma eir_data_length (S : sys_env) :
  Z.of_nat (List.length (eir_data S))
  = uint8 (Z.of_nat (strlen (HANDS_FREE_DEVICE_NAME S)))
    + (if WICED_ENABLE_BT_HSP_PROFILE (hf_side S) then 11 else 9).
Proof.
  unfold eir_data, strlen.
  set (name := c_str (HANDS_FREE_DEVICE_NAME S)).
  pose proof (uint8_le (Z.of_nat (List.length name)) ltac:(lia)) as Hle.
  cbn [app List.length]. rewrite !length_app, length_firstn.
  destruct (WICED_ENABLE_BT_HSP_PROFILE (hf_side S)); cbn [app List.length]; lia.
Qed.

Lemma eir_fields_cons (fuel : nat) (len type : Z) (data rest : list Z) :
  0 < len ->
  (Z.to_nat len - 1)%nat = List.length data ->
  eir_fields (Datatypes.S fuel) (len :: type :: data ++ rest)
  = (type, data) :: eir_fields fuel rest.
Proof.
  intros Hpos Hlen. cbn [eir_fields].
  replace (len =? 0) with false by (symmetry; apply Z.eqb_neq; lia).
  rewrite Hlen, length_app.
  replace (List.length data <=? List.length data + List.length rest)%nat
    with true by (symmetry; apply Nat.leb_le; lia).
  rewrite firstn_app, firstn_all, Nat.sub_diag, skipn_length_app.
  cbn [firstn]. rewrite app_nil_r. reflexivity.
Qed.

Lemma eir_data_decodes (S : sys_env) :
  (strlen (HANDS_FREE_DEVICE_NAME S) < 255)%nat ->
  exists rest,
    host_decode_eir (eir_data S)
    = (0x09, c_str (HANDS_FREE_DEVICE_NAME S))
        :: (0x02, [uint8 (Z.land (first_service_uuid S) 0xff);
                   uint8 (Z.land (Z.shiftr (first_service_uuid S) 8) 0xff)])
        :: rest.
Proof.
  intros Hname.
  assert (Hlen8 : uint8 (Z.of_nat (strlen (HANDS_FREE_DEVICE_NAME S)))
                  = Z.of_nat (strlen (HANDS_FREE_DEVICE_NAME S)))
    by (apply uint8_small; lia).
  unfold host_decode_eir, eir_data, first_service_uuid.
  fold (strlen (HANDS_FREE_DEVICE_NAME S)). rewrite Hlen8, Nat2Z.id.
  replace (firstn (strlen (HANDS_FREE_DEVICE_NAME S))
             (c_str (HANDS_FREE_DEVICE_NAME S)))
    with (c_str (HANDS_FREE_DEVICE_NAME S))
    by (unfold strlen; rewrite firstn_all; reflexivity).
  rewrite (uint8_small (Z.of_nat (strlen (HANDS_FREE_DEVICE_NAME S)) + 1)) by lia.
  change (uint8 (1 * 2 + 1)) with 3.
  cbn [app List.length].
  rewrite eir_fields_cons by (unfold strlen; lia).
  rewrite length_app. cbn [app List.length]. rewrite Nat.add_succ_r.
  destruct (WICED_ENABLE_BT_HSP_PROFILE (hf_side S)); cbn [app];
    match goal with
    | |- context [eir_fields _ (3 :: 2 :: ?a :: ?b :: ?r)] =>
        rewrite (eir_fields_cons _ 3 2 [a; b] r) by (cbn [List.length]; lia)
    end;
    eexists; reflexivity.
Qed.

(** X19. With a buffer at hand, a device name of fewer than 255 characters
    and room for the bytes, [handsfree_write_eir] asks for the buffer and
    writes one extended inquiry response.  A receiver that walks its
    fields reads the complete-name field with the device name and then a
    16-bit service list of one UUID, the first one written (headset in a
    build with [WICED_ENABLE_BT_HSP_PROFILE], hands-free otherwise): the
    length octet of the list is 3 although two or three UUIDs are
    written, so the UUIDs after the first are not part of the list. *)
Theorem eir_advertises_one_service (S : sys_env) (s : system) :
  wiced_bt_get_buffer_ok S = true ->
  (strlen (HANDS_FREE_DEVICE_NAME S) < 255)%nat ->
  Z.of_nat (strlen (HANDS_FREE_DEVICE_NAME S))
    + (if WICED_ENABLE_BT_HSP_PROFILE (hf_side S) then 11 else 9)
    <= WICED_HS_EIR_BUF_MAX_SIZE S ->
  exists s' data rest,
    handsfree_write_eir S s = Done (tt, s')
    /\ requests s' = requests s
         ++ [wiced_bt_get_buffer (WICED_HS_EIR_BUF_MAX_SIZE S);
             wiced_bt_dev_write_eir data (uint16 (Z.of_nat (List.length data)))]
    /\ host_decode_eir data
       = (0x09, c_str (HANDS_FREE_DEVICE_NAME S))
           :: (0x02, [uint8 (Z.land (first_service_uuid S) 0xff);
                      uint8 (Z.land (Z.shiftr (first_service_uuid S) 8) 0xff)])
           :: rest.
Proof.
  intros Hbuf Hname Hfit.
  assert (Hlen8 : uint8 (Z.of_nat (strlen (HANDS_FREE_DEVICE_NAME S)))
                  = Z.of_nat (strlen (HANDS_FREE_DEVICE_NAME S)))
    by (apply uint8_small; lia).
  assert (Hfit' : (Z.of_nat (List.length (eir_data S))
                   <=? WICED_HS_EIR_BUF_MAX_SIZE S) = true)
    by (apply Z.leb_le; rewrite eir_data_length, Hlen8; exact Hfit).
  destruct (eir_data_decodes S Hname) as (rest & Hrest).
  unfold handsfree_write_eir. sys_run. rewrite Hbuf. cbn [negb].
  rewrite Hfit'. sys_run.
  eexists. exists (eir_data S), rest.
  split; [reflexivity |]. cbn [requests].
  split; [rewrite <- app_assoc; reflexivity | exact Hrest].
Qed.

Lemma eir_advertises_one_service_witness :
  exists s' data rest,
    handsfree_write_eir sample_sys_env sample_system = Done (tt, s')
    /\ requests s' = requests sample_system
         ++ [wiced_bt_get_buffer (WICED_HS_EIR_BUF_MAX_SIZE sample_sys_env);
             wiced_bt_dev_write_eir data (uint16 (Z.of_nat (List.length data)))]
    /\ host_decode_eir data
       = (0x09, c_str (HANDS_FREE_DEVICE_NAME sample_sys_env))
           :: (0x02,
               [uint8 (Z.land (first_service_uuid sample_sys_env) 0xff);
                uint8 (Z.land (Z.shiftr (first_service_uuid sample_sys_env) 8)
                         0xff)])
           :: rest.
Proof.
  apply (eir_advertises_one_service sample_sys_env sample_system).
  - reflexivity.
  - vm_compute. lia.
  - simpl. lia.
Defined.



(** ** Start-up *)

(** X21. [handsfree_hfp_init] always returns, having reset the context as
    [handsfree_init_context_data] does and asked for RFCOMM with buffer
    size 700 and 4 buffers; the profile library is initialised exactly
    when that request succeeds, with the volumes of the freshly reset
    context (8 and 8) and with as many channel numbers and UUIDs as
    [num_server] says. *)
Theorem hfp_init_registers_initial_volumes (S : sys_env) (s : system) :
  exists s' w0,
    handsfree_hfp_init S s = Done (tt, s')
    /\ exec (handsfree_init_context_data (hf_side S)) (globals s) = Some w0
    /\ handsfree_ctxt_data (globals s') = handsfree_ctxt_data w0
    /\ requests s' = requests s
         ++ wiced_bt_rfcomm_init 700 4
         :: (if wiced_bt_rfcomm_init_result S =? WICED_BT_RFCOMM_SUCCESS S
             then [wiced_bt_hfp_hf_init
                     (hfp_hf_config S (handsfree_ctxt_data w0))]
             else [])
    /\ config_speaker_volume (hfp_hf_config S (handsfree_ctxt_data w0)) = 8
    /\ config_mic_volume (hfp_hf_config S (handsfree_ctxt_data w0)) = 8
    /\ config_num_server (hfp_hf_config S (handsfree_ctxt_data w0))
       = Z.of_nat (List.length
                     (config_scn (hfp_hf_config S (handsfree_ctxt_data w0))))
    /\ List.length (config_uuid (hfp_hf_config S (handsfree_ctxt_data w0)))
       = List.length (config_scn (hfp_hf_config S (handsfree_ctxt_data w0))).
Proof.
  unfold handsfree_hfp_init, handsfree_init_context_data. sys_run.
  destruct (wiced_bt_rfcomm_init_result S =? WICED_BT_RFCOMM_SUCCESS S);
    cbn [negb]; sys_run;
    (eexists; eexists; split; [reflexivity |]); cbn [globals requests];
    (split; [reflexivity |]);
    (split; [reflexivity |]);
    (split; [rewrite <- ?app_assoc; reflexivity |]);
    cbn [config_speaker_volume config_mic_volume config_num_server
           config_scn config_uuid hfp_hf_config];
    destruct (WICED_ENABLE_BT_HSP_PROFILE (hf_side S)); repeat split.
Qed.

Ltac sys_split H :=
  cbv beta iota in H; cbn [globals requests] in H;
  repeat (first
    [ discriminate H
    | rewrite lift_trace in H
    | rewrite lift_emit in H
    | rewrite lift_gets in H
    | rewrite lift_modify in H by reflexivity
    | match type of H with
      | context [(if ?b then _ else _) _] =>
          lazymatch b with
          | context [if _ then _ else _] => fail
          | _ => destruct b eqn:?
          end
      end ];
    cbv beta iota in H;
    cbn [globals requests stream_id set_stream_id add_log add_call] in H).

Ltac sys_done H :=
  inversion H; subst; clear H; cbn [globals requests].

(** What [handsfree_post_bt_init] leaves behind when it returns. *)
Lemma post_bt_init_effects (S : sys_env) (enabled_status : Z) (s s' : system) :
  handsfree_post_bt_init S enabled_status s = Done (tt, s') ->
  stream_id (globals s') = stream_id (globals s)
  /\ pairing_allowed (handsfree_app_states (globals s'))
     = (if enabled_status =? WICED_BT_SUCCESS then false
        else pairing_allowed (handsfree_app_states (globals s)))
  /\ init_sco_conn (handsfree_ctxt_data (globals s'))
     = (if enabled_status =? WICED_BT_SUCCESS then false
        else init_sco_conn (handsfree_ctxt_data (globals s)))
  /\ exists l, requests s' = requests s ++ l
               /\ Forall (fun c => ~ is_hf_request c) l.
Proof.
  intros Hrun.
  unfold handsfree_post_bt_init, handsfree_write_eir, handsfree_hfp_init,
    handsfree_init_context_data in Hrun.
  cbv [sys_bind sys_ret sys_when sys_crash request] in Hrun.
  sys_split Hrun; sys_done Hrun;
    (split; [reflexivity |]); (split; [reflexivity |]);
    (split; [reflexivity |]);
    rewrite <- ?app_assoc; cbn [app];
    first
      [ eexists; split; [reflexivity |];
        repeat (apply Forall_cons; [exact (fun x => x) |]); apply Forall_nil
      | exists []; split; [rewrite ?app_nil_r; reflexivity | apply Forall_nil] ].
Qed.

(** What the audio-manager block of the enabled case leaves behind. *)
Lemma enabled_audio_manager_effects (S : sys_env) (s s' : system) (r : Z) :
  enabled_audio_manager S s = Done (r, s') ->
  r = wiced_bt_sco_setup_voice_path_result S
  /\ stream_id (globals s')
     = (if negb (CYW43012C0 S)
        then WICED_AUDIO_MANAGER_STREAM_ID_INVALID (hf_side S)
        else stream_id (globals s))
  /\ handsfree_ctxt_data (globals s') = handsfree_ctxt_data (globals s)
  /\ handsfree_app_states (globals s') = handsfree_app_states (globals s)
  /\ requests s' = requests s
       ++ [wiced_bt_sco_setup_voice_path; wiced_am_init]
       ++ (if CYW43012C0 S then []
           else hf_request wiced_am_stream_open
                  :: (if am_stream_open_id (hf_side S)
                         =? WICED_AUDIO_MANAGER_STREAM_ID_INVALID (hf_side S)
                      then []
                      else [wiced_am_stream_close
                              (am_stream_open_id (hf_side S))])).
Proof.
  intros Hrun.
  unfold enabled_audio_manager in Hrun.
  cbv [sys_bind sys_ret sys_when sys_crash request] in Hrun.
  destruct (CYW43012C0 S); cbn [negb] in *.
  - sys_split Hrun; sys_done Hrun.
    rewrite <- !app_assoc. repeat split.
  - sys_split Hrun; sys_done Hrun;
      repeat match goal with
             | H : (_ =? _) = _ |- _ => rewrite H
             end;
      rewrite <- ?app_assoc; cbn [app]; repeat split;
      match goal with
      | H : (_ =? _) = true |- _ => apply Z.eqb_eq in H; exact H
      end.
Qed.

Lemma enabled_effects (S : sys_env) (enabled_status : Z) (s s' : system)
    (r : Z * event_data_out) :
  handsfree_management_callback S (BTM_ENABLED_EVT enabled_status) s
    = Done (r, s') ->
  r = (enabled_result S, event_data_unchanged)
  /\ stream_id (globals s') = enabled_stream_id S (globals s)
  /\ pairing_allowed (handsfree_app_states (globals s'))
     = (if enabled_status =? WICED_BT_SUCCESS then false
        else pairing_allowed (handsfree_app_states (globals s)))
  /\ init_sco_conn (handsfree_ctxt_data (globals s'))
     = (if enabled_status =? WICED_BT_SUCCESS then false
        else init_sco_conn (handsfree_ctxt_data (globals s))).
Proof.
  intros Hrun.
  unfold enabled_result, enabled_stream_id.
  unfold handsfree_management_callback in Hrun.
  cbv [sys_bind sys_ret sys_when sys_crash request] in Hrun.
  rewrite lift_trace in Hrun. cbv beta iota in Hrun.
  cbn [globals requests] in Hrun.
  match type of Hrun with
  | context [handsfree_post_bt_init S enabled_status ?s1] =>
      destruct (handsfree_post_bt_init S enabled_status s1)
        as [[[] s2] | f] eqn:Hpost; [| discriminate Hrun]
  end.
  apply post_bt_init_effects in Hpost.
  destruct Hpost as (Hid & Hpair & Hinit & _).
  cbn [globals stream_id add_log handsfree_app_states handsfree_ctxt_data]
    in Hid, Hpair, Hinit.
  rewrite lift_trace in Hrun. cbv beta iota in Hrun.
  cbn [globals requests] in Hrun.
  destruct (CYW20706A2 S); cbv beta iota in Hrun; cbn [globals requests] in Hrun;
    (destruct (AUDIO_MANAGER_PLATFORM (hf_side S)); cbn [andb];
     [ match type of Hrun with
       | context [enabled_audio_manager S ?s3] =>
           destruct (enabled_audio_manager S s3) as [[r3 s4] | f] eqn:Ham;
             [| discriminate Hrun]
       end;
       apply enabled_audio_manager_effects in Ham;
       destruct Ham as (Hr & Hid' & Hctxt' & Happ' & _);
       cbn [globals stream_id add_log handsfree_app_states handsfree_ctxt_data]
         in Hid', Hctxt', Happ';
       sys_done Hrun;
       rewrite Hctxt', Happ', Hid', Hpair, Hinit, Hid;
       repeat split
     | sys_done Hrun;
       cbn [stream_id add_log handsfree_app_states handsfree_ctxt_data];
       rewrite Hpair, Hinit, Hid; repeat split ]).
Qed.

(** X22. The value returned for the enabled event does not depend on the
    status the stack reports or on the outcome of the profile
    initialisation: it is the answer of the voice-path setup on a platform
    with the audio manager and success otherwise.  On such a platform
    (other than CYW43012C0) no stream is left open: [stream_id] is the
    invalid sentinel afterwards. *)
Theorem enabled_event_outcome (S : sys_env) (enabled_status : Z)
    (s s' : system) (r : Z * event_data_out) :
  handsfree_management_callback S (BTM_ENABLED_EVT enabled_status) s
    = Done (r, s') ->
  r = (enabled_result S, event_data_unchanged)
  /\ stream_id (globals s') = enabled_stream_id S (globals s).
Proof.
  intros Hrun.
  destruct (enabled_effects S enabled_status s s' r Hrun) as (Hr & Hid & _).
  split; assumption.
Qed.

Lemma enabled_event_outcome_witness :
  exists r s',
    handsfree_management_callback sample_sys_env (BTM_ENABLED_EVT 1)
      sample_system_in_call = Done (r, s')
    /\ r = (enabled_result sample_sys_env, event_data_unchanged)
    /\ stream_id (globals s')
       = enabled_stream_id sample_sys_env (globals sample_system_in_call).
Proof.
  eexists. eexists. split; [vm_compute; reflexivity |].
  apply (enabled_event_outcome sample_sys_env 1 sample_system_in_call).
  vm_compute. reflexivity.
Defined.

(** X23. After the stack has been enabled successfully, pairing is not
    allowed: a security request is answered with [WICED_BT_ERROR], no
    grant (nor any other request) is sent to the stack, and
    [pairing_allowed] stays false. *)
Theorem pairing_refused_after_enable (S : sys_env)
    (bda : wiced_bt_device_address_t) (s s1 : system)
    (r : Z * event_data_out) :
  handsfree_management_callback S (BTM_ENABLED_EVT WICED_BT_SUCCESS) s
    = Done (r, s1) ->
  exists s2,
    handsfree_management_callback S (BTM_SECURITY_REQUEST_EVT bda) s1
      = Done ((WICED_BT_ERROR S, event_data_unchanged), s2)
    /\ requests s2 = requests s1
    /\ pairing_allowed (handsfree_app_states (globals s2)) = false.
Proof.
  intros Hrun.
  destruct (enabled_effects S WICED_BT_SUCCESS s s1 r Hrun)
    as (_ & _ & Hpair & _).
  cbn in Hpair.
  unfold handsfree_management_callback. sys_run.
  cbn [handsfree_app_states add_log]. rewrite Hpair.
  eexists. split; [reflexivity |]. cbn [globals requests].
  split; [reflexivity | exact Hpair].
Qed.

Lemma pairing_refused_after_enable_witness :
  exists r s1,
    handsfree_management_callback sample_sys_env
      (BTM_ENABLED_EVT WICED_BT_SUCCESS) sample_system = Done (r, s1)
    /\ pairing_allowed (handsfree_app_states (globals sample_system)) = true
    /\ exists s2,
         handsfree_management_callback sample_sys_env
           (BTM_SECURITY_REQUEST_EVT sample_bd_addr) s1
         = Done ((WICED_BT_ERROR sample_sys_env, event_data_unchanged), s2)
         /\ requests s2 = requests s1
         /\ pairing_allowed (handsfree_app_states (globals s2)) = false.
Proof.
  eexists. eexists. split; [vm_compute; reflexivity |].
  split; [reflexivity |].
  eapply (pairing_refused_after_enable sample_sys_env sample_bd_addr
            sample_system).
  vm_compute. reflexivity.
Defined.

(** X24. When the stack reports a failure in the enabled event, the
    timer, the extended inquiry response, the SDP database, RFCOMM and the
    profile library are not set up and the context and the application
    state stay as they were; pairable mode is still switched off, the key
    pool created, the HCI trace registered and, on a platform with the
    audio manager, the voice path set up and the stream probed. *)
Theorem failed_enable_skips_profile_init (S : sys_env) (enabled_status : Z)
    (s : system) :
  enabled_status <> WICED_BT_SUCCESS ->
  exists s',
    handsfree_management_callback S (BTM_ENABLED_EVT enabled_status) s
      = Done ((enabled_result S, event_data_unchanged), s')
    /\ requests s' = requests s
         ++ wiced_bt_set_pairable_mode 0 0 :: enabled_tail_requests S
    /\ handsfree_ctxt_data (globals s') = handsfree_ctxt_data (globals s)
    /\ handsfree_app_states (globals s') = handsfree_app_states (globals s).
Proof.
  intros Hst. apply Z.eqb_neq in Hst.
  unfold handsfree_management_callback, handsfree_post_bt_init,
    enabled_audio_manager, enabled_result, enabled_tail_requests,
    stream_probe_requests.
  rewrite Hst. sys_run.
  destruct (CYW20706A2 S); sys_run;
    (destruct (AUDIO_MANAGER_PLATFORM (hf_side S)); sys_run;
     [ destruct (CYW43012C0 S); cbn [negb]; sys_run;
       [| cbn [stream_id set_stream_id];
          destruct (am_stream_open_id (hf_side S)
                    =? WICED_AUDIO_MANAGER_STREAM_ID_INVALID (hf_side S));
          sys_run;
          [| destruct (am_stream_close_ok S (am_stream_open_id (hf_side S)));
             cbn [negb]; sys_run ] ]
     | ]);
    (eexists; split; [reflexivity |]); cbn [globals requests];
    rewrite <- ?app_assoc; cbn [app]; repeat split.
Qed.

Lemma failed_enable_skips_profile_init_witness :
  exists s',
    handsfree_management_callback sample_sys_env (BTM_ENABLED_EVT 1)
      sample_system
      = Done ((enabled_result sample_sys_env, event_data_unchanged), s')
    /\ requests s' = requests sample_system
         ++ wiced_bt_set_pairable_mode 0 0
         :: enabled_tail_requests sample_sys_env
    /\ handsfree_ctxt_data (globals s')
       = handsfree_ctxt_data (globals sample_system)
    /\ handsfree_app_states (globals s')
       = handsfree_app_states (globals sample_system).
Proof.
  apply (failed_enable_skips_profile_init sample_sys_env 1 sample_system).
  unfold WICED_BT_SUCCESS. lia.
Defined.

(** ** Voice-channel events at the management callback *)

Lemma sco_disconnected_audio_manager_run (S : sys_env) (s : system) :
  stream_id (globals s) <> WICED_AUDIO_MANAGER_STREAM_ID_INVALID (hf_side S) ->
  exists s1,
    sco_disconnected_audio_manager S s = Done (tt, s1)
    /\ requests s1 = requests s
         ++ [wiced_am_stream_stop (stream_id (globals s));
             wiced_am_stream_close (stream_id (globals s))]
    /\ stream_id (globals s1) = WICED_AUDIO_MANAGER_STREAM_ID_INVALID (hf_side S)
    /\ handsfree_ctxt_data (globals s1) = handsfree_ctxt_data (globals s)
    /\ handsfree_esco_params (globals s1) = handsfree_esco_params (globals s)
    /\ calls (globals s1) = calls (globals s).
Proof.
  intros Hid. apply Z.eqb_neq in Hid.
  unfold sco_disconnected_audio_manager. sys_run. rewrite Hid. cbn [negb].
  sys_run.
  destruct (am_stream_stop_ok S (stream_id (globals s))); cbn [negb]; sys_run;
    (destruct (am_stream_close_ok S (stream_id (globals s))); cbn [negb];
     sys_run);
    (eexists; split; [reflexivity |]); cbn [globals requests];
    rewrite <- ?app_assoc; repeat split.
Qed.

(** X25. On a platform with the audio manager, when the voice channel is
    lost while a stream is open, the stream is stopped and closed before
    the Audio-close event and the new acceptor request, and [stream_id]
    becomes the invalid sentinel; the next voice-channel connected event
    therefore opens a stream again and stores its identifier. *)
Theorem stream_reopened_after_channel_loss (S : sys_env) (idx idx' : Z)
    (s : system) (scb : wiced_bt_hfp_hf_scb_t) :
  AUDIO_MANAGER_PLATFORM (hf_side S) = true ->
  stream_id (globals s) <> WICED_AUDIO_MANAGER_STREAM_ID_INVALID (hf_side S) ->
  wiced_bt_hfp_hf_get_scb_by_bd_addr (hf_side S)
    (peer_bd_addr (handsfree_ctxt_data (globals s))) = Some scb ->
  exists s1 s2 l,
    handsfree_management_callback S (BTM_SCO (BTM_SCO_DISCONNECTED_EVT idx)) s
      = Done ((WICED_BT_SUCCESS, event_data_unchanged), s1)
    /\ requests s1 = requests s
         ++ [wiced_am_stream_stop (stream_id (globals s));
             wiced_am_stream_close (stream_id (globals s));
             hf_request (wiced_transport_send_data
                           HCI_CONTROL_HF_EVENT_AUDIO_CLOSE
                           (handle_bytes (rfcomm_handle scb)));
             hf_request wiced_bt_sco_create_as_acceptor]
    /\ stream_id (globals s1) = WICED_AUDIO_MANAGER_STREAM_ID_INVALID (hf_side S)
    /\ handsfree_management_callback S (BTM_SCO (BTM_SCO_CONNECTED_EVT idx')) s1
       = Done ((WICED_BT_SUCCESS, event_data_unchanged), s2)
    /\ requests s2 = requests s1 ++ hf_request wiced_am_stream_open :: l
    /\ stream_id (globals s2) = am_stream_open_id (hf_side S).
Proof.
  intros Ham Hid Hscb.
  (* the disconnected event *)
  destruct (sco_disconnected_audio_manager_run S
              {| globals := add_log
                   "Bluetooth management callback event: 0x%02x, free mem %d"
                   (globals s);
                 requests := requests s |} Hid)
    as (sa & Hsa & Hreq_a & Hid_a & Hctxt_a & Hesco_a & Hcalls_a).
  cbn [globals requests stream_id handsfree_ctxt_data handsfree_esco_params
         calls add_log] in Hreq_a, Hid_a, Hctxt_a, Hesco_a, Hcalls_a.
  destruct (sco_disconnected_run (hf_side S) idx (globals sa) scb)
    as (w1 & Hrun1 & Hcalls1 & Hctxt1 & _ & Hesco1 & _ & Hid1 & _).
  { rewrite Hctxt_a. exact Hscb. }
  pose proof (lift_run _ sa tt w1 _ Hrun1 Hcalls1) as Hlift1.
  (* the connected event *)
  set (s1 := {| globals := w1;
                requests := requests sa ++ map hf_request
                  [wiced_transport_send_data HCI_CONTROL_HF_EVENT_AUDIO_CLOSE
                     (handle_bytes (rfcomm_handle scb));
                   wiced_bt_sco_create_as_acceptor] |}) in *.
  destruct (sco_connected_run (hf_side S) idx'
              (add_log "Bluetooth management callback event: 0x%02x, free mem %d" w1)
              scb)
    as (w2 & Hrun2 & Hcalls2 & _ & _ & _ & _ & Hon & _).
  { cbn [handsfree_ctxt_data add_log]. rewrite Hctxt1. cbn [peer_bd_addr
      set_is_sco_connected set_sco_index]. rewrite Hctxt_a. exact Hscb. }
  destruct (Hon Ham) as [Hid2 _].
  assert (Hinv : (stream_id w1
                  =? WICED_AUDIO_MANAGER_STREAM_ID_INVALID (hf_side S)) = true)
    by (apply Z.eqb_eq; rewrite Hid1; exact Hid_a).
  unfold sco_connected_requests, sco_connected_stream_id in Hcalls2, Hid2.
  cbn [stream_id add_log] in Hcalls2, Hid2. rewrite Ham, Hinv in Hcalls2.
  rewrite Hinv in Hid2.
  cbn [app] in Hcalls2.
  pose proof (lift_run (hf_sco_management_callback (hf_side S)
                          (BTM_SCO_CONNECTED_EVT idx'))
                {| globals := add_log
                     "Bluetooth management callback event: 0x%02x, free mem %d" w1;
                   requests := requests s1 |} tt w2 _ Hrun2 Hcalls2) as Hlift2.
  eexists. eexists. eexists.
  split.
  { unfold handsfree_management_callback. sys_run. rewrite Ham.
    cbv [sys_when]. rewrite Hsa. cbv beta iota. rewrite Hlift1.
    cbv beta iota. reflexivity. }
  unfold s1 in *. cbn [globals requests map].
  split; [rewrite Hreq_a, <- app_assoc; reflexivity |].
  split; [rewrite Hid1; exact Hid_a |].
  split.
  { unfold handsfree_management_callback. sys_run.
    cbn [globals requests map] in Hlift2. rewrite Hlift2.
    cbv beta iota. reflexivity. }
  cbn [globals requests map].
  split; [reflexivity | exact Hid2].
Qed.

Lemma stream_reopened_after_channel_loss_witness :
  exists s1 s2 l,
    handsfree_management_callback sample_sys_env
      (BTM_SCO (BTM_SCO_DISCONNECTED_EVT 3)) sample_system_in_call
      = Done ((WICED_BT_SUCCESS, event_data_unchanged), s1)
    /\ requests s1 = requests sample_system_in_call
         ++ [wiced_am_stream_stop (stream_id (globals sample_system_in_call));
             wiced_am_stream_close (stream_id (globals sample_system_in_call));
             hf_request (wiced_transport_send_data
                           HCI_CONTROL_HF_EVENT_AUDIO_CLOSE
                           (handle_bytes (rfcomm_handle sample_scb)));
             hf_request wiced_bt_sco_create_as_acceptor]
    /\ stream_id (globals s1)
       = WICED_AUDIO_MANAGER_STREAM_ID_INVALID (hf_side sample_sys_env)
    /\ handsfree_management_callback sample_sys_env
         (BTM_SCO (BTM_SCO_CONNECTED_EVT 4)) s1
       = Done ((WICED_BT_SUCCESS, event_data_unchanged), s2)
    /\ requests s2 = requests s1 ++ hf_request wiced_am_stream_open :: l
    /\ stream_id (globals s2) = am_stream_open_id (hf_side sample_sys_env).
Proof.
  apply (stream_reopened_after_channel_loss sample_sys_env 3 4
           sample_system_in_call sample_scb).
  - reflexivity.
  - simpl. lia.
  - reflexivity.
Defined.

(** ** The NVRAM helpers *)

(** X26. [handsfree_read_nvram] compares the [int] length with [sizeof] at
    unsigned type: the read is made (always of
    [sizeof (wiced_bt_device_link_keys_t)] bytes) when the length is at
    least that size and also when it is negative; for a length from 0 up
    to the size nothing is read and 0 is returned. *)
Theorem read_nvram_length_guard (S : sys_env) (nvram_id data_len : Z)
    (s : system) :
  - 2 ^ 31 <= data_len < 2 ^ 31 ->
  0 < sizeof_wiced_bt_device_link_keys_t S < 2 ^ 31 ->
  exists r s',
    handsfree_read_nvram S nvram_id data_len s = Done (r, s')
    /\ requests s' = requests s
         ++ (if (data_len <? 0)
                || (sizeof_wiced_bt_device_link_keys_t S <=? data_len)
             then [wiced_hal_read_nvram nvram_id
                     (sizeof_wiced_bt_device_link_keys_t S)]
             else [])
    /\ r = (if (data_len <? 0)
               || (sizeof_wiced_bt_device_link_keys_t S <=? data_len)
            then uint16 (wiced_hal_read_nvram_result S nvram_id
                           (sizeof_wiced_bt_device_link_keys_t S))
            else 0).
Proof.
  intros Hlen Hsize.
  unfold handsfree_read_nvram.
  assert (Hguard : (sizeof_wiced_bt_device_link_keys_t S <=? uint32 data_len)
                   = (data_len <? 0)
                     || (sizeof_wiced_bt_device_link_keys_t S <=? data_len)).
  { unfold uint32. change (2 ^ 31) with 2147483648 in *.
    change (2 ^ 32) with 4294967296.
    destruct (Z.ltb_spec data_len 0) as [Hneg | Hpos]; cbn [orb].
    - apply Z.leb_le.
      replace (data_len mod 4294967296) with (data_len + 4294967296); [lia |].
      apply Z.mod_unique with (q := -1); lia.
    - rewrite Z.mod_small by lia. reflexivity. }
  rewrite Hguard.
  destruct ((data_len <? 0)
            || (sizeof_wiced_bt_device_link_keys_t S <=? data_len)); sys_run;
    (eexists; eexists; split; [reflexivity |]); cbn [globals requests];
    rewrite ?app_nil_r; split; reflexivity.
Qed.

Lemma read_nvram_length_guard_witness :
  exists r s',
    handsfree_read_nvram sample_sys_env 0x10 (-1) sample_system = Done (r, s')
    /\ requests s' = requests sample_system
         ++ (if (-1 <? 0)
                || (sizeof_wiced_bt_device_link_keys_t sample_sys_env <=? -1)
             then [wiced_hal_read_nvram 0x10
                     (sizeof_wiced_bt_device_link_keys_t sample_sys_env)]
             else [])
    /\ r = (if (-1 <? 0)
               || (sizeof_wiced_bt_device_link_keys_t sample_sys_env <=? -1)
            then uint16 (wiced_hal_read_nvram_result sample_sys_env 0x10
                           (sizeof_wiced_bt_device_link_keys_t sample_sys_env))
            else 0).
Proof.
  apply (read_nvram_length_guard sample_sys_env 0x10 (-1) sample_system).
  - simpl. lia.
  - simpl. lia.
Defined.

(** ** Pairing and key events *)

(** X27. The events of the management callback other than the enabled and
    the voice-channel events (security request, pairing complete, link
    keys update and request, IO capabilities, user confirmation,
    encryption status, identity keys, disabled, unlisted) leave the globals
    of the handlers and their history as they are and make none of the
    handlers' requests. *)
Theorem pairing_events_keep_call_state (S : sys_env)
    (event : wiced_bt_management_event) (s s' : system)
    (r : Z * event_data_out) :
  is_pairing_event event = true ->
  handsfree_management_callback S event s = Done (r, s') ->
  same_globals (globals s) (globals s')
  /\ calls (globals s') = calls (globals s)
  /\ exists l, requests s' = requests s ++ l
               /\ Forall (fun c => ~ is_hf_request c) l.
Proof.
  intros Hev Hrun.
  unfold handsfree_management_callback in Hrun.
  cbv [sys_bind sys_ret sys_when sys_crash request] in Hrun.
  destruct event; try discriminate Hev;
    sys_split Hrun; sys_done Hrun;
    (split; [repeat split |]); (split; [reflexivity |]);
    rewrite <- ?app_assoc; cbn [app];
    first
      [ exists []; split; [rewrite ?app_nil_r; reflexivity | apply Forall_nil]
      | eexists; split; [reflexivity |];
        repeat (apply Forall_cons; [exact (fun x => x) |]); apply Forall_nil ].
Qed.

Lemma pairing_events_keep_call_state_witness :
  exists r s',
    handsfree_management_callback sample_sys_env
      (BTM_PAIRED_DEVICE_LINK_KEYS_REQUEST_EVT sample_bd_addr)
      sample_system_in_call = Done (r, s')
    /\ same_globals (globals sample_system_in_call) (globals s')
    /\ calls (globals s') = calls (globals sample_system_in_call)
    /\ exists l, requests s' = requests sample_system_in_call ++ l
                 /\ Forall (fun c => ~ is_hf_request c) l.
Proof.
  eexists. eexists. split; [vm_compute; reflexivity |].
  eapply (pairing_events_keep_call_state sample_sys_env
            (BTM_PAIRED_DEVICE_LINK_KEYS_REQUEST_EVT sample_bd_addr)
            sample_system_in_call).
  - reflexivity.
  - vm_compute. reflexivity.
Defined.

(** ** Start-up composed with the notification handlers *)

(** X28. After the stack has been enabled successfully, [init_sco_conn] is
    false, so whatever profile, voice-channel and timer notifications
    follow, a run to completion never starts the race-guard timer. *)
Theorem timer_idle_after_enable (S : sys_env) (ns : list notification)
    (s s1 : system) (r : Z * event_data_out) (w' : world) :
  handsfree_management_callback S (BTM_ENABLED_EVT WICED_BT_SUCCESS) s
    = Done (r, s1) ->
  dispatch_all (hf_side S) ns (globals s1) = Ok (tt, w') ->
  init_sco_conn (handsfree_ctxt_data w') = false
  /\ exists l, calls w' = calls (globals s1) ++ l
               /\ Forall (fun c => ~ is_timer_start c) l.
Proof.
  intros Hen Hrun.
  destruct (enabled_effects S WICED_BT_SUCCESS s s1 r Hen)
    as (_ & _ & _ & Hinit).
  cbn in Hinit.
  exact (dispatch_all_never_arms (hf_side S) ns (globals s1) tt w' Hrun Hinit).
Qed.

Lemma timer_idle_after_enable_witness :
  exists r s1 w',
    handsfree_management_callback sample_sys_env
      (BTM_ENABLED_EVT WICED_BT_SUCCESS) sample_system = Done (r, s1)
    /\ dispatch_all (hf_side sample_sys_env) call_lifecycle (globals s1)
       = Ok (tt, w')
    /\ init_sco_conn (handsfree_ctxt_data w') = false
    /\ exists l, calls w' = calls (globals s1) ++ l
                 /\ Forall (fun c => ~ is_timer_start c) l.
Proof.
  eexists. eexists. eexists.
  split; [vm_compute; reflexivity |].
  split; [vm_compute; reflexivity |].
  eapply (timer_idle_after_enable sample_sys_env call_lifecycle sample_system).
  - vm_compute. reflexivity.
  - vm_compute. reflexivity.
Defined.
